(** * Majsoul-Data: the schema generator and table exporter of [main.py]

    [main.py] is one procedure.  It checks the published version against
    the recorded one, downloads [config.proto] and [lqc.lqbin], writes a
    proto3 schema with one message per (table, sheet) pair, has the schema
    compiled, and exports every data block of the bundle as a list of
    records.

    The development follows the procedure top to bottom:
    - [Text]: the string operations the procedure applies to names
      ([str.split], [str.capitalize], [str.join], [str.endswith]);
    - [Schema]: the bundle as the procedure reads it and the text of
      [parsed.proto] it builds (lines 70-79);
    - [Rows]: message objects and the record built for one row
      (lines 115-126);
    - [Run]: the procedure itself, as a state-and-exception monad over a
      file store and an event log, with the network, the schema compiler
      and the message runtime as parameters. *)

From stdpp Require Import base option list strings pretty gmap.
From Stdlib Require Import ZArith Ascii Lia.
From Stdlib Require String.

Local Open Scope Z_scope.

(** ** Text *)

Module Text.

(** Line feed and double quote, which string literals cannot hold. *)
Definition LF : string := String (ascii_of_nat 10) EmptyString.
Definition DQUOTE : string := String (ascii_of_nat 34) EmptyString.

(** The delimiter of [split("_")]. *)
Definition UNDERSCORE : ascii := ascii_of_nat 95.

(** [str.upper] and [str.lower] on one character.  Table and sheet names
    become proto3 message names, which are ASCII identifiers; characters
    outside [A-Za-z] are left as they are. *)
Definition upper (c : ascii) : ascii :=
  let n := nat_of_ascii c in
  if ((97 <=? n) && (n <=? 122))%nat then ascii_of_nat (n - 32) else c.

Definition lower (c : ascii) : ascii :=
  let n := nat_of_ascii c in
  if ((65 <=? n) && (n <=? 90))%nat then ascii_of_nat (n + 32) else c.

Fixpoint lower_all (s : string) : string :=
  match s with
  | EmptyString => EmptyString
  | String c s' => String (lower c) (lower_all s')
  end.

(** [s.capitalize()]: first character upper case, all others lower case. *)
Definition capitalize (s : string) : string :=
  match s with
  | EmptyString => EmptyString
  | String c s' => String (upper c) (lower_all s')
  end.

(** [s.split(sep)] for a one-character separator: never empty, and
    [n] separators give [n + 1] segments, empty ones included. *)
Fixpoint split (sep : ascii) (s : string) : list string :=
  match s with
  | EmptyString => [EmptyString]
  | String c s' =>
      if Ascii.eqb c sep then EmptyString :: split sep s'
      else match split sep s' with
           | w :: ws => String c w :: ws
           | [] => [String c EmptyString]
           end
  end.

(** ["".join(words)]. *)
Fixpoint join (words : list string) : string :=
  match words with
  | [] => EmptyString
  | w :: ws => w +:+ join ws
  end.

(** [s.startswith(p)] and [s.endswith(p)]. *)
Fixpoint startswith (p s : string) : bool :=
  match p, s with
  | EmptyString, _ => true
  | String a p', String b s' => Ascii.eqb a b && startswith p' s'
  | String _ _, EmptyString => false
  end.

Fixpoint endswith (p s : string) : bool :=
  if String.eqb p s then true
  else match s with
       | EmptyString => false
       | String _ s' => endswith p s'
       end.

End Text.

(** ** Schema: the bundle and the generated [parsed.proto] *)

Module Schema.
Import Text.

(** The bundle as [main] reads it.  [config.proto] is downloaded at run
    time; the records hold the attributes the procedure accesses:
    [schema.name], [schema.sheets], [parsed.name], [parsed.fields], the four
    attributes of a field, and [data.table], [data.sheet], [data.data]. *)
Record Field := {
  field_name : string;
  array_length : Z;
  pb_type : string;
  pb_index : Z
}.

Record SheetSchema := {
  sheet_name : string;
  fields : list Field
}.

Record TableSchema := {
  name : string;
  sheets : list SheetSchema
}.

Record SheetData := {
  table : string;
  sheet : string;
  data : list string
}.

Record ConfigTables := {
  schemas : list TableSchema;
  datas : list SheetData
}.

(** Lines 74-75 and 102-103, the same two statements at both places:
    [class_words = f"{a}_{b}".split("_")] and
    [class_name = "".join(name.capitalize() for name in class_words)]. *)
Definition class_words (a b : string) : list string :=
  split UNDERSCORE (a +:+ "_" +:+ b).

Definition class_name (a b : string) : string :=
  join (map capitalize (class_words a b)).

(** Line 78: one field declaration appended to the text. *)
Definition emit_field (new_proto : string) (field : Field) : string :=
  new_proto +:+
    ("  " +:+ (if 0 <? array_length field then "repeated" else "") +:+ " "
     +:+ pb_type field +:+ " " +:+ field_name field
     +:+ " = " +:+ pretty (pb_index field) +:+ ";" +:+ LF).

(** Lines 74-79: one message per sheet. *)
Definition emit_sheet (schema : TableSchema) (new_proto : string)
    (parsed : SheetSchema) : string :=
  let class_name := class_name (name schema) (sheet_name parsed) in
  let new_proto := new_proto +:+ ("message " +:+ class_name +:+ " {" +:+ LF) in
  let new_proto := fold_left emit_field (fields parsed) new_proto in
  new_proto +:+ ("}" +:+ LF +:+ LF).

(** Lines 72-73. *)
Definition emit_schema (new_proto : string) (schema : TableSchema) : string :=
  fold_left (emit_sheet schema) (sheets schema) new_proto.

(** Lines 70-79: the text written to [parsed.proto]. *)
Definition new_proto (config_table : ConfigTables) : string :=
  fold_left emit_schema (schemas config_table)
    ("syntax = " +:+ DQUOTE +:+ "proto3" +:+ DQUOTE +:+ ";" +:+ LF +:+ LF).

(** *** The text in closed form *)

(** What follows the label slot of a field line. *)
Definition field_decl (field : Field) : string :=
  pb_type field +:+ " " +:+ field_name field
  +:+ " = " +:+ pretty (pb_index field) +:+ ";" +:+ LF.

Definition field_line (field : Field) : string :=
  "  " +:+ (if 0 <? array_length field then "repeated" else "") +:+ " "
  +:+ field_decl field.

Definition message_text (schema : TableSchema) (parsed : SheetSchema) : string :=
  ("message " +:+ class_name (name schema) (sheet_name parsed) +:+ " {" +:+ LF)
  +:+ join (map field_line (fields parsed)) +:+ ("}" +:+ LF +:+ LF).

Definition schema_text (schema : TableSchema) : string :=
  join (map (message_text schema) (sheets schema)).

Definition header : string :=
  "syntax = " +:+ DQUOTE +:+ "proto3" +:+ DQUOTE +:+ ";" +:+ LF +:+ LF.

(** The key as the specification words it: the two names concatenated,
    split on the delimiter, each segment capitalised, the segments joined. *)
Definition spec_type_key (tableName sheetName : string) : string :=
  join (map capitalize (split UNDERSCORE (tableName +:+ sheetName))).

(** One name normalised on its own. *)
Definition normalize (s : string) : string :=
  join (map capitalize (split UNDERSCORE s)).

End Schema.

(** ** Exceptions *)

(** The exceptions a run can end with, by the statement that raises them. *)
Inductive exn :=
| RequestError        (* requests.get / response.json *)
| FileNotFoundError   (* open of a missing file, or a missing executable *)
| JSONDecodeError     (* json.load *)
| KeyError            (* subscript of a missing key, globals()[class_name] *)
| TypeError           (* subscript or call of an unfit object, json.dump *)
| NameError           (* ConfigTables is not defined *)
| AttributeError      (* attribute an object does not have *)
| ExecError           (* exec of a generated module *)
| DecodeError         (* ParseFromString *)
| FileExistsError.    (* mkdir where a regular file stands *)

Inductive result (A : Type) :=
| Ok (a : A)
| Err (e : exn).
Arguments Ok {A} a.
Arguments Err {A} e.

#[global] Instance result_ret : MRet result := λ A a, Ok a.
#[global] Instance result_bind : MBind result := λ A B f r,
  match r with
  | Ok a => f a
  | Err e => Err e
  end.

(** ** Rows: message objects and the record of one row *)

Module Rows.

(** Python values: what a JSON document decodes to and what a record
    holds.  A float is kept as the bit pattern of its IEEE-754 double,
    a dict as its items in insertion order; [VNone] is [None].
    [VRepeated l] is the container the runtime hands out for a repeated
    field, holding [l]: it can be iterated, it is not a [list].
    [VMessage] is the message object a message-typed field holds. *)
#[warnings="-register-all"] Inductive pyval :=
| VNone
| VBool (b : bool)
| VInt (z : Z)
| VFloat (bits : Z)
| VStr (s : string)
| VBytes (b : string)
| VList (l : list pyval)
| VDict (items : list (string * pyval))
| VRepeated (l : list pyval)
| VMessage.

(** The field types of proto3: the scalar types, which are all a
    message of [parsed.proto] can declare with a type name of the
    language, then enumerations and messages, as the classes of
    [config_pb2] have them. *)
Inductive ftype :=
| TYPE_DOUBLE | TYPE_FLOAT
| TYPE_INT32 | TYPE_INT64 | TYPE_UINT32 | TYPE_UINT64
| TYPE_SINT32 | TYPE_SINT64
| TYPE_FIXED32 | TYPE_FIXED64 | TYPE_SFIXED32 | TYPE_SFIXED64
| TYPE_BOOL | TYPE_STRING | TYPE_BYTES
| TYPE_ENUM | TYPE_MESSAGE.

Inductive flabel := LABEL_OPTIONAL | LABEL_REQUIRED | LABEL_REPEATED.

Definition flabel_eqb (a b : flabel) : bool :=
  match a, b with
  | LABEL_OPTIONAL, LABEL_OPTIONAL
  | LABEL_REQUIRED, LABEL_REQUIRED
  | LABEL_REPEATED, LABEL_REPEATED => true
  | _, _ => false
  end.

(** [descriptor_field]: an entry of [klass().DESCRIPTOR.fields]. *)
Record FieldDescriptor := {
  fd_name : string;
  fd_number : Z;
  fd_type : ftype;
  fd_label : flabel
}.

(** A generated message class: its declared fields in declaration
    order. *)
Record MessageClass := {
  DESCRIPTOR_fields : list FieldDescriptor
}.

(** A message object: its class and, per field name, the elements the
    parsed row carried for that field, in the order of the row. *)
Record Message := {
  msg_class : MessageClass;
  msg_elems : gmap string (list pyval)
}.

(** [klass()]: a fresh message, nothing set. *)
Definition new_message (klass : MessageClass) : Message :=
  {| msg_class := klass; msg_elems := ∅ |}.

(** The value an unset singular field reads as. *)
Definition default_value (t : ftype) : pyval :=
  match t with
  | TYPE_DOUBLE | TYPE_FLOAT => VFloat 0
  | TYPE_BOOL => VBool false
  | TYPE_STRING => VStr ""
  | TYPE_BYTES => VBytes ""
  | TYPE_MESSAGE => VMessage
  | _ => VInt 0
  end.

Definition elems (field : Message) (n : string) : list pyval :=
  default [] (msg_elems field !! n).

(** Reading a declared field: a repeated field reads as the runtime's
    container of its elements, a singular field as the last element the
    row carried, or as the default of its type when the row carried
    none. *)
Definition field_value (field : Message) (fd : FieldDescriptor) : pyval :=
  match fd_label fd with
  | LABEL_REPEATED => VRepeated (elems field (fd_name fd))
  | _ => default (default_value (fd_type fd)) (last (elems field (fd_name fd)))
  end.

Definition find_field (klass : MessageClass) (n : string)
    : option FieldDescriptor :=
  find (λ fd, String.eqb (fd_name fd) n) (DESCRIPTOR_fields klass).

(** [hasattr(field, n)] and [getattr(field, n)] for field names. *)
Definition hasattr (field : Message) (n : string) : bool :=
  match find_field (msg_class field) n with
  | Some _ => true
  | None => false
  end.

Definition getattr (field : Message) (n : string) : result pyval :=
  match find_field (msg_class field) n with
  | Some fd => Ok (field_value field fd)
  | None => Err AttributeError
  end.

Fixpoint chars (s : string) : list pyval :=
  match s with
  | EmptyString => []
  | String c s' => VStr (String c EmptyString) :: chars s'
  end.

Fixpoint byte_values (s : string) : list pyval :=
  match s with
  | EmptyString => []
  | String c s' => VInt (Z.of_nat (nat_of_ascii c)) :: byte_values s'
  end.

(** [list(value)]: a new list of what iterating over [value] yields. *)
Definition py_list (value : pyval) : result pyval :=
  match value with
  | VList l => Ok (VList l)
  | VRepeated l => Ok (VList l)
  | VStr s => Ok (VList (chars s))
  | VBytes b => Ok (VList (byte_values b))
  | VDict items => Ok (VList (VStr <$> items.*1))
  | _ => Err TypeError
  end.

(** A record: a Python dict, keys in insertion order. *)
Definition Row : Type := list (string * pyval).

(** [row[k] = v]: a present key keeps its place, a new key goes last. *)
Fixpoint dict_set (row : Row) (k : string) (v : pyval) : Row :=
  match row with
  | [] => [(k, v)]
  | (k', v') :: rest =>
      if String.eqb k' k then (k', v) :: rest
      else (k', v') :: dict_set rest k v
  end.

Fixpoint dict_get (row : Row) (k : string) : option pyval :=
  match row with
  | [] => None
  | (k', v') :: rest => if String.eqb k' k then Some v' else dict_get rest k
  end.

(** What a name of the module's globals is bound to: a generated message
    class; the [ConfigTables] class of [config_pb2], given by its parser
    and its fields; [pathlib.Path]; the [FieldDescriptor] class of the
    protobuf runtime; or an object that cannot be called and has none of
    the attributes [main] reads (a module, a number, a descriptor). *)
Inductive pyobj :=
| MsgClass (klass : MessageClass)
| TablesClass (parse : string → option Schema.ConfigTables)
              (klass : MessageClass)
| PathClass
| FieldDescriptorClass
| OtherObject.

(** [FieldDescriptor.LABEL_REPEATED], line 121.  [FieldDescriptor] is a
    global of the module: it is looked up each time the line runs, in
    the globals the generated modules have written to.  Only the
    runtime's class has the constant: a generated class has the fields
    of its message as attributes of its objects, not of the class. *)
Definition FieldDescriptor_LABEL_REPEATED (G : gmap string pyobj)
    : result flabel :=
  match G !! "FieldDescriptor" with
  | Some FieldDescriptorClass => Ok LABEL_REPEATED
  | Some _ => Err AttributeError
  | None => Err NameError
  end.

(** Lines 119-125: the body of the loop over the descriptor's fields. *)
Definition row_step (G : gmap string pyobj) (field : Message) (row : Row)
    (descriptor_field : FieldDescriptor) : result Row :=
  if hasattr field (fd_name descriptor_field) then
    value ← getattr field (fd_name descriptor_field);
    repeated ← FieldDescriptor_LABEL_REPEATED G;
    value ← (if flabel_eqb (fd_label descriptor_field) repeated
             then py_list value else Ok value);
    Ok (dict_set row (fd_name descriptor_field) value)
  else
    Ok (dict_set row (fd_name descriptor_field) VNone).

Fixpoint row_loop (G : gmap string pyobj) (field : Message)
    (descriptor_fields : list FieldDescriptor) (row : Row) : result Row :=
  match descriptor_fields with
  | [] => Ok row
  | descriptor_field :: rest =>
      row ← row_step G field row descriptor_field;
      row_loop G field rest row
  end.

(** Lines 117-125: the record of one parsed row. *)
Definition build_row (G : gmap string pyobj) (klass : MessageClass)
    (field : Message) : result Row :=
  row_loop G field (DESCRIPTOR_fields klass) [].

(** The record in closed form: a repeated field holds the list of its
    elements, a singular field what it reads as. *)
Definition cell_value (field : Message) (fd : FieldDescriptor) : pyval :=
  match fd_label fd with
  | LABEL_REPEATED => VList (elems field (fd_name fd))
  | _ => field_value field fd
  end.

Definition cell (field : Message) (fd : FieldDescriptor) : string * pyval :=
  (fd_name fd, cell_value field fd).

Definition row_of (field : Message) : Row :=
  map (cell field) (DESCRIPTOR_fields (msg_class field)).

Definition field_names (klass : MessageClass) : list string :=
  map fd_name (DESCRIPTOR_fields klass).


End Rows.

(** ** Run: the procedure [main] *)

Module Run.
Import Text Schema Rows.

(** *** Python values as [main] uses them *)

(** [json.dump] accepts [None], booleans, numbers, strings, lists and
    dicts of such; not [bytes], not the runtime's containers, not message
    objects. *)
Fixpoint json_ok (v : pyval) : bool :=
  match v with
  | VBytes _ | VRepeated _ | VMessage => false
  | VList l => forallb json_ok l
  | VDict items => forallb (λ kv, json_ok (snd kv)) items
  | _ => true
  end.

(** Truth value, as [not info] takes it. *)
Definition truthy (v : pyval) : bool :=
  match v with
  | VNone => false
  | VBool b => b
  | VInt z => negb (z =? 0)
  | VFloat bits => negb (Z.land bits (2 ^ 63 - 1) =? 0)
  | VStr s => negb (String.eqb s "")
  | VBytes b => negb (String.eqb b "")
  | VList l | VRepeated l => match l with [] => false | _ => true end
  | VDict items => match items with [] => false | _ => true end
  | VMessage => true
  end.

(** [obj[key]] for a string key. *)
Definition getitem (obj : pyval) (key : string) : result pyval :=
  match obj with
  | VDict items =>
      match dict_get items key with
      | Some v => Ok v
      | None => Err KeyError
      end
  | _ => Err TypeError
  end.

(** [obj.items()]. *)
Definition dict_items (obj : pyval) : result (list (string * pyval)) :=
  match obj with
  | VDict items => Ok items
  | _ => Err AttributeError
  end.

(** *** Files, events, the world *)

(** The content of a file.  What [json.dump] writes is kept as the value
    dumped; [Truncated v] is what a [json.dump] of [v] leaves behind when
    it raises half-way. *)
Inductive content :=
| Text (s : string)
| Dumped (v : pyval)
| Truncated (v : pyval).

Inductive event :=
| EGet (url : string)
| ERead (path : string)
| EOpenW (path : string)
| EWrite (path : string) (c : content)
| EPrint (line : string)
| ERun (argv : list string)
| EMkdir (path : string).

Record World := {
  fs : gmap string content;
  trace : list event
}.

(** The collaborators of [main]: the network, Python's equality and
    formatting, the [json] module, the schema compiler and the generated
    message code. *)
Record Env := {
  (** [requests.get(url).json()]; [None] when it raises *)
  http_json : string → option pyval;
  (** [requests.get(url).content]; [None] when it raises *)
  http_content : string → option string;
  (** [a == b] *)
  py_eq : pyval → pyval → bool;
  (** [f"{v}"] *)
  py_format : pyval → string;
  (** [json.load] of a text; [None] when it raises *)
  json_loads : string → option pyval;
  (** the text [json.dump] writes, whole or cut short *)
  json_dumps : pyval → string;
  json_partial : pyval → string;
  (** whether the [protoc] executable is found *)
  protoc_installed : bool;
  (** the module [protoc --python_out=.] generates for a schema text;
      [None] when it rejects the text and writes nothing *)
  protoc : string → option string;
  (** [exec(code, globals())]: the globals afterwards; [None] when it
      raises *)
  exec_module : string → gmap string pyobj → option (gmap string pyobj);
  (** [ParseFromString] on a fresh message of a class: the elements of
      each field in the row; [None] for [DecodeError] *)
  ParseFromString : MessageClass → string → option (gmap string (list pyval))
}.

(** *** The monad: state, exceptions and exit *)

Inductive outcome (A : Type) :=
| Return (a : A)
| Exit (code : Z)
| Raise (e : exn).
Arguments Return {A} a.
Arguments Exit {A} code.
Arguments Raise {A} e.

Definition M (A : Type) : Type := World → outcome A * World.

#[global] Instance M_ret : MRet M := λ A a w, (Return a, w).
#[global] Instance M_bind : MBind M := λ A B f m w,
  match m w with
  | (Return a, w') => f a w'
  | (Exit code, w') => (Exit code, w')
  | (Raise e, w') => (Raise e, w')
  end.

Definition raise {A} (e : exn) : M A := λ w, (Raise e, w).
Definition exit {A} (code : Z) : M A := λ w, (Exit code, w).

Definition lift {A} (r : result A) : M A :=
  match r with
  | Ok a => mret a
  | Err e => raise e
  end.

Definition or_raise {A} (e : exn) (o : option A) : M A :=
  match o with
  | Some a => mret a
  | None => raise e
  end.

Definition emit (e : event) : M unit :=
  λ w, (Return tt, {| fs := fs w; trace := trace w ++ [e] |}).

Definition print (line : string) : M unit := emit (EPrint line).

Definition set_file (path : string) (c : content) : M unit :=
  λ w, (Return tt, {| fs := <[path := c]> (fs w); trace := trace w |}).

Definition get_file (path : string) : M content :=
  λ w, match fs w !! path with
       | Some c => (Return c, w)
       | None => (Raise FileNotFoundError, w)
       end.

(** What stands at a path: a regular file with its content, or none. *)
Definition stat (path : string) : M (option content) :=
  λ w, (Return (fs w !! path), w).

(** [for x in l: body(x)]. *)
Fixpoint for_each {A} (l : list A) (body : A → M unit) : M unit :=
  match l with
  | [] => mret tt
  | x :: rest => body x;; for_each rest body
  end.

Section Main.
Context (E : Env).

(** **** Files and requests *)

Definition text_of (c : content) : string :=
  match c with
  | Text s => s
  | Dumped v => json_dumps E v
  | Truncated v => json_partial E v
  end.

(** [open(path, "w")]: the file exists and is empty. *)
Definition open_w (path : string) : M unit :=
  emit (EOpenW path);; set_file path (Text "").

(** [f.write(c)]. *)
Definition file_write (path : string) (c : content) : M unit :=
  emit (EWrite path c);; set_file path c.

(** [json.dump(v, f)] on the file opened at [path]. *)
Definition json_dump (v : pyval) (path : string) : M unit :=
  if json_ok v then file_write path (Dumped v)
  else file_write path (Truncated v);; raise TypeError.

(** [open(path).read()]. *)
Definition read_text (path : string) : M string :=
  emit (ERead path);;
  c ← get_file path;
  mret (text_of c).

(** [json.load] of a file's content: a whole dump reads back as the
    value dumped. *)
Definition json_of (c : content) : result pyval :=
  match c with
  | Text s =>
      match json_loads E s with
      | Some v => Ok v
      | None => Err JSONDecodeError
      end
  | Dumped v => Ok v
  | Truncated _ => Err JSONDecodeError
  end.

(** [json.load(open(path))]. *)
Definition json_load (path : string) : M pyval :=
  emit (ERead path);;
  c ← get_file path;
  lift (json_of c).

(** [requests.get(url).json()] and [requests.get(url).content]. *)
Definition get_json (url : string) : M pyval :=
  emit (EGet url);; or_raise RequestError (http_json E url).

Definition get_content (url : string) : M string :=
  emit (EGet url);; or_raise RequestError (http_content E url).

(** [subprocess.run(["protoc", "--python_out=.", file])]: the exit status
    is not looked at; a rejected schema leaves [out] as it was. *)
Definition run_protoc (file out : string) : M unit :=
  emit (ERun ["protoc"; "--python_out=."; file]);;
  if negb (protoc_installed E) then raise FileNotFoundError
  else λ w,
    match fs w !! file with
    | Some c =>
        match protoc E (text_of c) with
        | Some code => set_file out (Text code) w
        | None => (Return tt, w)
        end
    | None => (Return tt, w)
    end.

(** [Path(path).mkdir(parents=True, exist_ok=True)]: a directory that is
    there already is fine, a regular file of that name is not. *)
Definition mkdir (path : string) : M unit :=
  emit (EMkdir path);;
  file ← stat path;
  match file with
  | Some _ => raise FileExistsError
  | None => mret tt
  end.

(** [exec(open(path).read(), globals())]. *)
Definition exec_file (path : string) (G : gmap string pyobj)
    : M (gmap string pyobj) :=
  code ← read_text path;
  or_raise ExecError (exec_module E code G).

(** **** Lines 8-21: the version check *)

Definition URL : string := "https://game.maj-soul.com/1".

Definition check_version : M pyval :=
  live_version ← get_json (URL +:+ "/version.json");
  local_version ← json_load "version.json";
  (if py_eq E local_version live_version then
     print "No update";; exit 0
   else
     print ("New Live version: " +:+ py_format E live_version);;
     open_w "version.json";;
     json_dump live_version "version.json");;
  mret live_version.

(** **** Lines 23-52: the two resources *)

(** Lines 31-35: one turn of the loop over [res.items()]. *)
Definition scan_res (acc : pyval * pyval) (item : string * pyval)
    : pyval * pyval :=
  let '(config_proto_info, lqc_info) := acc in
  let '(file_path, info) := item in
  if endswith "config.proto" file_path then (info, lqc_info)
  else if endswith "lqc.lqbin" file_path then (config_proto_info, info)
  else (config_proto_info, lqc_info).

Definition download (live_version : pyval) : M unit :=
  live_version ← lift (getitem live_version "version");
  let resversion_URL :=
    URL +:+ "/resversion" +:+ py_format E live_version +:+ ".json" in
  resversion_req ← get_json resversion_URL;
  res ← lift (getitem resversion_req "res");
  items ← lift (dict_items res);
  let '(config_proto_info, lqc_info) :=
    fold_left scan_res items (VNone, VNone) in
  (if negb (truthy config_proto_info) || negb (truthy lqc_info) then
     print "config.proto or lqc.lqbin not found";; exit 1
   else mret tt);;
  prefix ← lift (getitem config_proto_info "prefix");
  let config_proto_url :=
    URL +:+ "/" +:+ py_format E prefix +:+ "/res/proto/config.proto" in
  prefix ← lift (getitem lqc_info "prefix");
  let lqc_url :=
    URL +:+ "/" +:+ py_format E prefix +:+ "/res/config/lqc.lqbin" in
  print "Download config.proto...";;
  config_proto_req ← get_content config_proto_url;
  open_w "config.proto";;
  file_write "config.proto" (Text config_proto_req);;
  print "Download lqc.lqbin...";;
  lqc_req ← get_content lqc_url;
  open_w "lqc.lqbin";;
  file_write "lqc.lqbin" (Text lqc_req).

(** **** Lines 54-66: the bundle *)

(** The names lines 1-5 import, before any generated code runs: two
    classes and three modules.  The function [main] itself is a global
    too; no key of a table can name it, and it is left out. *)
Definition main_globals : gmap string pyobj :=
  list_to_map
    [("Path", PathClass); ("subprocess", OtherObject);
     ("json", OtherObject); ("FieldDescriptor", FieldDescriptorClass);
     ("requests", OtherObject)].

(** [ConfigTables()], line 63, with what [main] goes on to read of the
    object: the class must be the one of the bundle.  A message class of
    another shape and [Path] lack an attribute that is read of it; the
    other objects cannot be called like this. *)
Definition new_ConfigTables (G : gmap string pyobj)
    : M (string → option ConfigTables) :=
  match G !! "ConfigTables" with
  | Some (TablesClass parse _) => mret parse
  | Some (MsgClass _) | Some PathClass => raise AttributeError
  | Some _ => raise TypeError
  | None => raise NameError
  end.

Definition load_tables (G : gmap string pyobj)
    : M (gmap string pyobj * ConfigTables) :=
  run_protoc "config.proto" "config_pb2.py";;
  print "Load config_pb2.py...";;
  G ← exec_file "config_pb2.py" G;
  print "Load tables from lqc.lqbin...";;
  parse ← new_ConfigTables G;
  lqc ← read_text "lqc.lqbin";
  config_table ← or_raise DecodeError (parse lqc);
  mret (G, config_table).

(** **** Lines 68-95: [parsed.proto] and its classes *)

Definition write_parsed_proto (config_table : ConfigTables) : M unit :=
  print "Create parsed proto data...";;
  let new_proto := new_proto config_table in
  print "Write parsed.proto...";;
  open_w "parsed.proto";;
  file_write "parsed.proto" (Text new_proto);;
  print "Generate complete".

Definition load_parsed (G : gmap string pyobj) : M (gmap string pyobj) :=
  print "Generate parsed_pb2.py...";;
  run_protoc "parsed.proto" "parsed_pb2.py";;
  print "Load parsed_pb2.py...";;
  exec_file "parsed_pb2.py" G.

(** **** Lines 97-129: the export *)

(** Lines 115-126 for one raw row, by what [klass] is.  A message class
    is instantiated, the row parsed and the record built.  [Path()] is a
    path, which has no [ParseFromString]; the runtime's [FieldDescriptor]
    cannot be instantiated without arguments; the remaining objects cannot
    be called. *)
Definition decode_row (G : gmap string pyobj) (klass : pyobj)
    (field_msg : string) : result Row :=
  match klass with
  | MsgClass klass | TablesClass _ klass =>
      match ParseFromString E klass field_msg with
      | Some elems =>
          build_row G klass {| msg_class := klass; msg_elems := elems |}
      | None => Err DecodeError
      end
  | PathClass => Err AttributeError
  | FieldDescriptorClass | OtherObject => Err TypeError
  end.

(** Lines 114-126: [json_data] grows by one record per row. *)
Fixpoint rows_loop (G : gmap string pyobj) (klass : pyobj)
    (rows : list string) (json_data : list Row) : result (list Row) :=
  match rows with
  | [] => Ok json_data
  | field_msg :: rest =>
      row ← decode_row G klass field_msg;
      rows_loop G klass rest (json_data ++ [row])
  end.

(** [hasattr(data, "data")]: [data] is a declared field of every data
    block. *)
Definition hasattr_data (data : SheetData) : bool := true.

Definition data_path (class_name : string) : string :=
  "data/" +:+ class_name +:+ ".json".

(** Lines 102-128: one data block. *)
Definition export_one (G : gmap string pyobj) (data : SheetData) : M unit :=
  let class_name := class_name (table data) (sheet data) in
  klass ← or_raise KeyError (G !! class_name);
  open_w (data_path class_name);;
  if negb (hasattr_data data) then mret tt
  else
    json_data ← lift (rows_loop G klass (Schema.data data) []);
    json_dump (VList (VDict <$> json_data)) (data_path class_name).

(** [Path("data")], line 97: [Path] is a global of the module, looked up
    in the globals the generated modules have written to.  A message
    class takes no positional argument, the other objects cannot be
    called with one. *)
Definition new_Path (G : gmap string pyobj) : M unit :=
  match G !! "Path" with
  | Some PathClass => mret tt
  | Some _ => raise TypeError
  | None => raise NameError
  end.

Definition export (G : gmap string pyobj) (config_table : ConfigTables)
    : M unit :=
  new_Path G;;
  mkdir "data";;
  print "Export data to json...";;
  for_each (datas config_table) (export_one G);;
  print "Export complete".

(** **** The procedure *)

Definition after_check (live_version : pyval) : M unit :=
  download live_version;;
  '(G, config_table) ← load_tables main_globals;
  write_parsed_proto config_table;;
  G ← load_parsed G;
  export G config_table.

Definition main : M unit :=
  live_version ← check_version;
  after_check live_version.

End Main.

(** **** One block in closed form *)

(** The records lines 102-126 collect for a block. *)
Definition block_rows (E : Env) (G : gmap string pyobj) (data : SheetData)
    : result (list Row) :=
  match G !! class_name (table data) (sheet data) with
  | Some klass => rows_loop E G klass (Schema.data data) []
  | None => Err KeyError
  end.

(** What line 128 leaves in the file of the block. *)
Definition block_file (E : Env) (G : gmap string pyobj) (data : SheetData)
    : option content :=
  match block_rows E G data with
  | Ok rows => Some (Dumped (VList (VDict <$> rows)))
  | Err _ => None
  end.

(** The block goes through: its class is there, every row decodes and
    the records can be dumped. *)
Definition exportable (E : Env) (G : gmap string pyobj) (data : SheetData)
    : Prop :=
  ∃ rows, block_rows E G data = Ok rows
          ∧ json_ok (VList (VDict <$> rows)) = true.

(** **** What a step leaves alone *)

(** [w'] comes after [w] in a run that did not touch [version.json]:
    the file reads the same and the log has only grown. *)
Definition extends (w w' : World) : Prop :=
  fs w' !! "version.json" = fs w !! "version.json"
  ∧ ∃ tl, trace w' = trace w ++ tl.

Definition keeps {A} (m : M A) : Prop :=
  ∀ w r w', m w = (r, w') → extends w w'.

(** **** The policies the specification words, for comparison *)

(** Row errors skipped: the records of the rows that decode. *)
Definition spec_skip_rows (E : Env) (G : gmap string pyobj) (klass : pyobj)
    (rows : list string) : list Row :=
  omap (λ field_msg,
          match decode_row E G klass field_msg with
          | Ok row => Some row
          | Err _ => None
          end) rows.

(** Blocks of one table merged: the records of every block with the key,
    concatenated in block order. *)
Definition spec_merged_rows (E : Env) (G : gmap string pyobj)
    (key : string) (datas : list SheetData) : list Row :=
  mjoin ((λ data,
            if String.eqb (class_name (table data) (sheet data)) key then
              match G !! key with
              | Some klass => spec_skip_rows E G klass (Schema.data data)
              | None => []
              end
            else []) <$> datas).

(** The skip policy of the specification, on one block: the export goes
    through and the file holds the records of the rows that decode. *)
Definition spec_skip_policy (E : Env) (G : gmap string pyobj)
    (key : string) (klass : pyobj) (data : SheetData) (w : World) : Prop :=
  ∃ w', for_each [data] (export_one E G) w = (Return tt, w')
        ∧ fs w' !! data_path key
          = Some (Dumped (VList (VDict <$>
                     spec_skip_rows E G klass (Schema.data data)))).

(** The errors of schema loading the specification names. *)
Inductive spec_error :=
| UnsupportedFieldType (wire_type : string)
| MalformedBundle.

Definition recognized (wire_type : string) : bool :=
  bool_decide (wire_type ∈
    ["int32"; "int64"; "uint32"; "uint64"; "sint32"; "sint64";
     "fixed32"; "fixed64"; "sfixed32"; "sfixed64";
     "float"; "double"; "bool"; "string"; "bytes"]).

Definition all_sheets (config_table : ConfigTables) : list SheetSchema :=
  schemas config_table ≫= sheets.

(** Schema loading that rejects the first field of an unrecognized type. *)
Definition spec_check_types (config_table : ConfigTables)
    : option spec_error :=
  match filter (λ field, recognized (pb_type field) = false)
               (all_sheets config_table ≫= fields) with
  | field :: _ => Some (UnsupportedFieldType (pb_type field))
  | [] => None
  end.

(** Schema loading that rejects a sheet with two fields of one index. *)
Definition spec_check_indices (config_table : ConfigTables)
    : option spec_error :=
  if forallb (λ parsed, bool_decide (NoDup (pb_index <$> fields parsed)))
             (all_sheets config_table)
  then None else Some MalformedBundle.

(** The block that decides the file of a key: the last one with it. *)
Definition last_block (key : string) (datas : list SheetData)
    : option SheetData :=
  last (filter (λ data, class_name (table data) (sheet data) = key) datas).

(** **** The class of a sheet *)










End Run.

(** ** A concrete runtime

    An instance of the collaborators, to run the procedure on concrete
    bundles: a reader of the wire format for integer, boolean, string and
    bytes fields, and a network that serves one version. *)

Module Demo.
Import Text Schema Rows Run.

Definition byte_of (c : ascii) : Z := Z.of_nat (nat_of_ascii c).

(** A base-128 varint of at most [n] bytes, low group first. *)
Fixpoint read_varint (n : nat) (shift acc : Z) (s : string)
    : option (Z * string) :=
  match n, s with
  | S n', String c rest =>
      let b := byte_of c in
      let acc := Z.lor acc (Z.shiftl (Z.land b 127) shift) in
      if Z.testbit b 7 then read_varint n' (shift + 7) acc rest
      else Some (Z.land acc (2 ^ 64 - 1), rest)
  | _, _ => None
  end.

Definition varint (s : string) : option (Z * string) :=
  read_varint 10 0 0 s.

(** The next [n] bytes. *)
Fixpoint read_bytes (n : nat) (s : string) : option (string * string) :=
  match n, s with
  | O, _ => Some (EmptyString, s)
  | S n', String c rest =>
      '(taken, rest') ← read_bytes n' rest;
      Some (String c taken, rest')
  | S _, EmptyString => None
  end.

Definition signed (bits v : Z) : Z :=
  if v <? 2 ^ (bits - 1) then v else v - 2 ^ bits.

(** The value a varint stands for in a field of the given type. *)
Definition of_varint (t : ftype) (v : Z) : option pyval :=
  match t with
  | TYPE_BOOL => Some (VBool (negb (v =? 0)))
  | TYPE_UINT32 => Some (VInt (v mod 2 ^ 32))
  | TYPE_UINT64 => Some (VInt v)
  | TYPE_INT32 => Some (VInt (signed 32 (v mod 2 ^ 32)))
  | TYPE_INT64 => Some (VInt (signed 64 v))
  | _ => None
  end.

Definition add_elem (m : gmap string (list pyval)) (k : string) (v : pyval)
    : gmap string (list pyval) :=
  <[k := default [] (m !! k) ++ [v]]> m.

(** The varints of a packed run. *)
Fixpoint read_packed (n : nat) (t : ftype) (s : string)
    : option (list pyval) :=
  match n, s with
  | _, EmptyString => Some []
  | S n', _ =>
      '(v, rest) ← varint s;
      x ← of_varint t v;
      xs ← read_packed n' t rest;
      Some (x :: xs)
  | O, _ => None
  end.

Definition by_number (klass : MessageClass) (n : Z) : option FieldDescriptor :=
  find (λ fd, fd_number fd =? n) (DESCRIPTOR_fields klass).

(** One tagged value merged into the message; a value whose field is not
    declared, or whose wire kind does not fit the field, is skipped. *)
Definition read_field (klass : MessageClass) (number kind : Z) (s : string)
    (m : gmap string (list pyval))
    : option (gmap string (list pyval) * string) :=
  match kind with
  | 0 =>
      '(v, rest) ← varint s;
      match by_number klass number with
      | Some fd =>
          match of_varint (fd_type fd) v with
          | Some x => Some (add_elem m (fd_name fd) x, rest)
          | None => Some (m, rest)
          end
      | None => Some (m, rest)
      end
  | 1 => '(_, rest) ← read_bytes 8 s; Some (m, rest)
  | 2 =>
      '(len, rest) ← varint s;
      '(payload, rest) ← read_bytes (Z.to_nat len) rest;
      match by_number klass number with
      | Some fd =>
          match fd_type fd with
          | TYPE_STRING => Some (add_elem m (fd_name fd) (VStr payload), rest)
          | TYPE_BYTES => Some (add_elem m (fd_name fd) (VBytes payload), rest)
          | t =>
              match fd_label fd, of_varint t 0 with
              | LABEL_REPEATED, Some _ =>
                  xs ← read_packed (S (String.length payload)) t payload;
                  Some (foldl (λ m x, add_elem m (fd_name fd) x) m xs, rest)
              | _, _ => Some (m, rest)
              end
          end
      | None => Some (m, rest)
      end
  | 5 => '(_, rest) ← read_bytes 4 s; Some (m, rest)
  | _ => None
  end.

Fixpoint read_message (n : nat) (klass : MessageClass) (s : string)
    (m : gmap string (list pyval)) : option (gmap string (list pyval)) :=
  match n, s with
  | _, EmptyString => Some m
  | S n', _ =>
      '(tag, rest) ← varint s;
      if Z.shiftr tag 3 =? 0 then None
      else
        '(m, rest) ← read_field klass (Z.shiftr tag 3) (Z.land tag 7) rest m;
        read_message n' klass rest m
  | O, _ => None
  end.

Definition parse (klass : MessageClass) (s : string)
    : option (gmap string (list pyval)) :=
  read_message (S (String.length s)) klass s ∅.

(** Structural equality: [==] on documents of strings and of objects
    that list their keys in one order. *)
Fixpoint eqb (a b : pyval) : bool :=
  match a, b with
  | VNone, VNone => true
  | VBool x, VBool y => Bool.eqb x y
  | VInt x, VInt y => x =? y
  | VFloat x, VFloat y => x =? y
  | VStr x, VStr y => String.eqb x y
  | VBytes x, VBytes y => String.eqb x y
  | VList l, VList l' =>
      (fix go (l l' : list pyval) : bool :=
         match l, l' with
         | [], [] => true
         | x :: l, y :: l' => eqb x y && go l l'
         | _, _ => false
         end) l l'
  | VDict l, VDict l' =>
      (fix go (l l' : list (string * pyval)) : bool :=
         match l, l' with
         | [], [] => true
         | (k, x) :: l, (k', y) :: l' => String.eqb k k' && eqb x y && go l l'
         | _, _ => false
         end) l l'
  | _, _ => false
  end.

(** [repr] and [str] of documents that hold no float and no quote or
    escape in their strings. *)
Fixpoint repr (v : pyval) : string :=
  match v with
  | VNone => "None"
  | VBool b => if b then "True" else "False"
  | VInt z => pretty z
  | VFloat _ => ""
  | VStr s => "'" +:+ s +:+ "'"
  | VBytes b => "b'" +:+ b +:+ "'"
  | VList l =>
      "[" +:+
      (fix go (l : list pyval) : string :=
         match l with
         | [] => ""
         | x :: l' =>
             repr x +:+ match l' with [] => "" | _ => ", " +:+ go l' end
         end) l +:+ "]"
  | VDict items =>
      "{" +:+
      (fix go (l : list (string * pyval)) : string :=
         match l with
         | [] => ""
         | (k, x) :: l' =>
             "'" +:+ k +:+ "': " +:+ repr x
             +:+ match l' with [] => "" | _ => ", " +:+ go l' end
         end) items +:+ "}"
  | VRepeated _ | VMessage => ""
  end.

Definition format (v : pyval) : string :=
  match v with
  | VStr s => s
  | _ => repr v
  end.

(** The served documents. *)
Definition live : pyval := VDict [("version", VStr "0.11.2.w")].

Definition resversion : pyval :=
  VDict [("res",
          VDict [("res/proto/config.proto", VDict [("prefix", VStr "v0.11.0.w")]);
                 ("res/config/lqc.lqbin", VDict [("prefix", VStr "v0.11.2.w")])])].

Definition serve_json (url : string) : option pyval :=
  if String.eqb url (URL +:+ "/version.json") then Some live
  else if String.eqb url (URL +:+ "/resversion0.11.2.w.json") then Some resversion
  else None.

Definition serve_content (url : string) : option string :=
  if String.eqb url (URL +:+ "/v0.11.0.w/res/proto/config.proto")
  then Some "config"
  else if String.eqb url (URL +:+ "/v0.11.2.w/res/config/lqc.lqbin")
  then Some "bundle"
  else None.

(** The class generated for ["message ItemDefinition"] with a [uint32 id]
    and a [repeated string tags]. *)
Definition ItemDefinition : MessageClass :=
  {| DESCRIPTOR_fields :=
       [ {| fd_name := "id"; fd_number := 1; fd_type := TYPE_UINT32;
            fd_label := LABEL_OPTIONAL |};
         {| fd_name := "tags"; fd_number := 2; fd_type := TYPE_STRING;
            fd_label := LABEL_REPEATED |} ] |}.

Definition item_schema_sheet : SheetSchema :=
  {| sheet_name := "definition";
     fields := [ {| field_name := "id"; array_length := 0;
                    pb_type := "uint32"; pb_index := 1 |};
                 {| field_name := "tags"; array_length := 2;
                    pb_type := "string"; pb_index := 2 |} ] |}.

Definition item_schema : TableSchema :=
  {| name := "item"; sheets := [item_schema_sheet] |}.

Definition bytes_of (l : list nat) : string :=
  foldr (λ n s, String (ascii_of_nat n) s) EmptyString l.

(** [id = 7, tags = ["a", "b"]], a row cut after the tag of [id], and
    [id = 9]. *)
Definition row_7ab : string := bytes_of [8; 7; 18; 1; 97; 18; 1; 98]%nat.
Definition row_cut : string := bytes_of [8]%nat.
Definition row_9 : string := bytes_of [8; 9]%nat.


Definition item_block (rows : list string) : SheetData :=
  {| table := "item"; sheet := "definition"; data := rows |}.

Definition tables : ConfigTables :=
  {| schemas := [item_schema]; datas := [item_block [row_7ab; row_9]] |}.

(** A class for the bundle, with the two fields [main] reads of it. *)
Definition ConfigTables_class : MessageClass :=
  {| DESCRIPTOR_fields :=
       [ {| fd_name := "schemas"; fd_number := 1; fd_type := TYPE_MESSAGE;
            fd_label := LABEL_REPEATED |};
         {| fd_name := "datas"; fd_number := 2; fd_type := TYPE_MESSAGE;
            fd_label := LABEL_REPEATED |} ] |}.

(** The globals once [parsed_pb2] is loaded on top of the imports. *)
Definition classes : gmap string pyobj :=
  <["ItemDefinition" := MsgClass ItemDefinition]> main_globals.

Definition env : Env :=
  {| http_json := serve_json;
     http_content := serve_content;
     py_eq := eqb;
     py_format := format;
     json_loads := λ _, None;
     json_dumps := λ _, "";
     json_partial := λ _, "";
     protoc_installed := true;
     protoc := λ text, Some text;
     exec_module := λ code G,
       if String.eqb code "config"
       then Some (<["ConfigTables" :=
                      TablesClass (λ _, Some tables) ConfigTables_class]> G)
       else Some (classes ∪ G);
     ParseFromString := parse |}.

Definition world (files : list (string * content)) : World :=
  {| fs := list_to_map files; trace := [] |}.

(** A schema with a field of a type no compiler knows, and one with two
    fields of index 1. *)
Definition odd_type_tables : ConfigTables :=
  {| schemas :=
       [ {| name := "item";
            sheets := [ {| sheet_name := "pose";
                           fields := [ {| field_name := "rot"; array_length := 0;
                                          pb_type := "quaternion";
                                          pb_index := 1 |} ] |} ] |} ];
     datas := [] |}.

Definition same_index_tables : ConfigTables :=
  {| schemas :=
       [ {| name := "item";
            sheets := [ {| sheet_name := "pair";
                           fields := [ {| field_name := "a"; array_length := 0;
                                          pb_type := "uint32"; pb_index := 1 |};
                                       {| field_name := "b"; array_length := 0;
                                          pb_type := "string";
                                          pb_index := 1 |} ] |} ] |} ];
     datas := [] |}.

End Demo.

(** ** Notions for further properties of the procedure *)

Module More.
Import Text Schema Rows Run.

(** [c in s]. *)
Fixpoint occurs (c : ascii) (s : string) : bool :=
  match s with
  | EmptyString => false
  | String x s' => Ascii.eqb x c || occurs c s'
  end.

(** The last character of a text. *)
Fixpoint last_char (s : string) : option ascii :=
  match s with
  | EmptyString => None
  | String x EmptyString => Some x
  | String _ s' => last_char s'
  end.

(** The entries of [res.items()] lines 32 and 34 select. *)
Definition config_entries (items : list (string * pyval))
    : list (string * pyval) :=
  filter (λ item, endswith "config.proto" item.1 = true) items.

Definition lqc_entries (items : list (string * pyval))
    : list (string * pyval) :=
  filter (λ item, endswith "lqc.lqbin" item.1 = true) items.

(** The value the loop of lines 31-35 leaves in a variable: the info of
    the last selected entry, [None] when there is none. *)
Definition last_info (entries : list (string * pyval)) : pyval :=
  default VNone (snd <$> last entries).

(** A step does not change the file at [path]. *)
Definition untouched {A} (path : string) (m : M A) : Prop :=
  ∀ w r w', m w = (r, w') → fs w' !! path = fs w !! path.

(** The files [main] writes by name. *)
Definition named_files : list string :=
  ["version.json"; "config.proto"; "lqc.lqbin"; "config_pb2.py";
   "parsed.proto"; "parsed_pb2.py"].

(** The exception a block fails with, if it fails: the one of line 104
    or of a row, or the [TypeError] of [json.dump] when every row gave
    its record and the records cannot be dumped. *)
Definition block_failure (E : Env) (G : gmap string pyobj) (data : SheetData)
    : option exn :=
  match block_rows E G data with
  | Err e => Some e
  | Ok rows =>
      if json_ok (VList (VDict <$> rows)) then None else Some TypeError
  end.

(** The world a failed block leaves, given the world before it: nothing
    changed when the class is missing; the block's file emptied when a
    row raised; the file cut short when [json.dump] raised. *)
Definition after_failed_block (E : Env) (G : gmap string pyobj)
    (data : SheetData) (w : World) : World :=
  let path := data_path (class_name (table data) (sheet data)) in
  match G !! class_name (table data) (sheet data) with
  | None => w
  | Some _ =>
      match block_rows E G data with
      | Err _ =>
          {| fs := <[path := Text ""]> (fs w);
             trace := trace w ++ [EOpenW path] |}
      | Ok rows =>
          {| fs := <[path := Truncated (VList (VDict <$> rows))]> (fs w);
             trace := trace w
               ++ [EOpenW path;
                   EWrite path (Truncated (VList (VDict <$> rows)))] |}
      end
  end.

(** Collaborators with one of them replaced. *)
Definition set_http_json (f : string → option pyval) (E : Env) : Env :=
  {| http_json := f;
     http_content := http_content E;
     py_eq := py_eq E;
     py_format := py_format E;
     json_loads := json_loads E;
     json_dumps := json_dumps E;
     json_partial := json_partial E;
     protoc_installed := protoc_installed E;
     protoc := protoc E;
     exec_module := exec_module E;
     ParseFromString := ParseFromString E |}.

Definition set_protoc (f : string → option string) (E : Env) : Env :=
  {| http_json := http_json E;
     http_content := http_content E;
     py_eq := py_eq E;
     py_format := py_format E;
     json_loads := json_loads E;
     json_dumps := json_dumps E;
     json_partial := json_partial E;
     protoc_installed := protoc_installed E;
     protoc := f;
     exec_module := exec_module E;
     ParseFromString := ParseFromString E |}.

(** A resource list without [lqc.lqbin]. *)
Definition serve_without_lqc (url : string) : option pyval :=
  if String.eqb url (URL +:+ "/version.json") then Some Demo.live
  else if String.eqb url (URL +:+ "/resversion0.11.2.w.json")
  then Some (VDict [("res",
               VDict [("res/proto/config.proto",
                       VDict [("prefix", VStr "v0.11.0.w")])])])
  else None.

(** A step never ends the run by [exit]. *)
Definition no_exit {A} (m : M A) : Prop :=
  ∀ w code w', m w ≠ (Exit code, w').

(** Collaborators without the schema compiler. *)
Definition without_protoc (E : Env) : Env :=
  {| http_json := http_json E;
     http_content := http_content E;
     py_eq := py_eq E;
     py_format := py_format E;
     json_loads := json_loads E;
     json_dumps := json_dumps E;
     json_partial := json_partial E;
     protoc_installed := false;
     protoc := protoc E;
     exec_module := exec_module E;
     ParseFromString := ParseFromString E |}.

(** The class generated for a message with one [bytes] field. *)
Definition Blob : MessageClass :=
  {| DESCRIPTOR_fields :=
       [ {| fd_name := "raw"; fd_number := 1; fd_type := TYPE_BYTES;
            fd_label := LABEL_OPTIONAL |} ] |}.

End More.

(** ** Facts about text *)

Module TextFacts.
Import Text.

Lemma str_app_nil (b : string) : EmptyString +:+ b = b.
Proof. reflexivity. Qed.

Lemma str_app_cons (x : ascii) (a b : string) :
  String x a +:+ b = String x (a +:+ b).
Proof. reflexivity. Qed.

Lemma str_app_assoc (a b c : string) : (a +:+ b) +:+ c = a +:+ (b +:+ c).
Proof.
  induction a as [|x a IH]; [done|].
  by rewrite !str_app_cons, IH.
Qed.

Lemma str_app_empty_r (a : string) : a +:+ EmptyString = a.
Proof.
  induction a as [|x a IH]; [done|].
  by rewrite str_app_cons, IH.
Qed.

Lemma split_nonempty sep s : split sep s ≠ [].
Proof.
  destruct s as [|c s]; simpl; [done|].
  destruct (Ascii.eqb c sep); [done|].
  by destruct (split sep s).
Qed.

(** Splitting two texts glued by the separator splits each of them. *)
Lemma split_glue sep (a b : string) :
  split sep (a +:+ String sep b) = split sep a ++ split sep b.
Proof.
  induction a as [|c a IH].
  - rewrite str_app_nil. simpl. by rewrite Ascii.eqb_refl.
  - rewrite str_app_cons. simpl.
    destruct (Ascii.eqb c sep); [by rewrite IH|].
    rewrite IH. pose proof (split_nonempty sep a) as Hne.
    by destruct (split sep a).
Qed.

Lemma join_app (u v : list string) : join (u ++ v) = join u +:+ join v.
Proof.
  induction u as [|w u IH]; simpl; [done|].
  by rewrite IH, str_app_assoc.
Qed.

Lemma str_length_app (a b : string) :
  String.length (a +:+ b) = (String.length a + String.length b)%nat.
Proof.
  induction a as [|x a IH]; [done|].
  rewrite str_app_cons. simpl. by rewrite IH.
Qed.

Lemma str_app_cancel_r (a b s : string) : a +:+ s = b +:+ s → a = b.
Proof.
  revert b. induction a as [|x a IH]; intros [|y b] H.
  - done.
  - apply (f_equal String.length) in H.
    rewrite str_app_nil, str_length_app in H. simpl in H. lia.
  - apply (f_equal String.length) in H.
    rewrite str_app_nil, str_length_app in H. simpl in H. lia.
  - rewrite !str_app_cons in H. injection H as -> H. f_equal. by apply IH.
Qed.

Lemma startswith_app (p s : string) : startswith p (p +:+ s) = true.
Proof.
  induction p as [|c p IH]; [done|].
  rewrite str_app_cons. simpl. by rewrite Ascii.eqb_refl, IH.
Qed.

End TextFacts.

(** ** Facts about the generated schema *)

Module SchemaFacts.
Import Text TextFacts Schema.

Lemma emit_field_line acc field : emit_field acc field = acc +:+ field_line field.
Proof. reflexivity. Qed.

Lemma fold_emit_field l acc :
  fold_left emit_field l acc = acc +:+ join (map field_line l).
Proof.
  revert acc. induction l as [|f l IH]; intros acc; simpl.
  - by rewrite str_app_empty_r.
  - by rewrite IH, emit_field_line, str_app_assoc.
Qed.

Lemma emit_sheet_text schema acc parsed :
  emit_sheet schema acc parsed = acc +:+ message_text schema parsed.
Proof.
  unfold emit_sheet, message_text.
  by rewrite fold_emit_field, !str_app_assoc.
Qed.

Lemma fold_emit_sheet schema l acc :
  fold_left (emit_sheet schema) l acc
  = acc +:+ join (map (message_text schema) l).
Proof.
  revert acc. induction l as [|p l IH]; intros acc; simpl.
  - by rewrite str_app_empty_r.
  - by rewrite IH, emit_sheet_text, str_app_assoc.
Qed.

Lemma fold_emit_schema l acc :
  fold_left emit_schema l acc = acc +:+ join (map schema_text l).
Proof.
  revert acc. induction l as [|s l IH]; intros acc; simpl.
  - by rewrite str_app_empty_r.
  - unfold emit_schema at 2. by rewrite IH, fold_emit_sheet, str_app_assoc.
Qed.

Lemma new_proto_text config_table :
  new_proto config_table
  = header +:+ join (map schema_text (schemas config_table)).
Proof. unfold new_proto. by rewrite fold_emit_schema. Qed.

(** An element of a list contributes its text to the joined text. *)
Lemma join_map_lookup {A} (g : A → string) (l : list A) (i : nat) (x : A) :
  l !! i = Some x →
  join (map g l)
  = join (map g (take i l)) +:+ g x +:+ join (map g (drop (S i) l)).
Proof.
  intros Hx. rewrite <- (take_drop_middle l i x Hx) at 1.
  by rewrite map_app, join_app.
Qed.

Lemma join_map_lookup2 {A} (g : A → string) (l : list A) (i j : nat) (x y : A) :
  l !! i = Some x → l !! j = Some y → (i < j)%nat →
  ∃ a b c, join (map g l) = a +:+ g x +:+ b +:+ g y +:+ c.
Proof.
  intros Hx Hy Hij.
  rewrite (join_map_lookup g l i x Hx).
  assert (drop (S i) l !! (j - S i)%nat = Some y) as Hy'.
  { rewrite lookup_drop. rewrite <- Hy. f_equal. lia. }
  rewrite (join_map_lookup g _ _ y Hy').
  by eexists _, _, _.
Qed.

(** The message of a sheet is part of the generated text. *)
Lemma new_proto_message config_table i schema j parsed :
  schemas config_table !! i = Some schema →
  sheets schema !! j = Some parsed →
  ∃ pre post,
    new_proto config_table = pre +:+ message_text schema parsed +:+ post.
Proof.
  intros Hs Hp. rewrite new_proto_text.
  rewrite (join_map_lookup schema_text _ i schema Hs).
  unfold schema_text at 2.
  rewrite (join_map_lookup (message_text schema) _ j parsed Hp).
  set (a := join (map schema_text (take i (schemas config_table)))).
  set (b := join (map (message_text schema) (take j (sheets schema)))).
  set (c := join (map (message_text schema) (drop (S j) (sheets schema)))).
  set (d := join (map schema_text (drop (S i) (schemas config_table)))).
  exists (header +:+ a +:+ b), (c +:+ d).
  by rewrite !str_app_assoc.
Qed.

Lemma class_name_normalize (a b : string) :
  class_name a b = normalize a +:+ normalize b.
Proof.
  unfold class_name, class_words, normalize.
  change ("_" +:+ b) with (String UNDERSCORE b).
  by rewrite split_glue, map_app, join_app.
Qed.

End SchemaFacts.

(** ** Facts about records *)

Module RowsFacts.
Import Rows.

Lemma string_eqb_eq (a b : string) : String.eqb a b = true ↔ a = b.
Proof. apply String.eqb_eq. Qed.

Lemma string_eqb_neq (a b : string) : String.eqb a b = false ↔ a ≠ b.
Proof. apply String.eqb_neq. Qed.

Lemma dict_set_fresh (row : Row) k v :
  k ∉ row.*1 → dict_set row k v = row ++ [(k, v)].
Proof.
  induction row as [|[k' v'] row IH]; intros Hk; simpl; [done|].
  rewrite fmap_cons, not_elem_of_cons in Hk. destruct Hk as [Hne Hk].
  simpl in Hne.
  destruct (String.eqb k' k) eqn:E.
  - apply string_eqb_eq in E. congruence.
  - by rewrite IH.
Qed.

Lemma dict_get_app_fresh (row tail : Row) k :
  k ∉ row.*1 → dict_get (row ++ tail) k = dict_get tail k.
Proof.
  induction row as [|[k' v'] row IH]; intros Hk; simpl; [done|].
  rewrite fmap_cons, not_elem_of_cons in Hk. destruct Hk as [Hne Hk].
  simpl in Hne.
  destruct (String.eqb k' k) eqn:E.
  - apply string_eqb_eq in E. congruence.
  - by apply IH.
Qed.

Lemma dict_get_elem (row : Row) k v :
  dict_get row k = Some v → (k, v) ∈ row.
Proof.
  induction row as [|[k' v'] row IH]; simpl; [done|].
  destruct (String.eqb k' k) eqn:E.
  - apply string_eqb_eq in E. intros [= ->]. subst. apply list_elem_of_here.
  - intros H. apply list_elem_of_further. by apply IH.
Qed.

(** With distinct names, a name finds the field it belongs to. *)
Lemma find_by_name (l : list FieldDescriptor) fd :
  NoDup (map fd_name l) → fd ∈ l →
  find (λ x, String.eqb (fd_name x) (fd_name fd)) l = Some fd.
Proof.
  induction l as [|x l IH]; intros Hnd Hin; [by apply elem_of_nil in Hin|].
  simpl in *. apply NoDup_cons in Hnd as [Hx Hnd].
  apply elem_of_cons in Hin as [->|Hin].
  - by rewrite String.eqb_refl.
  - destruct (String.eqb (fd_name x) (fd_name fd)) eqn:E; [|by apply IH].
    apply string_eqb_eq in E. exfalso. apply Hx. rewrite E.
    apply list_elem_of_fmap. by exists fd.
Qed.

(** Line 122 turns the container of a repeated field into a list. *)
Lemma py_list_field_value field fd :
  fd_label fd = LABEL_REPEATED →
  py_list (field_value field fd) = Ok (cell_value field fd).
Proof. intros H. unfold field_value, cell_value. by rewrite H. Qed.

Lemma LABEL_REPEATED_bound G :
  G !! "FieldDescriptor" = Some FieldDescriptorClass →
  FieldDescriptor_LABEL_REPEATED G = Ok LABEL_REPEATED.
Proof. intros H. unfold FieldDescriptor_LABEL_REPEATED. by rewrite H. Qed.

(** The name gives the constant or raises. *)
Lemma LABEL_REPEATED_cases G :
  FieldDescriptor_LABEL_REPEATED G = Ok LABEL_REPEATED
  ∨ ∃ e, FieldDescriptor_LABEL_REPEATED G = Err e.
Proof.
  unfold FieldDescriptor_LABEL_REPEATED.
  destruct (G !! "FieldDescriptor") as [[]|]; eauto.
Qed.

(** One turn of the loop over a declared field of the message's class. *)
Lemma row_step_declared G field row fd :
  NoDup (field_names (msg_class field)) →
  fd ∈ DESCRIPTOR_fields (msg_class field) →
  FieldDescriptor_LABEL_REPEATED G = Ok LABEL_REPEATED →
  row_step G field row fd = Ok (dict_set row (fd_name fd) (cell_value field fd)).
Proof.
  intros Hnd Hin HG. unfold row_step, hasattr, getattr, find_field.
  rewrite (find_by_name _ fd Hnd Hin). simpl. rewrite HG. simpl.
  destruct (fd_label fd) eqn:El; simpl.
  - unfold cell_value. by rewrite El.
  - unfold cell_value. by rewrite El.
  - by rewrite (py_list_field_value field fd El).
Qed.

(** Where the name does not give the constant, the turn raises. *)
Lemma row_step_unbound G field row fd e :
  NoDup (field_names (msg_class field)) →
  fd ∈ DESCRIPTOR_fields (msg_class field) →
  FieldDescriptor_LABEL_REPEATED G = Err e →
  row_step G field row fd = Err e.
Proof.
  intros Hnd Hin HG. unfold row_step, hasattr, getattr, find_field.
  rewrite (find_by_name _ fd Hnd Hin). simpl. by rewrite HG.
Qed.

Lemma row_loop_declared G field l row :
  NoDup (field_names (msg_class field)) →
  FieldDescriptor_LABEL_REPEATED G = Ok LABEL_REPEATED →
  l ⊆ DESCRIPTOR_fields (msg_class field) →
  NoDup (row.*1 ++ map fd_name l) →
  row_loop G field l row = Ok (row ++ map (cell field) l).
Proof.
  intros Hnd HG. revert row.
  induction l as [|fd l IH]; intros row Hsub Hfresh; simpl.
  - by rewrite app_nil_r.
  - rewrite row_step_declared; [|done|apply Hsub, list_elem_of_here|done].
    simpl. apply NoDup_app in Hfresh as (Hrow & Hdisj & Htail).
    rewrite dict_set_fresh.
    2:{ intros Hin. apply (Hdisj _ Hin). simpl. apply list_elem_of_here. }
    rewrite IH.
    + by rewrite <- app_assoc.
    + intros x Hx. apply Hsub. by apply list_elem_of_further.
    + rewrite fmap_app. simpl. rewrite <- app_assoc. simpl.
      apply NoDup_app. split_and!; [done| |done].
      intros x Hx. by apply Hdisj.
Qed.

(** With the constant in reach, the loop does not raise on a message of
    the class it enumerates, and yields one cell per declared field, in
    declaration order. *)
Lemma build_row_row_of G klass field :
  NoDup (field_names klass) → msg_class field = klass →
  FieldDescriptor_LABEL_REPEATED G = Ok LABEL_REPEATED →
  build_row G klass field = Ok (row_of field).
Proof.
  intros Hnd <- HG. unfold build_row, row_of.
  rewrite row_loop_declared; [done|done|done|done|].
  simpl. exact Hnd.
Qed.

(** Without it, the loop raises at the first field, if there is one. *)
Lemma build_row_unbound G klass field e :
  NoDup (field_names klass) → msg_class field = klass →
  FieldDescriptor_LABEL_REPEATED G = Err e →
  build_row G klass field
  = match DESCRIPTOR_fields klass with [] => Ok [] | _ => Err e end.
Proof.
  intros Hnd <- HG. unfold build_row.
  destruct (DESCRIPTOR_fields (msg_class field)) as [|fd l] eqn:El; [done|].
  cbn [row_loop].
  rewrite (row_step_unbound G field [] fd e); [done|done| |done].
  rewrite El. apply list_elem_of_here.
Qed.

(** Whenever the loop gives a record, it is the one of the closed form. *)
Lemma build_row_inv G klass field row :
  NoDup (field_names klass) → msg_class field = klass →
  build_row G klass field = Ok row → row = row_of field.
Proof.
  intros Hnd Hk Hrow.
  destruct (LABEL_REPEATED_cases G) as [HG|[e HG]].
  - rewrite (build_row_row_of G klass field Hnd Hk HG) in Hrow. congruence.
  - rewrite (build_row_unbound G klass field e Hnd Hk HG) in Hrow.
    unfold row_of. rewrite Hk.
    destruct (DESCRIPTOR_fields klass); [|done]. simpl. congruence.
Qed.




End RowsFacts.

(** ** Facts about the run *)

Module RunFacts.
Import Text TextFacts Schema SchemaFacts Rows Run RowsFacts.

(** The equations of sequencing. *)
Lemma bind_unfold {A B} (m : M A) (f : A → M B) (w : World) :
  (m ≫= f) w
  = match m w with
    | (Return a, w') => f a w'
    | (Exit code, w') => (Exit code, w')
    | (Raise e, w') => (Raise e, w')
    end.
Proof. reflexivity. Qed.

Lemma bind_Return {A B} (m : M A) (f : A → M B) w a w' :
  m w = (Return a, w') → (m ≫= f) w = f a w'.
Proof. intros H. by rewrite bind_unfold, H. Qed.

Lemma bind_Exit {A B} (m : M A) (f : A → M B) w code w' :
  m w = (Exit code, w') → (m ≫= f) w = (Exit code, w').
Proof. intros H. by rewrite bind_unfold, H. Qed.

Lemma bind_Raise {A B} (m : M A) (f : A → M B) w e w' :
  m w = (Raise e, w') → (m ≫= f) w = (Raise e, w').
Proof. intros H. by rewrite bind_unfold, H. Qed.

Lemma for_each_cons {A} (x : A) (l : list A) (body : A → M unit) :
  for_each (x :: l) body = (body x;; for_each l body).
Proof. reflexivity. Qed.

(** One step of a run, for each primitive. *)
Lemma ret_bind {A B} (a : A) (f : A → M B) w : (mret a ≫= f) w = f a w.
Proof. reflexivity. Qed.

Lemma raise_bind {A B} e (f : A → M B) w : (raise e ≫= f) w = (Raise e, w).
Proof. reflexivity. Qed.

Lemma exit_bind {A B} code (f : A → M B) w :
  (exit code ≫= f) w = (Exit code, w).
Proof. reflexivity. Qed.

Lemma emit_bind {B} e (f : unit → M B) w :
  (emit e ≫= f) w = f tt {| fs := fs w; trace := trace w ++ [e] |}.
Proof. reflexivity. Qed.

Lemma print_bind {B} line (f : unit → M B) w :
  (print line ≫= f) w
  = f tt {| fs := fs w; trace := trace w ++ [EPrint line] |}.
Proof. reflexivity. Qed.

Lemma set_file_bind {B} path c (f : unit → M B) w :
  (set_file path c ≫= f) w
  = f tt {| fs := <[path := c]> (fs w); trace := trace w |}.
Proof. reflexivity. Qed.

Lemma bind_assoc {A B C} (m : M A) (f : A → M B) (g : B → M C) w :
  ((m ≫= f) ≫= g) w = (m ≫= λ a, f a ≫= g) w.
Proof.
  rewrite !bind_unfold. destruct (m w) as [[a|code|e] w']; reflexivity.
Qed.

Lemma lift_Ok {A} (a : A) : lift (Ok a) = mret a.
Proof. reflexivity. Qed.

Lemma lift_Err {A} e : lift (@Err A e) = raise e.
Proof. reflexivity. Qed.

Section WithEnv.
Context (E : Env).

Lemma get_json_served url v w :
  http_json E url = Some v →
  get_json E url w
  = (Return v, {| fs := fs w; trace := trace w ++ [EGet url] |}).
Proof. intros H. unfold get_json. rewrite emit_bind. by rewrite H. Qed.

Lemma json_load_ok path c v w :
  fs w !! path = Some c → json_of E c = Ok v →
  json_load E path w
  = (Return v, {| fs := fs w; trace := trace w ++ [ERead path] |}).
Proof.
  intros Hc Hv. unfold json_load. rewrite emit_bind.
  rewrite bind_unfold. unfold get_file. cbn [fs]. by rewrite Hc, Hv.
Qed.

Lemma open_w_bind {B} path (f : unit → M B) w :
  (open_w path ≫= f) w
  = f tt {| fs := <[path := Text ""]> (fs w);
            trace := trace w ++ [EOpenW path] |}.
Proof. reflexivity. Qed.

Lemma file_write_run path c w :
  file_write path c w
  = (Return tt, {| fs := <[path := c]> (fs w);
                   trace := trace w ++ [EWrite path c] |}).
Proof. reflexivity. Qed.

Lemma json_dump_ok v path w :
  json_ok v = true →
  json_dump v path w
  = (Return tt, {| fs := <[path := Dumped v]> (fs w);
                   trace := trace w ++ [EWrite path (Dumped v)] |}).
Proof. intros H. unfold json_dump. by rewrite H. Qed.

(** Lines 8-17 when the two versions are equal. *)
Lemma check_version_same w live_version c local_version :
  http_json E (URL +:+ "/version.json") = Some live_version →
  fs w !! "version.json" = Some c →
  json_of E c = Ok local_version →
  py_eq E local_version live_version = true →
  check_version E w
  = (Exit 0,
     {| fs := fs w;
        trace := trace w ++ [EGet (URL +:+ "/version.json");
                             ERead "version.json"; EPrint "No update"] |}).
Proof.
  intros Hlive Hc Hlocal Heq. unfold check_version.
  rewrite (bind_Return _ _ _ _ _ (get_json_served _ _ w Hlive)).
  erewrite bind_Return; [|by apply (json_load_ok "version.json" c)].
  rewrite Heq. rewrite bind_assoc, print_bind, exit_bind. cbn [fs trace].
  by rewrite <- !app_assoc.
Qed.

(** Lines 8-21 when they differ. *)
Lemma check_version_new w live_version c local_version :
  http_json E (URL +:+ "/version.json") = Some live_version →
  fs w !! "version.json" = Some c →
  json_of E c = Ok local_version →
  py_eq E local_version live_version = false →
  json_ok live_version = true →
  check_version E w
  = (Return live_version,
     {| fs := <["version.json" := Dumped live_version]> (fs w);
        trace := trace w ++
          [EGet (URL +:+ "/version.json"); ERead "version.json";
           EPrint ("New Live version: " +:+ py_format E live_version);
           EOpenW "version.json";
           EWrite "version.json" (Dumped live_version)] |}).
Proof.
  intros Hlive Hc Hlocal Heq Hok. unfold check_version.
  rewrite (bind_Return _ _ _ _ _ (get_json_served _ _ w Hlive)).
  erewrite bind_Return; [|by apply (json_load_ok "version.json" c)].
  rewrite Heq. rewrite bind_assoc, print_bind, bind_assoc, open_w_bind.
  rewrite (bind_Return _ _ _ tt _ (json_dump_ok _ _ _ Hok)).
  unfold mret, M_ret. cbn [fs trace].
  rewrite insert_insert_eq. by rewrite <- !app_assoc.
Qed.

(** *** Steps that leave [version.json] alone *)

Lemma extends_refl w : extends w w.
Proof. split; [done|]. exists []. by rewrite app_nil_r. Qed.

Lemma extends_trans w1 w2 w3 : extends w1 w2 → extends w2 w3 → extends w1 w3.
Proof.
  intros [Hf1 [t1 Ht1]] [Hf2 [t2 Ht2]]. split; [congruence|].
  exists (t1 ++ t2). by rewrite Ht2, Ht1, app_assoc.
Qed.

Lemma keeps_ret {A} (a : A) : keeps (mret a).
Proof. intros w r w' [= <- <-]. apply extends_refl. Qed.

Lemma keeps_raise {A} e : keeps (@raise A e).
Proof. intros w r w' [= <- <-]. apply extends_refl. Qed.

Lemma keeps_exit {A} code : keeps (@exit A code).
Proof. intros w r w' [= <- <-]. apply extends_refl. Qed.

Lemma keeps_lift {A} (r : result A) : keeps (lift r).
Proof. destruct r; [apply keeps_ret | apply keeps_raise]. Qed.

Lemma keeps_or_raise {A} e (o : option A) : keeps (or_raise e o).
Proof. destruct o; [apply keeps_ret | apply keeps_raise]. Qed.

Lemma keeps_emit e : keeps (emit e).
Proof. intros w r w' [= <- <-]. split; [done|]. by exists [e]. Qed.

Lemma keeps_print line : keeps (print line).
Proof. apply keeps_emit. Qed.

Lemma keeps_set_file path c : path ≠ "version.json" → keeps (set_file path c).
Proof.
  intros Hne w r w' [= <- <-]. split; simpl.
  - by rewrite lookup_insert_ne.
  - exists []. by rewrite app_nil_r.
Qed.

Lemma keeps_get_file path : keeps (get_file path).
Proof.
  intros w r w'. unfold get_file.
  destruct (fs w !! path); intros [= <- <-]; apply extends_refl.
Qed.

Lemma keeps_bind {A B} (m : M A) (f : A → M B) :
  keeps m → (∀ a, keeps (f a)) → keeps (m ≫= f).
Proof.
  intros Hm Hf w r w'. rewrite bind_unfold.
  destruct (m w) as [[a|code|e] w1] eqn:Em.
  - intros Hr. eapply extends_trans; [by eapply Hm | by eapply Hf].
  - intros [= <- <-]. by eapply Hm.
  - intros [= <- <-]. by eapply Hm.
Qed.

Lemma keeps_for_each {A} (l : list A) (body : A → M unit) :
  (∀ x, keeps (body x)) → keeps (for_each l body).
Proof.
  intros Hbody. induction l as [|x l IH]; simpl.
  - apply keeps_ret.
  - apply keeps_bind; [apply Hbody | by intros _].
Qed.

Lemma data_path_not_version class_name : data_path class_name ≠ "version.json".
Proof. unfold data_path. rewrite str_app_cons. discriminate. Qed.

(** Every step of the procedure is built from these. *)
Ltac keeps_step :=
  first
    [ apply keeps_ret | apply keeps_raise | apply keeps_exit
    | apply keeps_lift | apply keeps_or_raise
    | apply keeps_print | apply keeps_emit | apply keeps_get_file
    | apply keeps_set_file; first [discriminate | apply data_path_not_version]
    | apply keeps_bind; [|intros ?] ].

Lemma keeps_open_w path : path ≠ "version.json" → keeps (open_w path).
Proof.
  intros H. unfold open_w. apply keeps_bind; [apply keeps_emit|intros _].
  by apply keeps_set_file.
Qed.

Lemma keeps_file_write path c :
  path ≠ "version.json" → keeps (file_write path c).
Proof.
  intros H. unfold file_write. apply keeps_bind; [apply keeps_emit|intros _].
  by apply keeps_set_file.
Qed.

Lemma keeps_json_dump v path : path ≠ "version.json" → keeps (json_dump v path).
Proof.
  intros H. unfold json_dump. destruct (json_ok v).
  - by apply keeps_file_write.
  - apply keeps_bind; [by apply keeps_file_write | intros _; apply keeps_raise].
Qed.

Lemma keeps_read_text path : keeps (read_text E path).
Proof. unfold read_text. repeat keeps_step. Qed.

Lemma keeps_get_json url : keeps (get_json E url).
Proof. unfold get_json. repeat keeps_step. Qed.

Lemma keeps_get_content url : keeps (get_content E url).
Proof. unfold get_content. repeat keeps_step. Qed.

Lemma keeps_run_protoc file out :
  out ≠ "version.json" → keeps (run_protoc E file out).
Proof.
  intros Hne. unfold run_protoc. apply keeps_bind; [apply keeps_emit|intros _].
  destruct (negb (protoc_installed E)); [apply keeps_raise|].
  intros w r w'. destruct (fs w !! file) as [c|].
  - destruct (protoc E (text_of E c)).
    + by apply keeps_set_file.
    + intros [= <- <-]. apply extends_refl.
  - intros [= <- <-]. apply extends_refl.
Qed.

Lemma keeps_exec_file path G : keeps (exec_file E path G).
Proof.
  unfold exec_file. apply keeps_bind; [apply keeps_read_text|intros code].
  apply keeps_or_raise.
Qed.

Lemma keeps_download live_version : keeps (download E live_version).
Proof.
  unfold download. apply keeps_bind; [apply keeps_lift|intros v].
  apply keeps_bind; [apply keeps_get_json|intros resversion_req].
  apply keeps_bind; [apply keeps_lift|intros res].
  apply keeps_bind; [apply keeps_lift|intros items].
  destruct (fold_left scan_res items (VNone, VNone))
    as [config_proto_info lqc_info].
  apply keeps_bind.
  { destruct (negb (truthy config_proto_info) || negb (truthy lqc_info));
      repeat keeps_step. }
  intros _.
  apply keeps_bind; [apply keeps_lift|intros p1].
  apply keeps_bind; [apply keeps_lift|intros p2].
  apply keeps_bind; [apply keeps_print|intros _].
  apply keeps_bind; [apply keeps_get_content|intros config_proto_req].
  apply keeps_bind; [by apply keeps_open_w|intros _].
  apply keeps_bind; [by apply keeps_file_write|intros _].
  apply keeps_bind; [apply keeps_print|intros _].
  apply keeps_bind; [apply keeps_get_content|intros lqc_req].
  apply keeps_bind; [by apply keeps_open_w|intros _].
  by apply keeps_file_write.
Qed.

Lemma keeps_load_tables G : keeps (load_tables E G).
Proof.
  unfold load_tables.
  apply keeps_bind; [by apply keeps_run_protoc|intros _].
  apply keeps_bind; [apply keeps_print|intros _].
  apply keeps_bind; [apply keeps_exec_file|intros G'].
  apply keeps_bind; [apply keeps_print|intros _].
  apply keeps_bind.
  { unfold new_ConfigTables. destruct (G' !! "ConfigTables") as [[]|];
      repeat keeps_step. }
  intros parse.
  apply keeps_bind; [apply keeps_read_text|intros lqc].
  apply keeps_bind; [apply keeps_or_raise|intros config_table].
  apply keeps_ret.
Qed.

Lemma keeps_write_parsed_proto config_table :
  keeps (write_parsed_proto config_table).
Proof.
  unfold write_parsed_proto.
  apply keeps_bind; [apply keeps_print|intros _].
  apply keeps_bind; [apply keeps_print|intros _].
  apply keeps_bind; [by apply keeps_open_w|intros _].
  apply keeps_bind; [by apply keeps_file_write|intros _].
  apply keeps_print.
Qed.

Lemma keeps_load_parsed G : keeps (load_parsed E G).
Proof.
  unfold load_parsed.
  apply keeps_bind; [apply keeps_print|intros _].
  apply keeps_bind; [by apply keeps_run_protoc|intros _].
  apply keeps_bind; [apply keeps_print|intros _].
  apply keeps_exec_file.
Qed.

Lemma keeps_export_one G data : keeps (export_one E G data).
Proof.
  unfold export_one.
  apply keeps_bind; [apply keeps_or_raise|intros klass].
  apply keeps_bind; [apply keeps_open_w, data_path_not_version|intros _].
  destruct (negb (hasattr_data data)); [apply keeps_ret|].
  apply keeps_bind; [apply keeps_lift|intros json_data].
  apply keeps_json_dump, data_path_not_version.
Qed.

Lemma keeps_new_Path G : keeps (new_Path G).
Proof.
  unfold new_Path. destruct (G !! "Path") as [[]|]; repeat keeps_step.
Qed.

Lemma keeps_mkdir path : keeps (mkdir path).
Proof.
  unfold mkdir. apply keeps_bind; [apply keeps_emit|intros _].
  apply keeps_bind.
  - intros w r w' [= <- <-]. apply extends_refl.
  - intros [c|]; repeat keeps_step.
Qed.

Lemma keeps_export G config_table : keeps (export E G config_table).
Proof.
  unfold export.
  apply keeps_bind; [apply keeps_new_Path|intros _].
  apply keeps_bind; [apply keeps_mkdir|intros _].
  apply keeps_bind; [apply keeps_print|intros _].
  apply keeps_bind; [|intros _; apply keeps_print].
  apply keeps_for_each. intros data. apply keeps_export_one.
Qed.

(** Lines 23-129 never write [version.json]. *)
Lemma keeps_after_check live_version : keeps (after_check E live_version).
Proof.
  unfold after_check.
  apply keeps_bind; [apply keeps_download|intros _].
  apply keeps_bind; [apply keeps_load_tables|intros [G config_table]].
  apply keeps_bind; [apply keeps_write_parsed_proto|intros _].
  apply keeps_bind; [apply keeps_load_parsed|intros G'].
  apply keeps_export.
Qed.

(** *** The export of a block *)

Lemma decode_row_ok G klass field_msg elems :
  NoDup (field_names klass) →
  G !! "FieldDescriptor" = Some FieldDescriptorClass →
  ParseFromString E klass field_msg = Some elems →
  decode_row E G (MsgClass klass) field_msg
  = Ok (row_of {| msg_class := klass; msg_elems := elems |}).
Proof.
  intros Hnd HG Hp. unfold decode_row. rewrite Hp.
  apply build_row_row_of; [done|done|]. by apply LABEL_REPEATED_bound.
Qed.

(** A row that decodes decodes to the record of the closed form. *)
Lemma decode_row_inv G klass field_msg elems row :
  NoDup (field_names klass) →
  ParseFromString E klass field_msg = Some elems →
  decode_row E G (MsgClass klass) field_msg = Ok row →
  row = row_of {| msg_class := klass; msg_elems := elems |}.
Proof.
  intros Hnd Hp. unfold decode_row. rewrite Hp.
  by apply build_row_inv.
Qed.

(** A row that does not parse ends the loop with an exception, wherever
    it stands. *)
Lemma rows_loop_stops G klass rows i bad json_data :
  rows !! i = Some bad →
  ParseFromString E klass bad = None →
  ∃ e, rows_loop E G (MsgClass klass) rows json_data = Err e.
Proof.
  revert i json_data.
  induction rows as [|field_msg rows IH]; intros i json_data Hi Hbad; [done|].
  cbn [rows_loop].
  destruct (decode_row E G (MsgClass klass) field_msg) as [row|e] eqn:Er.
  - simpl. destruct i as [|i]; simpl in Hi.
    + injection Hi as ->. unfold decode_row in Er. by rewrite Hbad in Er.
    + by apply (IH i).
  - by exists e.
Qed.

(** The exception is [DecodeError] when the rows before it get through
    line 121. *)
Lemma rows_loop_bad G klass rows i bad json_data :
  NoDup (field_names klass) →
  G !! "FieldDescriptor" = Some FieldDescriptorClass →
  rows !! i = Some bad →
  ParseFromString E klass bad = None →
  rows_loop E G (MsgClass klass) rows json_data = Err DecodeError.
Proof.
  intros Hnd HG. revert i json_data.
  induction rows as [|field_msg rows IH]; intros i json_data Hi Hbad; [done|].
  cbn [rows_loop].
  destruct (ParseFromString E klass field_msg) as [elems|] eqn:Ep.
  - rewrite (decode_row_ok _ _ _ _ Hnd HG Ep). simpl.
    destruct i as [|i]; simpl in Hi.
    + injection Hi as ->. congruence.
    + by apply (IH i).
  - unfold decode_row. by rewrite Ep.
Qed.

(** The loop appends one record per row, in the order of the rows. *)
Lemma rows_loop_ok G klass rows json_data out :
  rows_loop E G klass rows json_data = Ok out →
  ∃ new, out = json_data ++ new
         ∧ Forall2 (λ field_msg row, decode_row E G klass field_msg = Ok row)
                   rows new.
Proof.
  revert json_data.
  induction rows as [|field_msg rows IH]; intros json_data H.
  - injection H as <-. exists []. by rewrite app_nil_r.
  - cbn [rows_loop] in H.
    destruct (decode_row E G klass field_msg) as [row|e] eqn:Er; [|done].
    simpl in H. destruct (IH _ H) as (new & -> & Hall).
    exists (row :: new). split; [by rewrite <- app_assoc|].
    by constructor.
Qed.

Lemma export_one_raise G data klass e w :
  G !! class_name (table data) (sheet data) = Some klass →
  rows_loop E G klass (Schema.data data) [] = Err e →
  export_one E G data w
  = (Raise e,
     {| fs := <[data_path (class_name (table data) (sheet data)) := Text ""]>
                (fs w);
        trace := trace w
                 ++ [EOpenW (data_path (class_name (table data) (sheet data)))]
     |}).
Proof.
  intros HG Hrows. unfold export_one. rewrite HG. cbn [or_raise].
  rewrite ret_bind, open_w_bind. cbn [hasattr_data negb].
  by rewrite Hrows.
Qed.

Lemma export_one_ok G data rows w :
  block_rows E G data = Ok rows →
  json_ok (VList (VDict <$> rows)) = true →
  export_one E G data w
  = (Return tt,
     {| fs := <[data_path (class_name (table data) (sheet data))
                := Dumped (VList (VDict <$> rows))]> (fs w);
        trace := trace w
          ++ [EOpenW (data_path (class_name (table data) (sheet data)));
              EWrite (data_path (class_name (table data) (sheet data)))
                     (Dumped (VList (VDict <$> rows)))] |}).
Proof.
  unfold block_rows, export_one. intros Hrows Hok.
  destruct (G !! class_name (table data) (sheet data)) as [klass|]; [|done].
  cbn [or_raise]. rewrite ret_bind, open_w_bind. cbn [hasattr_data negb].
  rewrite Hrows, lift_Ok, ret_bind. rewrite json_dump_ok by done.
  cbn [fs trace]. by rewrite insert_insert_eq, <- app_assoc.
Qed.

Lemma data_path_inj k1 k2 : data_path k1 = data_path k2 → k1 = k2.
Proof.
  unfold data_path. intros H. apply (inj (String.app "data/")) in H.
  by apply str_app_cancel_r in H.
Qed.

Lemma last_block_cons key data datas :
  last_block key (data :: datas)
  = match last_block key datas with
    | Some d => Some d
    | None =>
        if decide (class_name (table data) (sheet data) = key)
        then Some data else None
    end.
Proof.
  unfold last_block. rewrite filter_cons.
  destruct (decide (class_name (table data) (sheet data) = key)).
  - by rewrite last_cons.
  - by destruct (last _).
Qed.

(** After the loop over the blocks, the file of a key holds the records
    of the last block with that key. *)
Lemma for_each_export G datas w :
  Forall (exportable E G) datas →
  ∃ w', for_each datas (export_one E G) w = (Return tt, w')
        ∧ ∀ key,
            fs w' !! data_path key
            = match last_block key datas with
              | Some data => block_file E G data
              | None => fs w !! data_path key
              end.
Proof.
  revert w. induction datas as [|data datas IH]; intros w Hall.
  - by exists w.
  - apply Forall_cons in Hall as [(rows & Hrows & Hok) Hall].
    rewrite for_each_cons.
    pose proof (export_one_ok G data rows w Hrows Hok) as Hone.
    match type of Hone with _ = (_, ?w1) =>
      destruct (IH w1 Hall) as (w' & Hrun & Hfs) end.
    clear IH.
    exists w'. split.
    + erewrite bind_Return; [|exact Hone]. exact Hrun.
    + intros key. rewrite Hfs, last_block_cons.
      destruct (last_block key datas); [done|]. cbn [fs].
      destruct (decide (class_name (table data) (sheet data) = key)) as [<-|Hne].
      * rewrite lookup_insert_eq. unfold block_file. by rewrite Hrows.
      * rewrite lookup_insert_ne; [done|].
        intros Heq. by apply data_path_inj in Heq.
Qed.

(** *** The generation of [parsed.proto] *)

Lemma write_parsed_proto_run config_table w :
  write_parsed_proto config_table w
  = (Return tt,
     {| fs := <["parsed.proto" := Text (new_proto config_table)]> (fs w);
        trace := trace w
          ++ [EPrint "Create parsed proto data...";
              EPrint "Write parsed.proto..."; EOpenW "parsed.proto";
              EWrite "parsed.proto" (Text (new_proto config_table));
              EPrint "Generate complete"] |}).
Proof.
  unfold write_parsed_proto.
  rewrite !print_bind, open_w_bind.
  erewrite bind_Return; [|apply file_write_run].
  unfold print, emit. cbn [fs trace].
  by rewrite insert_insert_eq, <- !app_assoc.
Qed.

End WithEnv.

(** *** The class of a sheet *)









End RunFacts.

(** ** The claims *)

Module Claims.
Import Text TextFacts Schema SchemaFacts Rows Run RowsFacts RunFacts.

(** *** C1: a row that does not decode *)

(** C1, as stated, fails: of three rows the first and the third decode,
    the second is cut short; the export ends with [DecodeError], the file
    of the table is empty and nothing was printed. *)
Lemma decode_error_skip_counterexample :
  let data := Demo.item_block [Demo.row_7ab; Demo.row_cut; Demo.row_9] in
  spec_skip_rows Demo.env Demo.classes (MsgClass Demo.ItemDefinition)
    (Schema.data data)
  = [[("id", VInt 7); ("tags", VList [VStr "a"; VStr "b"])];
     [("id", VInt 9); ("tags", VList [])]]
  ∧ for_each [data] (export_one Demo.env Demo.classes) (Demo.world [])
    = (Raise DecodeError,
       {| fs := {["data/ItemDefinition.json" := Text ""]};
          trace := [EOpenW "data/ItemDefinition.json"] |})
  ∧ ¬ spec_skip_policy Demo.env Demo.classes "ItemDefinition"
        (MsgClass Demo.ItemDefinition) data (Demo.world []).
Proof.
  split; [vm_compute; reflexivity|].
  assert (for_each
            [Demo.item_block [Demo.row_7ab; Demo.row_cut; Demo.row_9]]
            (export_one Demo.env Demo.classes) (Demo.world [])
          = (Raise DecodeError,
             {| fs := {["data/ItemDefinition.json" := Text ""]};
                trace := [EOpenW "data/ItemDefinition.json"] |})) as Hrun
    by (vm_compute; reflexivity).
  split; [exact Hrun|].
  intros (w' & Hret & _). cbv zeta in Hret. rewrite Hrun in Hret. discriminate.
Qed.

(** C1, amended: a decode error in one row is not caught.  The loop over
    the blocks ends at that block with an exception; the file of the
    table is left empty, whatever rows of it decode; the blocks after it
    are not exported; the log gains the opening of the file and nothing
    else.  The exception is [DecodeError] itself as long as the name
    [FieldDescriptor] still stands for the runtime's class; where a
    generated module has taken the name, line 121 can raise on a row
    before the one that does not decode. *)
Theorem decode_error_aborts_export (E : Env) (G : gmap string pyobj)
    (data : SheetData) (rest : list SheetData) (klass : MessageClass)
    (i : nat) (bad : string) (w : World) :
  G !! class_name (table data) (sheet data) = Some (MsgClass klass) →
  NoDup (field_names klass) →
  Schema.data data !! i = Some bad →
  ParseFromString E klass bad = None →
  ∃ e,
    for_each (data :: rest) (export_one E G) w
    = (Raise e,
       {| fs := <[data_path (class_name (table data) (sheet data)) := Text ""]>
                  (fs w);
          trace := trace w
                   ++ [EOpenW (data_path (class_name (table data) (sheet data)))]
       |})
    ∧ (G !! "FieldDescriptor" = Some FieldDescriptorClass → e = DecodeError).
Proof.
  intros HG Hnd Hi Hbad.
  destruct (rows_loop_stops E G klass _ i bad [] Hi Hbad) as [e He].
  exists e. split.
  - rewrite for_each_cons. apply bind_Raise.
    by apply (export_one_raise E G data (MsgClass klass)).
  - intros HF.
    rewrite (rows_loop_bad E G klass _ i bad [] Hnd HF Hi Hbad) in He.
    congruence.
Qed.

Lemma decode_error_aborts_export_witness :
  ∃ e,
    for_each (Demo.item_block [Demo.row_7ab; Demo.row_cut; Demo.row_9]
              :: [Demo.item_block [Demo.row_9]])
             (export_one Demo.env Demo.classes) (Demo.world [])
    = (Raise e,
       {| fs := <[data_path (class_name "item" "definition") := Text ""]> ∅;
          trace := [] ++ [EOpenW (data_path (class_name "item" "definition"))]
       |})
    ∧ (Demo.classes !! "FieldDescriptor" = Some FieldDescriptorClass →
       e = DecodeError).
Proof.
  apply (decode_error_aborts_export Demo.env Demo.classes
           (Demo.item_block [Demo.row_7ab; Demo.row_cut; Demo.row_9])
           [Demo.item_block [Demo.row_9]] Demo.ItemDefinition 1 Demo.row_cut
           (Demo.world [])).
  - reflexivity.
  - apply (bool_decide_unpack _). vm_compute. exact I.
  - reflexivity.
  - reflexivity.
Defined.

(** *** C2: a declared field the row does not carry *)



(** *** C3: the shape of a record *)



(** *** C4: the key of a table *)

(** C4, as stated, fails: the two names concatenated and then split give
    [Itemdefinition] for table [item] and sheet [definition]; the
    procedure computes [ItemDefinition]. *)
Lemma type_key_counterexample :
  spec_type_key "item" "definition" = "Itemdefinition"
  ∧ class_name "item" "definition" = "ItemDefinition"
  ∧ class_name "item" "definition" ≠ spec_type_key "item" "definition".
Proof. split; [reflexivity|]. split; [reflexivity|]. discriminate. Qed.

(** C4, amended: the key is computed from the table name, the delimiter
    ["_"] and the sheet name joined in this order, split on the
    delimiter, each segment capitalised (first character upper case, the
    others lower case) and the segments joined; it is the normalised table
    name followed by the normalised sheet name.  The schema names its
    message by this key and the export looks the class of a data block up
    under it, so a block whose table and sheet names are those of a sheet
    gets the class generated for that sheet. *)
Theorem type_key_shared (E : Env) (G : gmap string pyobj)
    (schema : TableSchema) (parsed : SheetSchema) (data : SheetData)
    (new_proto : string) :
  table data = name schema →
  sheet data = sheet_name parsed →
  let key := class_name (name schema) (sheet_name parsed) in
  key = join (map capitalize
                (split UNDERSCORE (name schema +:+ "_" +:+ sheet_name parsed)))
  ∧ key = normalize (name schema) +:+ normalize (sheet_name parsed)
  ∧ (∃ body, emit_sheet schema new_proto parsed
             = new_proto +:+ "message " +:+ key +:+ " {" +:+ LF +:+ body)
  ∧ block_rows E G data
    = match G !! key with
      | Some klass => rows_loop E G klass (Schema.data data) []
      | None => Err KeyError
      end
  ∧ (G !! key = None → ∀ w, export_one E G data w = (Raise KeyError, w)).
Proof.
  intros Htable Hsheet key. split; [reflexivity|].
  split; [apply class_name_normalize|].
  split.
  { rewrite emit_sheet_text. unfold message_text. fold key.
    eexists. rewrite !str_app_assoc. reflexivity. }
  split.
  { unfold block_rows. by rewrite Htable, Hsheet. }
  intros Hnone w. unfold export_one. rewrite Htable, Hsheet. fold key.
  by rewrite Hnone.
Qed.

Lemma type_key_shared_witness :
  let key := class_name "item" "definition" in
  key = join (map capitalize (split UNDERSCORE ("item" +:+ "_" +:+ "definition")))
  ∧ key = normalize "item" +:+ normalize "definition"
  ∧ (∃ body, emit_sheet Demo.item_schema "" (Demo.item_schema_sheet)
             = "" +:+ "message " +:+ key +:+ " {" +:+ LF +:+ body)
  ∧ block_rows Demo.env Demo.classes (Demo.item_block [Demo.row_9])
    = match Demo.classes !! key with
      | Some klass => rows_loop Demo.env Demo.classes klass [Demo.row_9] []
      | None => Err KeyError
      end
  ∧ (Demo.classes !! key = None →
     ∀ w, export_one Demo.env Demo.classes (Demo.item_block [Demo.row_9]) w
          = (Raise KeyError, w)).
Proof.
  apply (type_key_shared Demo.env Demo.classes Demo.item_schema
           Demo.item_schema_sheet (Demo.item_block [Demo.row_9]) "");
    reflexivity.
Defined.

(** *** C5: several blocks of one table *)

(** C5, as stated, fails: two blocks of one table, one row each; the
    file ends up with the record of the second block only, not with the
    two records one after the other. *)
Lemma blocks_merge_counterexample :
  let datas := [Demo.item_block [Demo.row_7ab]; Demo.item_block [Demo.row_9]] in
  spec_merged_rows Demo.env Demo.classes "ItemDefinition" datas
  = [[("id", VInt 7); ("tags", VList [VStr "a"; VStr "b"])];
     [("id", VInt 9); ("tags", VList [])]]
  ∧ ∃ w', for_each datas (export_one Demo.env Demo.classes) (Demo.world [])
          = (Return tt, w')
          ∧ fs w' !! "data/ItemDefinition.json"
            = Some (Dumped (VList [VDict [("id", VInt 9); ("tags", VList [])]]))
          ∧ fs w' !! "data/ItemDefinition.json"
            ≠ Some (Dumped (VList (VDict <$>
                 spec_merged_rows Demo.env Demo.classes "ItemDefinition" datas))).
Proof.
  split; [vm_compute; reflexivity|].
  eexists. split; [vm_compute; reflexivity|].
  split; [vm_compute; reflexivity|].
  vm_compute. discriminate.
Qed.

(** C5, amended: when every block goes through, the rows of a block are
    decoded in their order, one record per row, and the file of a table
    holds the records of the last block with that table's key: a later
    block of the same key replaces what an earlier one wrote.  The file
    of a key no block has is untouched. *)
Theorem last_block_decides_file (E : Env) (G : gmap string pyobj)
    (datas : list SheetData) (w : World) :
  Forall (exportable E G) datas →
  ∃ w',
    for_each datas (export_one E G) w = (Return tt, w')
    ∧ ∀ key,
        match last_block key datas with
        | Some data =>
            ∃ klass rows,
              G !! key = Some klass
              ∧ Forall2 (λ field_msg row,
                           decode_row E G klass field_msg = Ok row)
                        (Schema.data data) rows
              ∧ fs w' !! data_path key = Some (Dumped (VList (VDict <$> rows)))
        | None => fs w' !! data_path key = fs w !! data_path key
        end.
Proof.
  intros Hall. destruct (for_each_export E G datas w Hall) as (w' & Hrun & Hfs).
  exists w'. split; [done|]. intros key. specialize (Hfs key).
  destruct (last_block key datas) as [data|] eqn:Hlast; [|done].
  apply last_Some_elem_of, list_elem_of_filter in Hlast as [Hkey Hin].
  rewrite Forall_forall in Hall.
  destruct (Hall data Hin) as (rows & Hrows & _).
  unfold block_file in Hfs. rewrite Hrows in Hfs.
  unfold block_rows in Hrows. rewrite Hkey in Hrows.
  destruct (G !! key) as [klass|]; [|done].
  destruct (rows_loop_ok E G klass _ _ _ Hrows) as (new & -> & Hnew).
  exists klass, new. by rewrite app_nil_l in Hfs.
Qed.

Lemma last_block_decides_file_witness :
  let datas := [Demo.item_block [Demo.row_7ab]; Demo.item_block [Demo.row_9]] in
  ∃ w',
    for_each datas (export_one Demo.env Demo.classes) (Demo.world [])
    = (Return tt, w')
    ∧ ∀ key,
        match last_block key datas with
        | Some data =>
            ∃ klass rows,
              Demo.classes !! key = Some klass
              ∧ Forall2 (λ field_msg row,
                           decode_row Demo.env Demo.classes klass field_msg
                           = Ok row)
                        (Schema.data data) rows
              ∧ fs w' !! data_path key = Some (Dumped (VList (VDict <$> rows)))
        | None => fs w' !! data_path key = fs (Demo.world []) !! data_path key
        end.
Proof.
  apply (last_block_decides_file Demo.env Demo.classes
           [Demo.item_block [Demo.row_7ab]; Demo.item_block [Demo.row_9]]
           (Demo.world [])).
  repeat constructor; eexists; (split; [vm_compute; reflexivity | reflexivity]).
Defined.

(** *** C6: a field of an unknown type *)

(** C6, as stated, fails: a field of type [quaternion] is not among the
    recognized type names, a loader that checks would reject it, and the
    generation goes through and writes the field with that type. *)
Lemma unknown_type_counterexample :
  recognized "quaternion" = false
  ∧ spec_check_types Demo.odd_type_tables
    = Some (UnsupportedFieldType "quaternion")
  ∧ ∃ w', write_parsed_proto Demo.odd_type_tables (Demo.world [])
          = (Return tt, w')
          ∧ fs w' !! "parsed.proto"
            = Some (Text ("syntax = " +:+ DQUOTE +:+ "proto3" +:+ DQUOTE +:+ ";"
                          +:+ LF +:+ LF
                          +:+ "message ItemPose {" +:+ LF
                          +:+ "   quaternion rot = 1;" +:+ LF
                          +:+ "}" +:+ LF +:+ LF)).
Proof.
  split; [reflexivity|]. split; [reflexivity|].
  eexists. split; [vm_compute; reflexivity|]. vm_compute. reflexivity.
Qed.

(** C6, amended: the generation of the schema does not look at the type
    string of a field.  It never raises; every field of every sheet is
    written to [parsed.proto] with its declared type string as it stands,
    whatever that string is: no field is left out and no type is put in
    its place. *)
Theorem field_type_emitted_verbatim (config_table : ConfigTables)
    (i j k : nat) (schema : TableSchema) (parsed : SheetSchema)
    (field : Field) (w : World) :
  schemas config_table !! i = Some schema →
  sheets schema !! j = Some parsed →
  fields parsed !! k = Some field →
  ∃ w' pre post,
    write_parsed_proto config_table w = (Return tt, w')
    ∧ fs w' !! "parsed.proto"
      = Some (Text (pre
                    +:+ ("  " +:+ (if 0 <? array_length field
                                   then "repeated" else "") +:+ " "
                         +:+ pb_type field +:+ " " +:+ field_name field
                         +:+ " = " +:+ pretty (pb_index field) +:+ ";" +:+ LF)
                    +:+ post)).
Proof.
  intros Hs Hp Hf.
  destruct (new_proto_message config_table i schema j parsed Hs Hp)
    as (a & b & Htext).
  unfold message_text in Htext.
  rewrite (join_map_lookup field_line _ k field Hf) in Htext.
  rewrite write_parsed_proto_run. eexists _, _, _. split; [reflexivity|].
  cbn [fs]. rewrite lookup_insert_eq. do 2 f_equal. rewrite Htext.
  set (head := "message " +:+ class_name (name schema) (sheet_name parsed)
               +:+ " {" +:+ LF).
  set (before := join (map field_line (take k (fields parsed)))).
  set (after := join (map field_line (drop (S k) (fields parsed)))).
  set (close := "}" +:+ LF +:+ LF).
  transitivity ((a +:+ head +:+ before) +:+ field_line field
                +:+ (after +:+ close +:+ b)).
  - by rewrite !str_app_assoc.
  - reflexivity.
Qed.

Lemma field_type_emitted_verbatim_witness :
  ∃ w' pre post,
    write_parsed_proto Demo.odd_type_tables (Demo.world []) = (Return tt, w')
    ∧ fs w' !! "parsed.proto"
      = Some (Text (pre
                    +:+ ("  " +:+ "" +:+ " " +:+ "quaternion" +:+ " " +:+ "rot"
                         +:+ " = " +:+ pretty 1 +:+ ";" +:+ LF)
                    +:+ post)).
Proof.
  apply (field_type_emitted_verbatim Demo.odd_type_tables 0 0 0
           {| name := "item";
              sheets := [ {| sheet_name := "pose";
                             fields := [ {| field_name := "rot";
                                            array_length := 0;
                                            pb_type := "quaternion";
                                            pb_index := 1 |} ] |} ] |}
           {| sheet_name := "pose";
              fields := [ {| field_name := "rot"; array_length := 0;
                             pb_type := "quaternion"; pb_index := 1 |} ] |}
           {| field_name := "rot"; array_length := 0;
              pb_type := "quaternion"; pb_index := 1 |}
           (Demo.world []));
    reflexivity.
Defined.

(** *** C7: two fields of one index *)

(** C7, as stated, fails: a sheet declares two fields of index 1, a
    loader that checks would reject it, and the generation goes through
    and writes both. *)
Lemma same_index_counterexample :
  spec_check_indices Demo.same_index_tables = Some MalformedBundle
  ∧ ∃ w', write_parsed_proto Demo.same_index_tables (Demo.world [])
          = (Return tt, w')
          ∧ fs w' !! "parsed.proto"
            = Some (Text ("syntax = " +:+ DQUOTE +:+ "proto3" +:+ DQUOTE +:+ ";"
                          +:+ LF +:+ LF
                          +:+ "message ItemPair {" +:+ LF
                          +:+ "   uint32 a = 1;" +:+ LF
                          +:+ "   string b = 1;" +:+ LF
                          +:+ "}" +:+ LF +:+ LF)).
Proof.
  split; [vm_compute; reflexivity|].
  eexists. split; [vm_compute; reflexivity|]. vm_compute. reflexivity.
Qed.

(** C7, amended: the generation of the schema does not compare field
    indices.  It never raises; two fields of a sheet with the same index
    are both written to [parsed.proto], in declaration order, each with
    its own name, type and that index: neither takes the place of the
    other. *)
Theorem same_index_both_emitted (config_table : ConfigTables)
    (i j k1 k2 : nat) (schema : TableSchema) (parsed : SheetSchema)
    (field1 field2 : Field) (w : World) :
  schemas config_table !! i = Some schema →
  sheets schema !! j = Some parsed →
  fields parsed !! k1 = Some field1 →
  fields parsed !! k2 = Some field2 →
  (k1 < k2)%nat →
  pb_index field1 = pb_index field2 →
  ∃ w' a b c,
    write_parsed_proto config_table w = (Return tt, w')
    ∧ fs w' !! "parsed.proto"
      = Some (Text (a +:+ field_line field1 +:+ b +:+ field_line field2 +:+ c)).
Proof.
  intros Hs Hp Hf1 Hf2 Hlt _.
  destruct (new_proto_message config_table i schema j parsed Hs Hp)
    as (pre & post & Htext).
  unfold message_text in Htext.
  destruct (join_map_lookup2 field_line _ k1 k2 field1 field2 Hf1 Hf2 Hlt)
    as (a & b & c & Hjoin).
  rewrite Hjoin in Htext.
  rewrite write_parsed_proto_run.
  set (head := "message " +:+ class_name (name schema) (sheet_name parsed)
               +:+ " {" +:+ LF) in Htext.
  set (close := "}" +:+ LF +:+ LF) in Htext.
  eexists _, (pre +:+ head +:+ a), b, (c +:+ close +:+ post).
  split; [reflexivity|].
  cbn [fs]. rewrite lookup_insert_eq. do 2 f_equal. rewrite Htext.
  by rewrite !str_app_assoc.
Qed.

Lemma same_index_both_emitted_witness :
  ∃ w' a b c,
    write_parsed_proto Demo.same_index_tables (Demo.world []) = (Return tt, w')
    ∧ fs w' !! "parsed.proto"
      = Some (Text (a +:+ field_line {| field_name := "a"; array_length := 0;
                                        pb_type := "uint32"; pb_index := 1 |}
                    +:+ b
                    +:+ field_line {| field_name := "b"; array_length := 0;
                                      pb_type := "string"; pb_index := 1 |}
                    +:+ c)).
Proof.
  apply (same_index_both_emitted Demo.same_index_tables 0 0 0 1
           {| name := "item";
              sheets := [ {| sheet_name := "pair";
                             fields := [ {| field_name := "a"; array_length := 0;
                                            pb_type := "uint32"; pb_index := 1 |};
                                         {| field_name := "b"; array_length := 0;
                                            pb_type := "string";
                                            pb_index := 1 |} ] |} ] |}
           {| sheet_name := "pair";
              fields := [ {| field_name := "a"; array_length := 0;
                             pb_type := "uint32"; pb_index := 1 |};
                          {| field_name := "b"; array_length := 0;
                             pb_type := "string"; pb_index := 1 |} ] |}
           {| field_name := "a"; array_length := 0;
              pb_type := "uint32"; pb_index := 1 |}
           {| field_name := "b"; array_length := 0;
              pb_type := "string"; pb_index := 1 |}
           (Demo.world []));
    first [reflexivity | lia].
Defined.

(** *** C8: the recorded version moves first *)

(** C8: when the fetched version differs from the recorded one,
    [version.json] is rewritten with the fetched version before anything
    else is requested: up to that write the log holds the request of the
    version, the read of the file and one line of output.  However the
    rest of the run ends, by returning, by exit or by an exception,
    [version.json] holds the fetched version. *)
Theorem version_recorded_before_downloads (E : Env) (w : World)
    (live_version local_version : pyval) (c : content) :
  http_json E (URL +:+ "/version.json") = Some live_version →
  fs w !! "version.json" = Some c →
  json_of E c = Ok local_version →
  py_eq E local_version live_version = false →
  json_ok live_version = true →
  ∃ r w' later,
    main E w = (r, w')
    ∧ fs w' !! "version.json" = Some (Dumped live_version)
    ∧ trace w'
      = trace w
        ++ [EGet (URL +:+ "/version.json"); ERead "version.json";
            EPrint ("New Live version: " +:+ py_format E live_version);
            EOpenW "version.json";
            EWrite "version.json" (Dumped live_version)]
        ++ later.
Proof.
  intros Hlive Hc Hlocal Hne Hok. unfold main.
  pose proof (check_version_new E w live_version c local_version
                Hlive Hc Hlocal Hne Hok) as Hcheck.
  erewrite bind_Return; [|exact Hcheck].
  match goal with |- context [after_check E live_version ?w1] =>
    destruct (after_check E live_version w1) as [r w'] eqn:Hrest;
    destruct (keeps_after_check E live_version _ _ _ Hrest)
      as [Hfile [later Hlog]]
  end.
  exists r, w', later. split; [reflexivity|].
  cbn [fs trace] in Hfile, Hlog. split.
  - by rewrite Hfile, lookup_insert_eq.
  - by rewrite Hlog, <- app_assoc.
Qed.

Lemma version_recorded_before_downloads_witness :
  ∃ r w' later,
    main Demo.env
      (Demo.world [("version.json", Dumped (VDict [("version", VStr "0.11.1.w")]))])
    = (r, w')
    ∧ fs w' !! "version.json" = Some (Dumped Demo.live)
    ∧ trace w'
      = [] ++ [EGet (URL +:+ "/version.json"); ERead "version.json";
               EPrint ("New Live version: " +:+ Demo.format Demo.live);
               EOpenW "version.json";
               EWrite "version.json" (Dumped Demo.live)]
        ++ later.
Proof.
  apply (version_recorded_before_downloads Demo.env
           (Demo.world [("version.json",
                         Dumped (VDict [("version", VStr "0.11.1.w")]))])
           Demo.live (VDict [("version", VStr "0.11.1.w")])
           (Dumped (VDict [("version", VStr "0.11.1.w")])));
    reflexivity.
Defined.

(** *** C9: nothing new *)

(** C9: when the fetched version equals the one read from
    [version.json], the run prints [No update] and exits with status 0;
    the only request made is the one for the version, and no file is
    written or changed. *)
Theorem no_update_changes_nothing (E : Env) (w : World)
    (live_version local_version : pyval) (c : content) :
  http_json E (URL +:+ "/version.json") = Some live_version →
  fs w !! "version.json" = Some c →
  json_of E c = Ok local_version →
  py_eq E local_version live_version = true →
  main E w
  = (Exit 0,
     {| fs := fs w;
        trace := trace w ++ [EGet (URL +:+ "/version.json");
                             ERead "version.json"; EPrint "No update"] |}).
Proof.
  intros Hlive Hc Hlocal Heq. unfold main.
  apply bind_Exit. by apply (check_version_same E w live_version c local_version).
Qed.

Lemma no_update_changes_nothing_witness :
  main Demo.env (Demo.world [("version.json", Dumped Demo.live)])
  = (Exit 0,
     {| fs := fs (Demo.world [("version.json", Dumped Demo.live)]);
        trace := [] ++ [EGet (URL +:+ "/version.json");
                        ERead "version.json"; EPrint "No update"] |}).
Proof.
  apply (no_update_changes_nothing Demo.env
           (Demo.world [("version.json", Dumped Demo.live)])
           Demo.live Demo.live (Dumped Demo.live));
    reflexivity.
Defined.

(** *** C10: the repetition flag *)

(** C10: the line written for a field carries the label [repeated]
    exactly when [array_length] is greater than 0; otherwise the label
    slot is empty and the field is singular.  Nothing else of the field
    decides the label. *)
Theorem repeated_iff_positive_array_length (new_proto : string)
    (field : Field) :
  emit_field new_proto field
  = new_proto +:+ (if 0 <? array_length field then "  repeated " else "   ")
    +:+ field_decl field
  ∧ startswith "  repeated " (field_line field) = (0 <? array_length field)
  ∧ startswith "   " (field_line field) = negb (0 <? array_length field).
Proof.
  rewrite emit_field_line. unfold field_line.
  destruct (0 <? array_length field); repeat split.
Qed.

End Claims.

(** ** Further properties *)

Module Extras.
Import Text TextFacts Schema SchemaFacts Rows Run RowsFacts RunFacts More.

(** *** The key of a table (lines 74-75 and 102-103) *)

Lemma occurs_app c (a b : string) :
  occurs c (a +:+ b) = occurs c a || occurs c b.
Proof.
  induction a as [|x a IH]; [done|].
  rewrite str_app_cons. simpl. by rewrite IH, orb_assoc.
Qed.

Lemma occurs_join c (l : list string) :
  occurs c (join l) = existsb (occurs c) l.
Proof.
  induction l as [|w l IH]; [done|].
  simpl. by rewrite occurs_app, IH.
Qed.

Lemma split_segments_clean sep s :
  forallb (λ seg, negb (occurs sep seg)) (split sep s) = true.
Proof.
  induction s as [|x s IH]; [done|].
  simpl. destruct (Ascii.eqb x sep) eqn:E; [done|].
  pose proof (split_nonempty sep s) as Hne.
  destruct (split sep s) as [|w ws]; [done|].
  simpl in *. by rewrite E.
Qed.

(** Changing the case of a character neither makes nor unmakes the
    delimiter. *)
Lemma upper_underscore c :
  Ascii.eqb (upper c) UNDERSCORE = Ascii.eqb c UNDERSCORE.
Proof. destruct c as [[] [] [] [] [] [] [] []]; reflexivity. Qed.

Lemma lower_underscore c :
  Ascii.eqb (lower c) UNDERSCORE = Ascii.eqb c UNDERSCORE.
Proof. destruct c as [[] [] [] [] [] [] [] []]; reflexivity. Qed.

Lemma upper_lower c : upper (lower c) = upper c.
Proof. destruct c as [[] [] [] [] [] [] [] []]; reflexivity. Qed.

Lemma lower_lower c : lower (lower c) = lower c.
Proof. destruct c as [[] [] [] [] [] [] [] []]; reflexivity. Qed.

Lemma occurs_lower_all s :
  occurs UNDERSCORE (lower_all s) = occurs UNDERSCORE s.
Proof.
  induction s as [|x s IH]; [done|].
  simpl. by rewrite lower_underscore, IH.
Qed.

Lemma occurs_capitalize s :
  occurs UNDERSCORE (capitalize s) = occurs UNDERSCORE s.
Proof.
  destruct s as [|x s]; [done|].
  simpl. by rewrite upper_underscore, occurs_lower_all.
Qed.

Lemma lower_all_lower_all s : lower_all (lower_all s) = lower_all s.
Proof.
  induction s as [|x s IH]; [done|].
  simpl. by rewrite lower_lower, IH.
Qed.

Lemma capitalize_lower_all s : capitalize (lower_all s) = capitalize s.
Proof.
  destruct s as [|x s]; [done|].
  simpl. by rewrite upper_lower, lower_all_lower_all.
Qed.

Lemma split_lower_all s :
  split UNDERSCORE (lower_all s) = map lower_all (split UNDERSCORE s).
Proof.
  induction s as [|x s IH]; [done|].
  simpl. rewrite lower_underscore, IH.
  destruct (Ascii.eqb x UNDERSCORE); [done|].
  pose proof (split_nonempty UNDERSCORE s) as Hne.
  by destruct (split UNDERSCORE s).
Qed.

Lemma normalize_lower_all s : normalize (lower_all s) = normalize s.
Proof.
  unfold normalize. rewrite split_lower_all, map_map. f_equal.
  apply map_ext. intros seg. apply capitalize_lower_all.
Qed.

Lemma normalize_glue (a b : string) :
  normalize (a +:+ "_" +:+ b) = normalize a +:+ normalize b.
Proof.
  unfold normalize. change ("_" +:+ b) with (String UNDERSCORE b).
  by rewrite split_glue, map_app, join_app.
Qed.

(** X1: the key of a table never holds the delimiter: every ["_"] of the
    two names is consumed by the split, and capitalising a segment brings
    none in. *)
Theorem class_name_has_no_delimiter (a b : string) :
  occurs UNDERSCORE (class_name a b) = false
  ∧ split UNDERSCORE (class_name a b) = [class_name a b].
Proof.
  assert (occurs UNDERSCORE (class_name a b) = false) as Hocc.
  { unfold class_name, class_words. rewrite occurs_join.
    pose proof (split_segments_clean UNDERSCORE (a +:+ "_" +:+ b)) as Hclean.
    induction (split UNDERSCORE (a +:+ "_" +:+ b)) as [|seg l IH]; [done|].
    simpl in *. apply andb_prop in Hclean as [Hseg Hl].
    rewrite occurs_capitalize, IH by done.
    by destruct (occurs UNDERSCORE seg). }
  split; [done|].
  induction (class_name a b) as [|x s IH]; [done|].
  simpl in *. apply orb_false_elim in Hocc as [Hx Hs].
  by rewrite Hx, (IH Hs).
Qed.

(** X2: the key does not see letter case: names that are equal once
    lowered give the same key. *)
Theorem class_name_ignores_case (a a' b b' : string) :
  lower_all a = lower_all a' →
  lower_all b = lower_all b' →
  class_name a b = class_name a' b'.
Proof.
  intros Ha Hb. rewrite !class_name_normalize.
  rewrite <- (normalize_lower_all a), <- (normalize_lower_all b), Ha, Hb.
  by rewrite !normalize_lower_all.
Qed.

Lemma class_name_ignores_case_witness :
  class_name "Item_Definition" "ITEM" = class_name "item_definition" "item".
Proof.
  apply (class_name_ignores_case "Item_Definition" "item_definition"
           "ITEM" "item"); reflexivity.
Defined.

(** X3: the key does not see where the table name ends: a segment moved
    from the end of the table name to the front of the sheet name leaves
    the key as it was. *)
Theorem class_name_ignores_boundary (a b c : string) :
  class_name (a +:+ "_" +:+ b) c = class_name a (b +:+ "_" +:+ c).
Proof.
  rewrite !class_name_normalize, !normalize_glue. apply str_app_assoc.
Qed.

(** *** The generated text (lines 70-79) *)

(** X4: the three nested loops over schemas, sheets and fields build the
    header followed by one message per sheet, schema by schema and sheet
    by sheet in their order, each message listing one line per field in
    field order.  The header is there whatever the bundle holds, and a
    sheet without fields still gets its (empty) message. *)
Theorem new_proto_closed_form (config_table : ConfigTables) :
  new_proto config_table
  = header
    +:+ join (map (λ schema,
                 join (map (λ parsed,
                              ("message "
                               +:+ class_name (name schema) (sheet_name parsed)
                               +:+ " {" +:+ LF)
                              +:+ join (map field_line (fields parsed))
                              +:+ ("}" +:+ LF +:+ LF))
                           (sheets schema)))
                  (schemas config_table))
  ∧ startswith header (new_proto config_table) = true.
Proof.
  rewrite new_proto_text. split; [reflexivity|]. apply startswith_app.
Qed.

(** *** The resource list (lines 31-35) *)

Lemma endswith_suffix p s : endswith p s = true → ∃ pre, s = pre +:+ p.
Proof.
  induction s as [|x s IH].
  - simpl. destruct (String.eqb p "") eqn:E; [|done].
    apply String.eqb_eq in E as ->. by exists "".
  - cbn [endswith]. destruct (String.eqb p (String x s)) eqn:E.
    + apply String.eqb_eq in E as ->. by exists "".
    + intros H. destruct (IH H) as [pre ->]. by exists (String x pre).
Qed.

Lemma last_char_app (a b : string) :
  b ≠ "" → last_char (a +:+ b) = last_char b.
Proof.
  intros Hb. induction a as [|x a IH]; [done|].
  rewrite str_app_cons. cbn [last_char]. rewrite IH.
  destruct (a +:+ b) eqn:E; [|done].
  destruct a; [|done]. rewrite str_app_nil in E. done.
Qed.

(** No path ends with both names. *)
Lemma suffixes_exclusive path :
  endswith "config.proto" path = true → endswith "lqc.lqbin" path = false.
Proof.
  intros Hc. destruct (endswith "lqc.lqbin" path) eqn:Hl; [|done].
  apply endswith_suffix in Hc as [pre1 H1].
  apply endswith_suffix in Hl as [pre2 H2].
  apply (f_equal last_char) in H1, H2.
  rewrite last_char_app in H1 by done.
  rewrite last_char_app in H2 by done.
  rewrite H1 in H2. discriminate.
Qed.

Lemma default_last_cons (c : pyval) (x : string * pyval) l :
  default c (snd <$> last (x :: l)) = default (snd x) (snd <$> last l).
Proof. rewrite last_cons. by destruct (last l). Qed.

Lemma scan_res_fold items c l :
  fold_left scan_res items (c, l)
  = (default c (snd <$> last (config_entries items)),
     default l (snd <$> last (lqc_entries items))).
Proof.
  revert c l. induction items as [|[path info] items IH]; intros c l; [done|].
  cbn [fold_left scan_res]. unfold config_entries, lqc_entries in *.
  destruct (endswith "config.proto" path) eqn:Hc.
  - rewrite IH. rewrite (filter_cons_True _ (path, info)) by done.
    rewrite (filter_cons_False _ (path, info)).
    2:{ simpl. by rewrite (suffixes_exclusive path Hc). }
    by rewrite default_last_cons.
  - rewrite (filter_cons_False _ (path, info)) by (simpl; by rewrite Hc).
    destruct (endswith "lqc.lqbin" path) eqn:Hl.
    + rewrite IH. rewrite (filter_cons_True _ (path, info)) by done.
      by rewrite default_last_cons.
    + rewrite IH. by rewrite (filter_cons_False _ (path, info))
        by (simpl; by rewrite Hl).
Qed.

(** X5: after the loop over the resource list, [config_proto_info] is
    the info of the last entry whose path ends with [config.proto] and
    [lqc_info] that of the last entry whose path ends with [lqc.lqbin];
    each is [None] when no entry qualifies.  Earlier entries of the same
    kind are overridden, and no entry serves for both. *)
Theorem scan_keeps_last_entry (items : list (string * pyval)) :
  fold_left scan_res items (VNone, VNone)
  = (last_info (config_entries items), last_info (lqc_entries items))
  ∧ lqc_entries (config_entries items) = [].
Proof.
  split; [apply scan_res_fold|].
  unfold config_entries, lqc_entries.
  induction items as [|[path info] items IH]; [done|].
  destruct (endswith "config.proto" path) eqn:Hc.
  - rewrite (filter_cons_True _ (path, info)) by done.
    rewrite (filter_cons_False _ (path, info)); [done|].
    simpl. by rewrite (suffixes_exclusive path Hc).
  - by rewrite (filter_cons_False _ (path, info)) by (simpl; by rewrite Hc).
Qed.

(** *** The files a run writes *)

Section Frame.
Context (E : Env) (p : string).

Lemma untouched_ret {A} (a : A) : untouched p (mret a).
Proof. by intros w r w' [= <- <-]. Qed.

Lemma untouched_raise {A} e : untouched p (@raise A e).
Proof. by intros w r w' [= <- <-]. Qed.

Lemma untouched_exit {A} code : untouched p (@exit A code).
Proof. by intros w r w' [= <- <-]. Qed.

Lemma untouched_lift {A} (r : result A) : untouched p (lift r).
Proof. destruct r; [apply untouched_ret | apply untouched_raise]. Qed.

Lemma untouched_or_raise {A} e (o : option A) : untouched p (or_raise e o).
Proof. destruct o; [apply untouched_ret | apply untouched_raise]. Qed.

Lemma untouched_emit e : untouched p (emit e).
Proof. by intros w r w' [= <- <-]. Qed.

Lemma untouched_set_file path c : path ≠ p → untouched p (set_file path c).
Proof. intros Hne w r w' [= <- <-]. simpl. by rewrite lookup_insert_ne. Qed.

Lemma untouched_get_file path : untouched p (get_file path).
Proof.
  intros w r w'. unfold get_file. by destruct (fs w !! path); intros [= <- <-].
Qed.

Lemma untouched_bind {A B} (m : M A) (f : A → M B) :
  untouched p m → (∀ a, untouched p (f a)) → untouched p (m ≫= f).
Proof.
  intros Hm Hf w r w'. rewrite bind_unfold.
  destruct (m w) as [[a|code|e] w1] eqn:Em.
  - intros Hr. rewrite (Hf _ _ _ _ Hr). by eapply Hm.
  - intros [= <- <-]. by eapply Hm.
  - intros [= <- <-]. by eapply Hm.
Qed.

Lemma untouched_for_each {A} (l : list A) (body : A → M unit) :
  (∀ x, untouched p (body x)) → untouched p (for_each l body).
Proof.
  intros Hbody. induction l as [|x l IH]; simpl.
  - apply untouched_ret.
  - apply untouched_bind; [apply Hbody | by intros _].
Qed.

Lemma untouched_open_w path : path ≠ p → untouched p (open_w path).
Proof.
  intros H. apply untouched_bind; [apply untouched_emit|intros _].
  by apply untouched_set_file.
Qed.

Lemma untouched_file_write path c : path ≠ p → untouched p (file_write path c).
Proof.
  intros H. apply untouched_bind; [apply untouched_emit|intros _].
  by apply untouched_set_file.
Qed.

Lemma untouched_json_dump v path : path ≠ p → untouched p (json_dump v path).
Proof.
  intros H. unfold json_dump. destruct (json_ok v).
  - by apply untouched_file_write.
  - apply untouched_bind; [by apply untouched_file_write|intros _].
    apply untouched_raise.
Qed.

Lemma untouched_read_text path : untouched p (read_text E path).
Proof.
  apply untouched_bind; [apply untouched_emit|intros _].
  apply untouched_bind; [apply untouched_get_file|intros c].
  apply untouched_ret.
Qed.

Lemma untouched_json_load path : untouched p (json_load E path).
Proof.
  apply untouched_bind; [apply untouched_emit|intros _].
  apply untouched_bind; [apply untouched_get_file|intros c].
  apply untouched_lift.
Qed.

Lemma untouched_get_json url : untouched p (get_json E url).
Proof.
  apply untouched_bind; [apply untouched_emit|intros _].
  apply untouched_or_raise.
Qed.

Lemma untouched_get_content url : untouched p (get_content E url).
Proof.
  apply untouched_bind; [apply untouched_emit|intros _].
  apply untouched_or_raise.
Qed.

Lemma untouched_run_protoc file out :
  out ≠ p → untouched p (run_protoc E file out).
Proof.
  intros Hne. apply untouched_bind; [apply untouched_emit|intros _].
  destruct (negb (protoc_installed E)); [apply untouched_raise|].
  intros w r w'. destruct (fs w !! file) as [c|].
  - destruct (protoc E (text_of E c)).
    + by apply untouched_set_file.
    + by intros [= <- <-].
  - by intros [= <- <-].
Qed.

Lemma untouched_exec_file path G : untouched p (exec_file E path G).
Proof.
  apply untouched_bind; [apply untouched_read_text|intros code].
  apply untouched_or_raise.
Qed.

Lemma untouched_check_version :
  "version.json" ≠ p → untouched p (check_version E).
Proof.
  intros Hne. unfold check_version.
  apply untouched_bind; [apply untouched_get_json|intros live_version].
  apply untouched_bind; [apply untouched_json_load|intros local_version].
  apply untouched_bind; [|intros _; apply untouched_ret].
  destruct (py_eq E local_version live_version).
  - apply untouched_bind; [apply untouched_emit|intros _].
    apply untouched_exit.
  - apply untouched_bind; [apply untouched_emit|intros _].
    apply untouched_bind; [by apply untouched_open_w|intros _].
    by apply untouched_json_dump.
Qed.

Lemma untouched_download live_version :
  "config.proto" ≠ p → "lqc.lqbin" ≠ p → untouched p (download E live_version).
Proof.
  intros Hc Hl. unfold download.
  apply untouched_bind; [apply untouched_lift|intros v].
  apply untouched_bind; [apply untouched_get_json|intros resversion_req].
  apply untouched_bind; [apply untouched_lift|intros res].
  apply untouched_bind; [apply untouched_lift|intros items].
  destruct (fold_left scan_res items (VNone, VNone))
    as [config_proto_info lqc_info].
  apply untouched_bind.
  { destruct (negb (truthy config_proto_info) || negb (truthy lqc_info)).
    - apply untouched_bind; [apply untouched_emit|intros _].
      apply untouched_exit.
    - apply untouched_ret. }
  intros _.
  apply untouched_bind; [apply untouched_lift|intros p1].
  apply untouched_bind; [apply untouched_lift|intros p2].
  apply untouched_bind; [apply untouched_emit|intros _].
  apply untouched_bind; [apply untouched_get_content|intros config_proto_req].
  apply untouched_bind; [by apply untouched_open_w|intros _].
  apply untouched_bind; [by apply untouched_file_write|intros _].
  apply untouched_bind; [apply untouched_emit|intros _].
  apply untouched_bind; [apply untouched_get_content|intros lqc_req].
  apply untouched_bind; [by apply untouched_open_w|intros _].
  by apply untouched_file_write.
Qed.

Lemma untouched_load_tables G :
  "config_pb2.py" ≠ p → untouched p (load_tables E G).
Proof.
  intros Hne. unfold load_tables.
  apply untouched_bind; [by apply untouched_run_protoc|intros _].
  apply untouched_bind; [apply untouched_emit|intros _].
  apply untouched_bind; [apply untouched_exec_file|intros G'].
  apply untouched_bind; [apply untouched_emit|intros _].
  apply untouched_bind.
  { unfold new_ConfigTables. destruct (G' !! "ConfigTables") as [[]|];
      first [apply untouched_ret | apply untouched_raise]. }
  intros parse.
  apply untouched_bind; [apply untouched_read_text|intros lqc].
  apply untouched_bind; [apply untouched_or_raise|intros config_table].
  apply untouched_ret.
Qed.

Lemma untouched_write_parsed_proto config_table :
  "parsed.proto" ≠ p → untouched p (write_parsed_proto config_table).
Proof.
  intros Hne. unfold write_parsed_proto.
  apply untouched_bind; [apply untouched_emit|intros _].
  apply untouched_bind; [apply untouched_emit|intros _].
  apply untouched_bind; [by apply untouched_open_w|intros _].
  apply untouched_bind; [by apply untouched_file_write|intros _].
  apply untouched_emit.
Qed.

Lemma untouched_load_parsed G :
  "parsed_pb2.py" ≠ p → untouched p (load_parsed E G).
Proof.
  intros Hne. unfold load_parsed.
  apply untouched_bind; [apply untouched_emit|intros _].
  apply untouched_bind; [by apply untouched_run_protoc|intros _].
  apply untouched_bind; [apply untouched_emit|intros _].
  apply untouched_exec_file.
Qed.

Lemma untouched_export_one G data :
  data_path (class_name (table data) (sheet data)) ≠ p →
  untouched p (export_one E G data).
Proof.
  intros Hne. unfold export_one.
  apply untouched_bind; [apply untouched_or_raise|intros klass].
  apply untouched_bind; [by apply untouched_open_w|intros _].
  destruct (negb (hasattr_data data)); [apply untouched_ret|].
  apply untouched_bind; [apply untouched_lift|intros json_data].
  by apply untouched_json_dump.
Qed.

Lemma untouched_export G config_table :
  Forall (λ data, data_path (class_name (table data) (sheet data)) ≠ p)
         (datas config_table) →
  untouched p (export E G config_table).
Proof.
  intros Hne. unfold export.
  apply untouched_bind.
  { unfold new_Path. destruct (G !! "Path") as [[]|];
      first [apply untouched_ret | apply untouched_raise]. }
  intros _.
  apply untouched_bind.
  { unfold mkdir. apply untouched_bind; [apply untouched_emit|intros _].
    apply untouched_bind; [by intros w0 r0 w1 [= <- <-]|intros [c|]];
      first [apply untouched_ret | apply untouched_raise]. }
  intros _.
  apply untouched_bind; [apply untouched_emit|intros _].
  apply untouched_bind; [|intros _; apply untouched_emit].
  induction Hne as [|data l Hd Hl IH]; simpl.
  - apply untouched_ret.
  - apply untouched_bind; [by apply untouched_export_one | by intros _].
Qed.

End Frame.

(** X6: a run writes no file but [version.json], [config.proto],
    [lqc.lqbin], the two generated modules, [parsed.proto] and the files
    [data/<key>.json]: any other file is after the run, however it ends,
    what it was before. *)
Theorem main_writes_only_its_files (E : Env) (p : string) (w w' : World)
    (r : outcome unit) :
  p ∉ named_files →
  (∀ key, p ≠ data_path key) →
  main E w = (r, w') →
  fs w' !! p = fs w !! p.
Proof.
  intros Hnamed Hdata.
  assert (Forall (λ q, q ≠ p) named_files) as Hall.
  { apply Forall_forall. intros q Hq ->. by apply Hnamed. }
  unfold named_files in Hall.
  apply Forall_cons in Hall as [Hversion Hall].
  apply Forall_cons in Hall as [Hconfig Hall].
  apply Forall_cons in Hall as [Hlqc Hall].
  apply Forall_cons in Hall as [Hconfig_pb2 Hall].
  apply Forall_cons in Hall as [Hparsed Hall].
  apply Forall_cons in Hall as [Hparsed_pb2 _].
  revert w r w'. change (untouched p (main E)). unfold main.
  apply untouched_bind; [by apply untouched_check_version|intros live_version].
  unfold after_check.
  apply untouched_bind; [by apply untouched_download|intros _].
  apply untouched_bind;
    [by apply untouched_load_tables|intros [G config_table]].
  apply untouched_bind; [by apply untouched_write_parsed_proto|intros _].
  apply untouched_bind; [by apply untouched_load_parsed|intros G'].
  apply untouched_export. apply Forall_forall. intros data _ Heq.
  by apply (Hdata (class_name (table data) (sheet data))).
Qed.

Lemma main_writes_only_its_files_witness :
  fs (main Demo.env
        (Demo.world [("version.json",
                      Dumped (VDict [("version", VStr "0.11.1.w")]));
                     ("notes.txt", Text "keep")])).2
  !! "notes.txt"
  = fs (Demo.world [("version.json",
                     Dumped (VDict [("version", VStr "0.11.1.w")]));
                    ("notes.txt", Text "keep")]) !! "notes.txt".
Proof.
  apply (main_writes_only_its_files Demo.env "notes.txt" _ _
           (main Demo.env
              (Demo.world [("version.json",
                            Dumped (VDict [("version", VStr "0.11.1.w")]));
                           ("notes.txt", Text "keep")])).1).
  - apply (bool_decide_unpack _). vm_compute. exact I.
  - intros key. unfold data_path. rewrite str_app_cons. discriminate.
  - by destruct (main _ _).
Defined.

(** *** Runs that end early (lines 9-39) *)

Section EarlyEnds.
Context (E : Env).

Lemma json_load_missing path w :
  fs w !! path = None →
  json_load E path w
  = (Raise FileNotFoundError,
     {| fs := fs w; trace := trace w ++ [ERead path] |}).
Proof.
  intros Hc. unfold json_load. rewrite emit_bind.
  rewrite bind_unfold. unfold get_file. cbn [fs]. by rewrite Hc.
Qed.

Lemma json_load_bad path c e w :
  fs w !! path = Some c → json_of E c = Err e →
  json_load E path w
  = (Raise e, {| fs := fs w; trace := trace w ++ [ERead path] |}).
Proof.
  intros Hc He. unfold json_load. rewrite emit_bind.
  rewrite bind_unfold. unfold get_file. cbn [fs]. by rewrite Hc, He.
Qed.

Lemma download_exit live_version v rv res items w :
  getitem live_version "version" = Ok v →
  http_json E (URL +:+ "/resversion" +:+ py_format E v +:+ ".json") = Some rv →
  getitem rv "res" = Ok res →
  dict_items res = Ok items →
  truthy (last_info (config_entries items))
  && truthy (last_info (lqc_entries items)) = false →
  download E live_version w
  = (Exit 1,
     {| fs := fs w;
        trace := trace w
          ++ [EGet (URL +:+ "/resversion" +:+ py_format E v +:+ ".json");
              EPrint "config.proto or lqc.lqbin not found"] |}).
Proof.
  intros Hv Hrv Hres Hitems Hfalsy. unfold download.
  rewrite Hv, lift_Ok, ret_bind. cbv zeta.
  erewrite bind_Return; [|by apply get_json_served].
  rewrite Hres, lift_Ok, ret_bind, Hitems, lift_Ok, ret_bind.
  rewrite scan_res_fold. fold (last_info (config_entries items)).
  fold (last_info (lqc_entries items)).
  assert (negb (truthy (last_info (config_entries items)))
          || negb (truthy (last_info (lqc_entries items))) = true) as ->.
  { destruct (truthy (last_info (config_entries items))),
             (truthy (last_info (lqc_entries items))); done. }
  rewrite bind_assoc, print_bind, exit_bind. cbn [fs trace].
  by rewrite <- app_assoc.
Qed.

End EarlyEnds.

(** X7: when the version cannot be fetched, or [version.json] is
    missing, or it does not hold a JSON document, the run ends with the
    exception of that step ([FileNotFoundError] for the missing file);
    no file is written, nothing is printed and nothing but the version
    was requested. *)
Theorem early_failure_writes_nothing (E : Env) (w : World) :
  (http_json E (URL +:+ "/version.json") = None
   ∨ fs w !! "version.json" = None
   ∨ ∃ c e, fs w !! "version.json" = Some c ∧ json_of E c = Err e) →
  main E w
  = match http_json E (URL +:+ "/version.json") with
    | None =>
        (Raise RequestError,
         {| fs := fs w;
            trace := trace w ++ [EGet (URL +:+ "/version.json")] |})
    | Some _ =>
        (Raise match fs w !! "version.json" with
               | None => FileNotFoundError
               | Some c => match json_of E c with
                           | Err e => e
                           | Ok _ => JSONDecodeError
                           end
               end,
         {| fs := fs w;
            trace := trace w ++ [EGet (URL +:+ "/version.json");
                                 ERead "version.json"] |})
    end.
Proof.
  intros H. unfold main, check_version.
  destruct (http_json E (URL +:+ "/version.json")) as [live|] eqn:Hlive.
  - rewrite bind_assoc.
    erewrite bind_Return; [|by apply get_json_served].
    destruct (fs w !! "version.json") as [c|] eqn:Hc.
    + destruct (json_of E c) as [local|e] eqn:Hj.
      { destruct H as [H|[H|(c' & e & Hc' & He)]]; [done..|].
        congruence. }
      rewrite bind_assoc.
      erewrite bind_Raise; [|by apply (json_load_bad E "version.json" c e)].
      cbn [fs trace]. by rewrite <- app_assoc.
    + rewrite bind_assoc.
      erewrite bind_Raise; [|by apply json_load_missing].
      cbn [fs trace]. by rewrite <- app_assoc.
  - rewrite bind_assoc. apply bind_Raise.
    unfold get_json. rewrite emit_bind. by rewrite Hlive.
Qed.

Lemma early_failure_writes_nothing_witness :
  main Demo.env (Demo.world [])
  = (Raise FileNotFoundError,
     {| fs := ∅;
        trace := [] ++ [EGet (URL +:+ "/version.json");
                        ERead "version.json"] |}).
Proof.
  apply (early_failure_writes_nothing Demo.env (Demo.world [])).
  right. left. reflexivity.
Defined.

(** X8: when the versions differ and the resource list has no usable
    entry for [config.proto] or for [lqc.lqbin] (none listed, or the last
    one listed is empty), the run prints that they were not found and
    exits with status 1.  [version.json] has been rewritten by then;
    nothing else is written and nothing is downloaded. *)
Theorem missing_resource_exits_1 (E : Env) (w : World)
    (live_version local_version v rv res : pyval) (c : content)
    (items : list (string * pyval)) :
  http_json E (URL +:+ "/version.json") = Some live_version →
  fs w !! "version.json" = Some c →
  json_of E c = Ok local_version →
  py_eq E local_version live_version = false →
  json_ok live_version = true →
  getitem live_version "version" = Ok v →
  http_json E (URL +:+ "/resversion" +:+ py_format E v +:+ ".json") = Some rv →
  getitem rv "res" = Ok res →
  dict_items res = Ok items →
  truthy (last_info (config_entries items))
  && truthy (last_info (lqc_entries items)) = false →
  main E w
  = (Exit 1,
     {| fs := <["version.json" := Dumped live_version]> (fs w);
        trace := trace w
          ++ [EGet (URL +:+ "/version.json"); ERead "version.json";
              EPrint ("New Live version: " +:+ py_format E live_version);
              EOpenW "version.json";
              EWrite "version.json" (Dumped live_version);
              EGet (URL +:+ "/resversion" +:+ py_format E v +:+ ".json");
              EPrint "config.proto or lqc.lqbin not found"] |}).
Proof.
  intros Hlive Hc Hlocal Hne Hok Hv Hrv Hres Hitems Hfalsy. unfold main.
  erewrite bind_Return;
    [|by apply (check_version_new E w live_version c local_version)].
  unfold after_check. erewrite bind_Exit;
    [|by apply (download_exit E live_version v rv res items)].
  cbn [fs trace]. by rewrite <- app_assoc.
Qed.

Lemma missing_resource_exits_1_witness :
  main (set_http_json serve_without_lqc Demo.env)
       (Demo.world [("version.json",
                     Dumped (VDict [("version", VStr "0.11.1.w")]))])
  = (Exit 1,
     {| fs := <["version.json" := Dumped Demo.live]>
                (fs (Demo.world [("version.json",
                        Dumped (VDict [("version", VStr "0.11.1.w")]))]));
        trace := []
          ++ [EGet (URL +:+ "/version.json"); ERead "version.json";
              EPrint ("New Live version: " +:+ Demo.format Demo.live);
              EOpenW "version.json";
              EWrite "version.json" (Dumped Demo.live);
              EGet (URL +:+ "/resversion" +:+ Demo.format (VStr "0.11.2.w")
                    +:+ ".json");
              EPrint "config.proto or lqc.lqbin not found"] |}).
Proof.
  apply (missing_resource_exits_1 (set_http_json serve_without_lqc Demo.env)
           (Demo.world [("version.json",
                         Dumped (VDict [("version", VStr "0.11.1.w")]))])
           Demo.live (VDict [("version", VStr "0.11.1.w")])
           (VStr "0.11.2.w")
           (VDict [("res",
              VDict [("res/proto/config.proto",
                      VDict [("prefix", VStr "v0.11.0.w")])])])
           (VDict [("res/proto/config.proto",
                    VDict [("prefix", VStr "v0.11.0.w")])])
           (Dumped (VDict [("version", VStr "0.11.1.w")]))
           [("res/proto/config.proto", VDict [("prefix", VStr "v0.11.0.w")])]);
    reflexivity.
Defined.

(** *** A schema the compiler rejects (lines 88-95) *)

Lemma read_text_run (E : Env) path w :
  read_text E path w
  = match fs w !! path with
    | Some c =>
        (Return (text_of E c),
         {| fs := fs w; trace := trace w ++ [ERead path] |})
    | None =>
        (Raise FileNotFoundError,
         {| fs := fs w; trace := trace w ++ [ERead path] |})
    end.
Proof.
  unfold read_text. rewrite emit_bind, bind_unfold. unfold get_file.
  cbn [fs]. by destruct (fs w !! path).
Qed.

Lemma exec_file_run (E : Env) path G w :
  exec_file E path G w
  = (match fs w !! path with
     | Some c =>
         match exec_module E (text_of E c) G with
         | Some G' => Return G'
         | None => Raise ExecError
         end
     | None => Raise FileNotFoundError
     end,
     {| fs := fs w; trace := trace w ++ [ERead path] |}).
Proof.
  unfold exec_file. rewrite bind_unfold, read_text_run.
  destruct (fs w !! path) as [c|]; [|done].
  by destruct (exec_module E (text_of E c) G).
Qed.

(** X9: the exit status of the compiler is not looked at.  When it
    rejects [parsed.proto] it writes nothing, and the run goes on to
    load whatever [parsed_pb2.py] is there: the module of an earlier run
    is executed as if it were the new one, and only when there is no such
    file does the run stop, with [FileNotFoundError]. *)
Theorem rejected_schema_loads_stale_module (E : Env)
    (G : gmap string pyobj) (w : World) (schema_file : content) :
  protoc_installed E = true →
  fs w !! "parsed.proto" = Some schema_file →
  protoc E (text_of E schema_file) = None →
  load_parsed E G w
  = (match fs w !! "parsed_pb2.py" with
     | Some stale =>
         match exec_module E (text_of E stale) G with
         | Some G' => Return G'
         | None => Raise ExecError
         end
     | None => Raise FileNotFoundError
     end,
     {| fs := fs w;
        trace := trace w
          ++ [EPrint "Generate parsed_pb2.py...";
              ERun ["protoc"; "--python_out=."; "parsed.proto"];
              EPrint "Load parsed_pb2.py..."; ERead "parsed_pb2.py"] |}).
Proof.
  intros Hinst Hfile Hrej. unfold load_parsed.
  rewrite print_bind. unfold run_protoc.
  rewrite bind_assoc, emit_bind, Hinst. cbn [negb fs trace].
  rewrite bind_unfold. cbn [fs]. rewrite Hfile, Hrej.
  rewrite print_bind, exec_file_run. cbn [fs trace].
  by rewrite <- !app_assoc.
Qed.

Lemma rejected_schema_loads_stale_module_witness :
  load_parsed (set_protoc (λ _, None) Demo.env) ∅
    (Demo.world [("parsed.proto", Text "message {");
                 ("parsed_pb2.py", Text "old module")])
  = (match fs (Demo.world [("parsed.proto", Text "message {");
                           ("parsed_pb2.py", Text "old module")])
           !! "parsed_pb2.py" with
     | Some stale =>
         match exec_module (set_protoc (λ _, None) Demo.env)
                 (text_of (set_protoc (λ _, None) Demo.env) stale) ∅ with
         | Some G' => Return G'
         | None => Raise ExecError
         end
     | None => Raise FileNotFoundError
     end,
     {| fs := fs (Demo.world [("parsed.proto", Text "message {");
                              ("parsed_pb2.py", Text "old module")]);
        trace := []
          ++ [EPrint "Generate parsed_pb2.py...";
              ERun ["protoc"; "--python_out=."; "parsed.proto"];
              EPrint "Load parsed_pb2.py..."; ERead "parsed_pb2.py"] |}).
Proof.
  apply (rejected_schema_loads_stale_module (set_protoc (λ _, None) Demo.env)
           ∅ (Demo.world [("parsed.proto", Text "message {");
                          ("parsed_pb2.py", Text "old module")])
           (Text "message {"));
    reflexivity.
Defined.

(** *** Blocks at the edges (lines 101-128) *)

(** X10: a block without rows gets a file holding the empty list,
    whatever its key names in the globals, a message class or not: the
    class is only called once there is a row. *)
Theorem empty_block_writes_empty_list (E : Env) (G : gmap string pyobj)
    (data : SheetData) (klass : pyobj) (w : World) :
  G !! class_name (table data) (sheet data) = Some klass →
  Schema.data data = [] →
  export_one E G data w
  = (Return tt,
     {| fs := <[data_path (class_name (table data) (sheet data))
                := Dumped (VList [])]> (fs w);
        trace := trace w
          ++ [EOpenW (data_path (class_name (table data) (sheet data)));
              EWrite (data_path (class_name (table data) (sheet data)))
                     (Dumped (VList []))] |}).
Proof.
  intros HG Hempty.
  apply (export_one_ok E G data [] w); [|done].
  unfold block_rows. by rewrite HG, Hempty.
Qed.

Lemma empty_block_writes_empty_list_witness :
  export_one Demo.env main_globals
    {| table := "path"; sheet := ""; data := [] |} (Demo.world [])
  = (Return tt,
     {| fs := <[data_path (class_name "path" "") := Dumped (VList [])]> ∅;
        trace := []
          ++ [EOpenW (data_path (class_name "path" ""));
              EWrite (data_path (class_name "path" "")) (Dumped (VList []))]
     |}).
Proof.
  apply (empty_block_writes_empty_list Demo.env main_globals
           {| table := "path"; sheet := ""; data := [] |} PathClass
           (Demo.world []));
    reflexivity.
Defined.

Lemma for_each_app {A} (l1 l2 : list A) (body : A → M unit) w w1 :
  for_each l1 body w = (Return tt, w1) →
  for_each (l1 ++ l2) body w = for_each l2 body w1.
Proof.
  revert w. induction l1 as [|x l1 IH]; intros w H.
  - by injection H as ->.
  - rewrite <- app_comm_cons, for_each_cons, bind_unfold.
    rewrite for_each_cons, bind_unfold in H.
    destruct (body x w) as [[[]|code|e] wx]; [|done..].
    by apply IH.
Qed.

(** *** Records [json.dump] refuses (line 128) *)

Lemma export_one_undumpable (E : Env) G data rows w :
  block_rows E G data = Ok rows →
  json_ok (VList (VDict <$> rows)) = false →
  export_one E G data w
  = (Raise TypeError,
     {| fs := <[data_path (class_name (table data) (sheet data))
                := Truncated (VList (VDict <$> rows))]> (fs w);
        trace := trace w
          ++ [EOpenW (data_path (class_name (table data) (sheet data)));
              EWrite (data_path (class_name (table data) (sheet data)))
                     (Truncated (VList (VDict <$> rows)))] |}).
Proof.
  unfold block_rows, export_one. intros Hrows Hbad.
  destruct (G !! class_name (table data) (sheet data)) as [klass|]; [|done].
  cbn [or_raise]. rewrite ret_bind, open_w_bind. cbn [hasattr_data negb].
  rewrite Hrows, lift_Ok, ret_bind. unfold json_dump. rewrite Hbad.
  erewrite bind_Return; [|apply file_write_run].
  unfold raise. cbn [fs trace]. by rewrite insert_insert_eq, <- app_assoc.
Qed.

Lemma forallb_false_elem {A} (f : A → bool) (l : list A) x :
  x ∈ l → f x = false → forallb f l = false.
Proof.
  intros Hin Hx. induction Hin as [x l|x y l Hin IH]; simpl.
  - by rewrite Hx.
  - rewrite IH by done. apply andb_false_r.
Qed.

Lemma export_one_fails (E : Env) G data e w :
  block_failure E G data = Some e →
  export_one E G data w = (Raise e, after_failed_block E G data w).
Proof.
  unfold block_failure, after_failed_block. intros Hfail.
  destruct (block_rows E G data) as [rows|e'] eqn:Hrows.
  - destruct (json_ok (VList (VDict <$> rows))) eqn:Hok; [done|].
    injection Hfail as <-.
    rewrite (export_one_undumpable E G data rows w Hrows Hok).
    unfold block_rows in Hrows.
    by destruct (G !! class_name (table data) (sheet data)).
  - injection Hfail as <-. unfold block_rows in Hrows.
    destruct (G !! class_name (table data) (sheet data)) as [klass|] eqn:HG.
    + by apply (export_one_raise E G data klass).
    + injection Hrows as <-. unfold export_one. by rewrite HG.
Qed.

(** X11: the blocks are exported one after the other and the first one
    that fails ends the export with its exception, be it the exception
    of a row or of line 104, or the [TypeError] of [json.dump].  The
    files of the blocks before it stay as they were written, each holding
    the records of the last earlier block of its key; the file of the
    failing block is left empty when a row raised, cut short when
    [json.dump] raised, untouched when the block failed for want of its
    class; the blocks after it are not looked at. *)
Theorem failed_block_keeps_earlier_files (E : Env) (G : gmap string pyobj)
    (pre rest : list SheetData) (data : SheetData) (e : exn) (w : World) :
  Forall (exportable E G) pre →
  block_failure E G data = Some e →
  ∃ w1,
    for_each pre (export_one E G) w = (Return tt, w1)
    ∧ for_each (pre ++ data :: rest) (export_one E G) w
      = (Raise e, after_failed_block E G data w1)
    ∧ ∀ key,
        fs w1 !! data_path key
        = match last_block key pre with
          | Some earlier => block_file E G earlier
          | None => fs w !! data_path key
          end.
Proof.
  intros Hpre Hfail.
  destruct (for_each_export E G pre w Hpre) as (w1 & Hrun & Hfs).
  exists w1. split; [done|]. split; [|done].
  rewrite (for_each_app pre (data :: rest) _ w w1 Hrun).
  rewrite for_each_cons. apply bind_Raise. by apply export_one_fails.
Qed.

Lemma failed_block_keeps_earlier_files_witness :
  ∃ w1,
    for_each [Demo.item_block [Demo.row_9]]
      (export_one Demo.env (<["Blob" := MsgClass Blob]> Demo.classes))
      (Demo.world [])
    = (Return tt, w1)
    ∧ for_each ([Demo.item_block [Demo.row_9]]
                ++ {| table := "blob"; sheet := ""; data := [""] |}
                   :: [Demo.item_block [Demo.row_7ab]])
        (export_one Demo.env (<["Blob" := MsgClass Blob]> Demo.classes))
        (Demo.world [])
      = (Raise TypeError,
         after_failed_block Demo.env (<["Blob" := MsgClass Blob]> Demo.classes)
           {| table := "blob"; sheet := ""; data := [""] |} w1)
    ∧ ∀ key,
        fs w1 !! data_path key
        = match last_block key [Demo.item_block [Demo.row_9]] with
          | Some earlier =>
              block_file Demo.env (<["Blob" := MsgClass Blob]> Demo.classes)
                earlier
          | None => fs (Demo.world []) !! data_path key
          end.
Proof.
  apply (failed_block_keeps_earlier_files Demo.env
           (<["Blob" := MsgClass Blob]> Demo.classes)
           [Demo.item_block [Demo.row_9]] [Demo.item_block [Demo.row_7ab]]
           {| table := "blob"; sheet := ""; data := [""] |} TypeError
           (Demo.world [])).
  - repeat constructor. eexists.
    split; [vm_compute; reflexivity | reflexivity].
  - vm_compute. reflexivity.
Defined.

(** X12: a table whose records hold a [bytes] value cannot be exported.
    When every row of the block decodes and the record of one row has a
    [bytes] value in a declared field, as it has for every singular
    [bytes] field the row does not carry, [json.dump] raises [TypeError]:
    the export ends there and the file of the table is left cut short. *)
Theorem bytes_value_stops_export (E : Env) (G : gmap string pyobj)
    (data : SheetData) (klass : MessageClass) (rows : list Row)
    (i : nat) (field_msg : string) (elems : gmap string (list pyval))
    (fd : FieldDescriptor) (b : string) (w : World) :
  G !! class_name (table data) (sheet data) = Some (MsgClass klass) →
  NoDup (field_names klass) →
  block_rows E G data = Ok rows →
  Schema.data data !! i = Some field_msg →
  ParseFromString E klass field_msg = Some elems →
  fd ∈ DESCRIPTOR_fields klass →
  field_value {| msg_class := klass; msg_elems := elems |} fd = VBytes b →
  export_one E G data w
  = (Raise TypeError,
     {| fs := <[data_path (class_name (table data) (sheet data))
                := Truncated (VList (VDict <$> rows))]> (fs w);
        trace := trace w
          ++ [EOpenW (data_path (class_name (table data) (sheet data)));
              EWrite (data_path (class_name (table data) (sheet data)))
                     (Truncated (VList (VDict <$> rows)))] |}).
Proof.
  intros HG Hnd Hrows Hi Hp Hfd Hval.
  apply export_one_undumpable; [done|].
  pose proof Hrows as Hloop. unfold block_rows in Hloop. rewrite HG in Hloop.
  destruct (rows_loop_ok E _ _ _ _ _ Hloop) as (new & -> & Hall).
  rewrite app_nil_l.
  destruct (Forall2_lookup_l _ _ _ i field_msg Hall Hi) as (row & Hrow & Hdec).
  apply (decode_row_inv E G klass field_msg elems row Hnd Hp) in Hdec.
  subst row.
  set (field := {| msg_class := klass; msg_elems := elems |}) in *.
  cbn [json_ok].
  apply (forallb_false_elem _ _ (VDict (row_of field))).
  { apply list_elem_of_fmap. exists (row_of field). split; [done|].
    by apply list_elem_of_lookup_2 with i. }
  cbn [json_ok].
  apply (forallb_false_elem _ _ (cell field fd)).
  { unfold row_of. apply list_elem_of_fmap. by exists fd. }
  unfold cell, cell_value. cbn [snd].
  destruct (fd_label fd) eqn:El; try by rewrite Hval.
  unfold field_value in Hval. by rewrite El in Hval.
Qed.

Lemma bytes_value_stops_export_witness :
  export_one Demo.env (<["Blob" := MsgClass Blob]> main_globals)
    {| table := "blob"; sheet := ""; data := [""] |} (Demo.world [])
  = (Raise TypeError,
     {| fs := <[data_path (class_name "blob" "")
                := Truncated (VList (VDict <$> [[("raw", VBytes "")]]))]> ∅;
        trace := []
          ++ [EOpenW (data_path (class_name "blob" ""));
              EWrite (data_path (class_name "blob" ""))
                     (Truncated (VList (VDict <$> [[("raw", VBytes "")]])))]
     |}).
Proof.
  apply (bytes_value_stops_export Demo.env
           (<["Blob" := MsgClass Blob]> main_globals)
           {| table := "blob"; sheet := ""; data := [""] |} Blob
           [[("raw", VBytes "")]] 0 "" ∅
           {| fd_name := "raw"; fd_number := 1; fd_type := TYPE_BYTES;
              fd_label := LABEL_OPTIONAL |} "" (Demo.world [])).
  - reflexivity.
  - apply (bool_decide_unpack _). vm_compute. exact I.
  - vm_compute. reflexivity.
  - reflexivity.
  - reflexivity.
  - apply list_elem_of_here.
  - reflexivity.
Defined.

(** *** The two downloads (lines 23-52) *)

Lemma download_ok (E : Env) (w : World)
    (live_version v rv res p1 p2 : pyval) (items : list (string * pyval))
    (b1 b2 : string) :
  getitem live_version "version" = Ok v →
  http_json E (URL +:+ "/resversion" +:+ py_format E v +:+ ".json") = Some rv →
  getitem rv "res" = Ok res →
  dict_items res = Ok items →
  truthy (last_info (config_entries items)) = true →
  truthy (last_info (lqc_entries items)) = true →
  getitem (last_info (config_entries items)) "prefix" = Ok p1 →
  getitem (last_info (lqc_entries items)) "prefix" = Ok p2 →
  http_content E (URL +:+ "/" +:+ py_format E p1 +:+ "/res/proto/config.proto")
  = Some b1 →
  http_content E (URL +:+ "/" +:+ py_format E p2 +:+ "/res/config/lqc.lqbin")
  = Some b2 →
  download E live_version w
  = (Return tt,
     {| fs := <["lqc.lqbin" := Text b2]> (<["config.proto" := Text b1]> (fs w));
        trace := trace w
          ++ [EGet (URL +:+ "/resversion" +:+ py_format E v +:+ ".json");
              EPrint "Download config.proto...";
              EGet (URL +:+ "/" +:+ py_format E p1
                    +:+ "/res/proto/config.proto");
              EOpenW "config.proto"; EWrite "config.proto" (Text b1);
              EPrint "Download lqc.lqbin...";
              EGet (URL +:+ "/" +:+ py_format E p2
                    +:+ "/res/config/lqc.lqbin");
              EOpenW "lqc.lqbin"; EWrite "lqc.lqbin" (Text b2)] |}).
Proof.
  intros Hv Hrv Hres Hitems Htc Htl Hp1 Hp2 Hb1 Hb2. unfold download.
  rewrite Hv, lift_Ok, ret_bind. cbv zeta.
  erewrite bind_Return; [|by apply get_json_served].
  rewrite Hres, lift_Ok, ret_bind, Hitems, lift_Ok, ret_bind.
  rewrite scan_res_fold. fold (last_info (config_entries items)).
  fold (last_info (lqc_entries items)).
  rewrite Htc, Htl. cbn [negb orb]. rewrite ret_bind.
  rewrite Hp1, lift_Ok, ret_bind, Hp2, lift_Ok, ret_bind.
  rewrite print_bind. unfold get_content.
  rewrite bind_assoc, emit_bind, Hb1. cbn [or_raise]. rewrite ret_bind.
  rewrite open_w_bind.
  erewrite bind_Return; [|apply file_write_run].
  rewrite print_bind, bind_assoc, emit_bind, Hb2. cbn [or_raise].
  rewrite ret_bind, open_w_bind, file_write_run. cbn [fs trace].
  by rewrite !insert_insert_eq, <- !app_assoc.
Qed.

(** X13: each of the two resources is requested once, [config.proto]
    first, from the fixed path [res/proto/config.proto] (respectively
    [res/config/lqc.lqbin]) under the prefix of the last entry listed for
    it, whatever path that entry was listed under; what comes back is
    written to [config.proto] and [lqc.lqbin], and no other file is
    written. *)
Theorem resources_fetched_by_prefix (E : Env) (w : World)
    (live_version v rv res p1 p2 : pyval) (items : list (string * pyval))
    (b1 b2 : string) :
  getitem live_version "version" = Ok v →
  http_json E (URL +:+ "/resversion" +:+ py_format E v +:+ ".json") = Some rv →
  getitem rv "res" = Ok res →
  dict_items res = Ok items →
  truthy (last_info (config_entries items)) = true →
  truthy (last_info (lqc_entries items)) = true →
  getitem (last_info (config_entries items)) "prefix" = Ok p1 →
  getitem (last_info (lqc_entries items)) "prefix" = Ok p2 →
  http_content E (URL +:+ "/" +:+ py_format E p1 +:+ "/res/proto/config.proto")
  = Some b1 →
  http_content E (URL +:+ "/" +:+ py_format E p2 +:+ "/res/config/lqc.lqbin")
  = Some b2 →
  download E live_version w
  = (Return tt,
     {| fs := <["lqc.lqbin" := Text b2]> (<["config.proto" := Text b1]> (fs w));
        trace := trace w
          ++ [EGet (URL +:+ "/resversion" +:+ py_format E v +:+ ".json");
              EPrint "Download config.proto...";
              EGet (URL +:+ "/" +:+ py_format E p1
                    +:+ "/res/proto/config.proto");
              EOpenW "config.proto"; EWrite "config.proto" (Text b1);
              EPrint "Download lqc.lqbin...";
              EGet (URL +:+ "/" +:+ py_format E p2
                    +:+ "/res/config/lqc.lqbin");
              EOpenW "lqc.lqbin"; EWrite "lqc.lqbin" (Text b2)] |}).
Proof. apply download_ok. Qed.

Lemma resources_fetched_by_prefix_witness :
  download Demo.env Demo.live (Demo.world [])
  = (Return tt,
     {| fs := <["lqc.lqbin" := Text "bundle"]>
                (<["config.proto" := Text "config"]> ∅);
        trace := []
          ++ [EGet (URL +:+ "/resversion" +:+ Demo.format (VStr "0.11.2.w")
                    +:+ ".json");
              EPrint "Download config.proto...";
              EGet (URL +:+ "/" +:+ Demo.format (VStr "v0.11.0.w")
                    +:+ "/res/proto/config.proto");
              EOpenW "config.proto"; EWrite "config.proto" (Text "config");
              EPrint "Download lqc.lqbin...";
              EGet (URL +:+ "/" +:+ Demo.format (VStr "v0.11.2.w")
                    +:+ "/res/config/lqc.lqbin");
              EOpenW "lqc.lqbin"; EWrite "lqc.lqbin" (Text "bundle")] |}).
Proof.
  apply (resources_fetched_by_prefix Demo.env (Demo.world []) Demo.live
           (VStr "0.11.2.w") Demo.resversion
           (VDict [("res/proto/config.proto",
                    VDict [("prefix", VStr "v0.11.0.w")]);
                   ("res/config/lqc.lqbin",
                    VDict [("prefix", VStr "v0.11.2.w")])])
           (VStr "v0.11.0.w") (VStr "v0.11.2.w")
           [("res/proto/config.proto", VDict [("prefix", VStr "v0.11.0.w")]);
            ("res/config/lqc.lqbin", VDict [("prefix", VStr "v0.11.2.w")])]
           "config" "bundle");
    reflexivity.
Defined.

(** *** One run after the other *)

(** X14: once a run has seen a new version, the next run that fetches
    the same version finds nothing to do: it prints [No update], exits
    with status 0 and writes nothing, however the first run ended, also
    when it failed before the export.  What the first run did not
    finish is not taken up again. *)
Theorem second_run_finds_no_update (E : Env) (w w' : World)
    (r : outcome unit) (live_version local_version : pyval) (c : content) :
  http_json E (URL +:+ "/version.json") = Some live_version →
  fs w !! "version.json" = Some c →
  json_of E c = Ok local_version →
  py_eq E local_version live_version = false →
  json_ok live_version = true →
  py_eq E live_version live_version = true →
  main E w = (r, w') →
  main E w'
  = (Exit 0,
     {| fs := fs w';
        trace := trace w' ++ [EGet (URL +:+ "/version.json");
                              ERead "version.json"; EPrint "No update"] |}).
Proof.
  intros Hlive Hc Hlocal Hne Hok Hrefl Hmain.
  assert (fs w' !! "version.json" = Some (Dumped live_version)) as Hfile.
  { unfold main in Hmain.
    erewrite bind_Return in Hmain;
      [|by apply (check_version_new E w live_version c local_version)].
    destruct (keeps_after_check E live_version _ _ _ Hmain) as [Hkept _].
    cbn [fs] in Hkept. by rewrite Hkept, lookup_insert_eq. }
  unfold main. apply bind_Exit.
  by apply (check_version_same E w' live_version (Dumped live_version)
              live_version).
Qed.

Lemma second_run_finds_no_update_witness :
  main (set_http_json serve_without_lqc Demo.env)
    (main (set_http_json serve_without_lqc Demo.env)
       (Demo.world [("version.json",
                     Dumped (VDict [("version", VStr "0.11.1.w")]))])).2
  = (Exit 0,
     {| fs := fs (main (set_http_json serve_without_lqc Demo.env)
                    (Demo.world [("version.json",
                       Dumped (VDict [("version", VStr "0.11.1.w")]))])).2;
        trace := trace (main (set_http_json serve_without_lqc Demo.env)
                          (Demo.world [("version.json",
                             Dumped (VDict [("version", VStr "0.11.1.w")]))])).2
                 ++ [EGet (URL +:+ "/version.json");
                     ERead "version.json"; EPrint "No update"] |}).
Proof.
  apply (second_run_finds_no_update
           (set_http_json serve_without_lqc Demo.env)
           (Demo.world [("version.json",
                         Dumped (VDict [("version", VStr "0.11.1.w")]))])
           _ (Exit 1) Demo.live (VDict [("version", VStr "0.11.1.w")])
           (Dumped (VDict [("version", VStr "0.11.1.w")])));
    reflexivity.
Defined.

(** *** A run that goes through *)

Section GoesThrough.
Context (E : Env).

Lemma load_tables_ok G G1 w cfg lqc code parse tables_class config_table :
  protoc_installed E = true →
  fs w !! "config.proto" = Some cfg →
  protoc E (text_of E cfg) = Some code →
  exec_module E code G = Some G1 →
  G1 !! "ConfigTables" = Some (TablesClass parse tables_class) →
  fs w !! "lqc.lqbin" = Some lqc →
  parse (text_of E lqc) = Some config_table →
  load_tables E G w
  = (Return (G1, config_table),
     {| fs := <["config_pb2.py" := Text code]> (fs w);
        trace := trace w
          ++ [ERun ["protoc"; "--python_out=."; "config.proto"];
              EPrint "Load config_pb2.py..."; ERead "config_pb2.py";
              EPrint "Load tables from lqc.lqbin..."; ERead "lqc.lqbin"] |}).
Proof.
  intros Hinst Hcfg Hcode Hexec HG1 Hlqc Hparse. unfold load_tables.
  unfold run_protoc. rewrite bind_assoc, emit_bind, Hinst.
  cbn [negb fs trace]. rewrite bind_unfold. cbn [fs]. rewrite Hcfg, Hcode.
  unfold set_file at 1. cbn [fs trace].
  rewrite print_bind. rewrite bind_unfold, exec_file_run. cbn [fs trace].
  rewrite lookup_insert_eq. cbn [text_of]. rewrite Hexec.
  rewrite print_bind. unfold new_ConfigTables. rewrite HG1, ret_bind.
  rewrite bind_unfold, read_text_run. cbn [fs trace].
  rewrite lookup_insert_ne by done. rewrite Hlqc, Hparse.
  cbn [or_raise]. rewrite ret_bind. unfold mret, M_ret.
  by rewrite <- !app_assoc.
Qed.

Lemma load_parsed_ok G G2 w schema_file code :
  protoc_installed E = true →
  fs w !! "parsed.proto" = Some schema_file →
  protoc E (text_of E schema_file) = Some code →
  exec_module E code G = Some G2 →
  load_parsed E G w
  = (Return G2,
     {| fs := <["parsed_pb2.py" := Text code]> (fs w);
        trace := trace w
          ++ [EPrint "Generate parsed_pb2.py...";
              ERun ["protoc"; "--python_out=."; "parsed.proto"];
              EPrint "Load parsed_pb2.py..."; ERead "parsed_pb2.py"] |}).
Proof.
  intros Hinst Hfile Hcode Hexec. unfold load_parsed.
  rewrite print_bind. unfold run_protoc.
  rewrite bind_assoc, emit_bind, Hinst. cbn [negb fs trace].
  rewrite bind_unfold. cbn [fs]. rewrite Hfile, Hcode.
  unfold set_file at 1. cbn [fs trace].
  rewrite print_bind, exec_file_run. cbn [fs trace].
  rewrite lookup_insert_eq. cbn [text_of]. rewrite Hexec.
  by rewrite <- !app_assoc.
Qed.

Lemma mkdir_run path w :
  fs w !! path = None →
  mkdir path w
  = (Return tt, {| fs := fs w; trace := trace w ++ [EMkdir path] |}).
Proof.
  intros H. unfold mkdir, stat. rewrite emit_bind, bind_unfold. cbn [fs].
  by rewrite H.
Qed.

Lemma export_ok G config_table w :
  G !! "Path" = Some PathClass →
  fs w !! "data" = None →
  Forall (exportable E G) (datas config_table) →
  ∃ w' log,
    export E G config_table w = (Return tt, w')
    ∧ trace w' = trace w ++ log ++ [EPrint "Export complete"]
    ∧ ∀ key,
        fs w' !! data_path key
        = match last_block key (datas config_table) with
          | Some data => block_file E G data
          | None => fs w !! data_path key
          end.
Proof.
  intros HPath Hdir Hall. unfold export, new_Path. rewrite HPath, ret_bind.
  erewrite bind_Return; [|by apply mkdir_run].
  rewrite print_bind. cbn [fs trace].
  set (w0 := {| fs := fs w;
                trace := (trace w ++ [EMkdir "data"])
                         ++ [EPrint "Export data to json..."] |}).
  destruct (for_each_export E G (datas config_table) w0 Hall)
    as (w1 & Hrun & Hfs).
  destruct (keeps_for_each _ _ (keeps_export_one E G) _ _ _ Hrun)
    as [_ [tl Htl]].
  exists {| fs := fs w1; trace := trace w1 ++ [EPrint "Export complete"] |},
         ([EMkdir "data"; EPrint "Export data to json..."] ++ tl).
  split.
  - erewrite bind_Return; [|exact Hrun]. reflexivity.
  - split; [|exact Hfs]. cbn [trace]. rewrite Htl. subst w0. cbn [trace].
    by rewrite <- !app_assoc.
Qed.

End GoesThrough.

Lemma named_file_not_data (q : string) key : q ∈ named_files → q ≠ data_path key.
Proof.
  unfold named_files, data_path. rewrite str_app_cons.
  intros Hq. repeat (apply elem_of_cons in Hq as [->|Hq]; [discriminate|]).
  by apply elem_of_nil in Hq.
Qed.

(** X15: when the versions differ and every step succeeds (the two
    documents and the two resources are served, the compiler accepts
    both schemas, the generated modules load, the bundle parses and every
    block is exportable) the run returns normally and ends with
    [Export complete].  Afterwards [version.json] holds the fetched
    version, [config.proto] and [lqc.lqbin] what was downloaded,
    [parsed.proto] the generated text, the two modules what the compiler
    made of the schemas, and the file of every key the records of the
    last block with that key; the file of a key without block is as it
    was.  Among what has to succeed: no regular file stands where the
    directory [data] goes (line 98), and the name [Path] stands for
    [pathlib.Path] after each of the two generated modules is loaded
    (lines 64, 82 and 92, then line 97).  A block with records is
    exportable only if [FieldDescriptor] still stands for the runtime's
    class (line 121). *)
Theorem run_goes_through (E : Env) (w : World)
    (live_version local_version v rv res p1 p2 : pyval) (c : content)
    (items : list (string * pyval)) (b1 b2 code1 code2 : string)
    (G1 G2 : gmap string pyobj) (parse : string → option ConfigTables)
    (tables_class : MessageClass) (config_table : ConfigTables) :
  http_json E (URL +:+ "/version.json") = Some live_version →
  fs w !! "version.json" = Some c →
  fs w !! "data" = None →
  json_of E c = Ok local_version →
  py_eq E local_version live_version = false →
  json_ok live_version = true →
  getitem live_version "version" = Ok v →
  http_json E (URL +:+ "/resversion" +:+ py_format E v +:+ ".json") = Some rv →
  getitem rv "res" = Ok res →
  dict_items res = Ok items →
  truthy (last_info (config_entries items)) = true →
  truthy (last_info (lqc_entries items)) = true →
  getitem (last_info (config_entries items)) "prefix" = Ok p1 →
  getitem (last_info (lqc_entries items)) "prefix" = Ok p2 →
  http_content E (URL +:+ "/" +:+ py_format E p1 +:+ "/res/proto/config.proto")
  = Some b1 →
  http_content E (URL +:+ "/" +:+ py_format E p2 +:+ "/res/config/lqc.lqbin")
  = Some b2 →
  protoc_installed E = true →
  protoc E b1 = Some code1 →
  exec_module E code1 main_globals = Some G1 →
  G1 !! "ConfigTables" = Some (TablesClass parse tables_class) →
  G1 !! "Path" = Some PathClass →
  parse b2 = Some config_table →
  protoc E (new_proto config_table) = Some code2 →
  exec_module E code2 G1 = Some G2 →
  G2 !! "Path" = Some PathClass →
  Forall (exportable E G2) (datas config_table) →
  ∃ w' log,
    main E w = (Return tt, w')
    ∧ trace w' = trace w ++ log ++ [EPrint "Export complete"]
    ∧ fs w' !! "version.json" = Some (Dumped live_version)
    ∧ fs w' !! "config.proto" = Some (Text b1)
    ∧ fs w' !! "lqc.lqbin" = Some (Text b2)
    ∧ fs w' !! "config_pb2.py" = Some (Text code1)
    ∧ fs w' !! "parsed.proto" = Some (Text (new_proto config_table))
    ∧ fs w' !! "parsed_pb2.py" = Some (Text code2)
    ∧ ∀ key,
        fs w' !! data_path key
        = match last_block key (datas config_table) with
          | Some data => block_file E G2 data
          | None => fs w !! data_path key
          end.
Proof.
  intros Hlive Hc Hdir Hlocal Hne Hok Hv Hrv Hres Hitems Htc Htl Hp1 Hp2
         Hb1 Hb2 Hinst Hcode1 Hexec1 HG1 HPath1 Hparse Hcode2 Hexec2 HPath2
         Hall.
  unfold main.
  erewrite bind_Return;
    [|by apply (check_version_new E w live_version c local_version)].
  unfold after_check.
  erewrite bind_Return;
    [|by apply (download_ok E _ live_version v rv res
                  p1 p2 items b1 b2)].
  erewrite bind_Return;
    [|apply (load_tables_ok E main_globals G1 _ (Text b1) (Text b2) code1
               parse tables_class config_table); cbn [fs text_of];
      first [done | by rewrite lookup_insert_ne, lookup_insert_eq
                  | by rewrite lookup_insert_eq]].
  cbv beta iota.
  erewrite bind_Return; [|apply write_parsed_proto_run].
  erewrite bind_Return;
    [|apply (load_parsed_ok E G1 G2 _ (Text (new_proto config_table)) code2);
      cbn [fs text_of]; first [done | by rewrite lookup_insert_eq]].
  cbn [fs trace].
  match goal with |- context [export E G2 config_table ?wx] =>
    set (w4 := wx);
    assert (fs w4 !! "data" = None) as Hdir4
      by (subst w4; cbn [fs]; by rewrite !lookup_insert_ne by done);
    destruct (export_ok E G2 config_table w4 HPath2 Hdir4 Hall)
      as (w' & log & Hrun & Hlog & Hfs);
    assert (∀ q, q ∈ named_files → fs w' !! q = fs w4 !! q) as Hkept
  end.
  { intros q Hq.
    apply (untouched_export E q G2 config_table) with (r := Return tt);
      [|done].
    apply Forall_forall. intros data _ Heq.
    by apply (named_file_not_data q (class_name (table data) (sheet data))). }
  assert (∃ pre, trace w4 = trace w ++ pre) as [pre Hpre].
  { subst w4. cbn [trace]. rewrite <- !app_assoc. by eexists. }
  exists w', (pre ++ log). split; [exact Hrun|]. split.
  { by rewrite Hlog, Hpre, <- !app_assoc. }
  repeat split.
  - rewrite Hkept by (apply (bool_decide_unpack _); vm_compute; exact I).
    subst w4. cbn [fs]. by rewrite !lookup_insert_ne, lookup_insert_eq by done.
  - rewrite Hkept by (apply (bool_decide_unpack _); vm_compute; exact I).
    subst w4. cbn [fs]. by rewrite !lookup_insert_ne, lookup_insert_eq by done.
  - rewrite Hkept by (apply (bool_decide_unpack _); vm_compute; exact I).
    subst w4. cbn [fs]. by rewrite !lookup_insert_ne, lookup_insert_eq by done.
  - rewrite Hkept by (apply (bool_decide_unpack _); vm_compute; exact I).
    subst w4. cbn [fs]. by rewrite !lookup_insert_ne, lookup_insert_eq by done.
  - rewrite Hkept by (apply (bool_decide_unpack _); vm_compute; exact I).
    subst w4. cbn [fs]. by rewrite !lookup_insert_ne, lookup_insert_eq by done.
  - rewrite Hkept by (apply (bool_decide_unpack _); vm_compute; exact I).
    subst w4. cbn [fs]. by rewrite lookup_insert_eq.
  - intros key. rewrite Hfs.
    destruct (last_block key (datas config_table)); [done|].
    subst w4. cbn [fs].
    rewrite !lookup_insert_ne; [done|..];
      apply named_file_not_data; apply (bool_decide_unpack _);
      vm_compute; exact I.
Qed.

Lemma run_goes_through_witness :
  let w := Demo.world [("version.json",
                        Dumped (VDict [("version", VStr "0.11.1.w")]))] in
  let G1 := <["ConfigTables" :=
                 TablesClass (λ _, Some Demo.tables) Demo.ConfigTables_class]>
              main_globals in
  ∃ w' log,
    main Demo.env w = (Return tt, w')
    ∧ trace w' = trace w ++ log ++ [EPrint "Export complete"]
    ∧ fs w' !! "version.json" = Some (Dumped Demo.live)
    ∧ fs w' !! "config.proto" = Some (Text "config")
    ∧ fs w' !! "lqc.lqbin" = Some (Text "bundle")
    ∧ fs w' !! "config_pb2.py" = Some (Text "config")
    ∧ fs w' !! "parsed.proto" = Some (Text (new_proto Demo.tables))
    ∧ fs w' !! "parsed_pb2.py" = Some (Text (new_proto Demo.tables))
    ∧ ∀ key,
        fs w' !! data_path key
        = match last_block key (datas Demo.tables) with
          | Some data => block_file Demo.env (Demo.classes ∪ G1) data
          | None => fs w !! data_path key
          end.
Proof.
  apply (run_goes_through Demo.env
           (Demo.world [("version.json",
                         Dumped (VDict [("version", VStr "0.11.1.w")]))])
           Demo.live (VDict [("version", VStr "0.11.1.w")])
           (VStr "0.11.2.w") Demo.resversion
           (VDict [("res/proto/config.proto",
                    VDict [("prefix", VStr "v0.11.0.w")]);
                   ("res/config/lqc.lqbin",
                    VDict [("prefix", VStr "v0.11.2.w")])])
           (VStr "v0.11.0.w") (VStr "v0.11.2.w")
           (Dumped (VDict [("version", VStr "0.11.1.w")]))
           [("res/proto/config.proto", VDict [("prefix", VStr "v0.11.0.w")]);
            ("res/config/lqc.lqbin", VDict [("prefix", VStr "v0.11.2.w")])]
           "config" "bundle" "config" (new_proto Demo.tables)
           (<["ConfigTables" :=
                TablesClass (λ _, Some Demo.tables) Demo.ConfigTables_class]>
              main_globals)
           (Demo.classes
            ∪ <["ConfigTables" :=
                  TablesClass (λ _, Some Demo.tables) Demo.ConfigTables_class]>
                main_globals)
           (λ _, Some Demo.tables) Demo.ConfigTables_class Demo.tables);
    try reflexivity.
  repeat constructor. eexists.
  split; [vm_compute; reflexivity | reflexivity].
Defined.

(** *** The exit status *)

Lemma bind_inv {A B} (m : M A) (f : A → M B) w r w' :
  (m ≫= f) w = (r, w') →
  (∃ a w1, m w = (Return a, w1) ∧ f a w1 = (r, w'))
  ∨ (∃ code, m w = (Exit code, w') ∧ r = Exit code)
  ∨ (∃ e, m w = (Raise e, w') ∧ r = Raise e).
Proof.
  rewrite bind_unfold. destruct (m w) as [[a|code|e] w1].
  - intros H. left. by exists a, w1.
  - intros [= <- <-]. right. left. by exists code.
  - intros [= <- <-]. right. right. by exists e.
Qed.

Section NoExit.
Context (E : Env).

Lemma no_exit_ret {A} (a : A) : no_exit (mret a).
Proof. by intros w code w'. Qed.

Lemma no_exit_raise {A} e : no_exit (@raise A e).
Proof. by intros w code w'. Qed.

Lemma no_exit_lift {A} (r : result A) : no_exit (lift r).
Proof. destruct r; [apply no_exit_ret | apply no_exit_raise]. Qed.

Lemma no_exit_or_raise {A} e (o : option A) : no_exit (or_raise e o).
Proof. destruct o; [apply no_exit_ret | apply no_exit_raise]. Qed.

Lemma no_exit_emit e : no_exit (emit e).
Proof. by intros w code w'. Qed.

Lemma no_exit_set_file path c : no_exit (set_file path c).
Proof. by intros w code w'. Qed.

Lemma no_exit_get_file path : no_exit (get_file path).
Proof. intros w code w'. unfold get_file. by destruct (fs w !! path). Qed.

Lemma no_exit_bind {A B} (m : M A) (f : A → M B) :
  no_exit m → (∀ a, no_exit (f a)) → no_exit (m ≫= f).
Proof.
  intros Hm Hf w code w' H.
  apply bind_inv in H as [(a & w1 & _ & H)|[(c & H & _)|(e & _ & H)]].
  - by apply Hf in H.
  - by apply Hm in H.
  - done.
Qed.

Lemma no_exit_for_each {A} (l : list A) (body : A → M unit) :
  (∀ x, no_exit (body x)) → no_exit (for_each l body).
Proof.
  intros Hbody. induction l as [|x l IH]; simpl.
  - apply no_exit_ret.
  - apply no_exit_bind; [apply Hbody | by intros _].
Qed.

Lemma no_exit_open_w path : no_exit (open_w path).
Proof.
  apply no_exit_bind; [apply no_exit_emit|intros _; apply no_exit_set_file].
Qed.

Lemma no_exit_file_write path c : no_exit (file_write path c).
Proof.
  apply no_exit_bind; [apply no_exit_emit|intros _; apply no_exit_set_file].
Qed.

Lemma no_exit_json_dump v path : no_exit (json_dump v path).
Proof.
  unfold json_dump. destruct (json_ok v); [apply no_exit_file_write|].
  apply no_exit_bind; [apply no_exit_file_write|intros _; apply no_exit_raise].
Qed.

Lemma no_exit_read_text path : no_exit (read_text E path).
Proof.
  apply no_exit_bind; [apply no_exit_emit|intros _].
  apply no_exit_bind; [apply no_exit_get_file|intros c; apply no_exit_ret].
Qed.

Lemma no_exit_get_content url : no_exit (get_content E url).
Proof.
  apply no_exit_bind; [apply no_exit_emit|intros _; apply no_exit_or_raise].
Qed.

Lemma no_exit_run_protoc file out : no_exit (run_protoc E file out).
Proof.
  apply no_exit_bind; [apply no_exit_emit|intros _].
  destruct (negb (protoc_installed E)); [apply no_exit_raise|].
  intros w code w'. destruct (fs w !! file) as [c|]; [|done].
  by destruct (protoc E (text_of E c)).
Qed.

Lemma no_exit_exec_file path G : no_exit (exec_file E path G).
Proof.
  apply no_exit_bind; [apply no_exit_read_text|intros code].
  apply no_exit_or_raise.
Qed.

Lemma no_exit_load_tables G : no_exit (load_tables E G).
Proof.
  unfold load_tables.
  apply no_exit_bind; [apply no_exit_run_protoc|intros _].
  apply no_exit_bind; [apply no_exit_emit|intros _].
  apply no_exit_bind; [apply no_exit_exec_file|intros G'].
  apply no_exit_bind; [apply no_exit_emit|intros _].
  apply no_exit_bind.
  { unfold new_ConfigTables. destruct (G' !! "ConfigTables") as [[]|];
      first [apply no_exit_ret | apply no_exit_raise]. }
  intros parse.
  apply no_exit_bind; [apply no_exit_read_text|intros lqc].
  apply no_exit_bind; [apply no_exit_or_raise|intros ct; apply no_exit_ret].
Qed.

Lemma no_exit_write_parsed_proto config_table :
  no_exit (write_parsed_proto config_table).
Proof.
  unfold write_parsed_proto.
  apply no_exit_bind; [apply no_exit_emit|intros _].
  apply no_exit_bind; [apply no_exit_emit|intros _].
  apply no_exit_bind; [apply no_exit_open_w|intros _].
  apply no_exit_bind; [apply no_exit_file_write|intros _].
  apply no_exit_emit.
Qed.

Lemma no_exit_load_parsed G : no_exit (load_parsed E G).
Proof.
  unfold load_parsed.
  apply no_exit_bind; [apply no_exit_emit|intros _].
  apply no_exit_bind; [apply no_exit_run_protoc|intros _].
  apply no_exit_bind; [apply no_exit_emit|intros _].
  apply no_exit_exec_file.
Qed.

Lemma no_exit_export_one G data : no_exit (export_one E G data).
Proof.
  unfold export_one.
  apply no_exit_bind; [apply no_exit_or_raise|intros klass].
  apply no_exit_bind; [apply no_exit_open_w|intros _].
  destruct (negb (hasattr_data data)); [apply no_exit_ret|].
  apply no_exit_bind; [apply no_exit_lift|intros json_data].
  apply no_exit_json_dump.
Qed.

Lemma no_exit_export G config_table : no_exit (export E G config_table).
Proof.
  unfold export.
  apply no_exit_bind.
  { unfold new_Path. destruct (G !! "Path") as [[]|];
      first [apply no_exit_ret | apply no_exit_raise]. }
  intros _.
  apply no_exit_bind.
  { unfold mkdir. apply no_exit_bind; [apply no_exit_emit|intros _].
    apply no_exit_bind; [by intros w0 code0 w1|intros [c|]];
      first [apply no_exit_ret | apply no_exit_raise]. }
  intros _.
  apply no_exit_bind; [apply no_exit_emit|intros _].
  apply no_exit_bind; [|intros _; apply no_exit_emit].
  apply no_exit_for_each. intros data. apply no_exit_export_one.
Qed.

(** Lines 8-21, every way they can go. *)
Lemma check_version_run w :
  check_version E w
  = match http_json E (URL +:+ "/version.json") with
    | None =>
        (Raise RequestError,
         {| fs := fs w;
            trace := trace w ++ [EGet (URL +:+ "/version.json")] |})
    | Some live_version =>
        match json_of E <$> fs w !! "version.json" with
        | None =>
            (Raise FileNotFoundError,
             {| fs := fs w;
                trace := trace w ++ [EGet (URL +:+ "/version.json");
                                     ERead "version.json"] |})
        | Some (Err e) =>
            (Raise e,
             {| fs := fs w;
                trace := trace w ++ [EGet (URL +:+ "/version.json");
                                     ERead "version.json"] |})
        | Some (Ok local_version) =>
            if py_eq E local_version live_version then
              (Exit 0,
               {| fs := fs w;
                  trace := trace w ++ [EGet (URL +:+ "/version.json");
                                       ERead "version.json";
                                       EPrint "No update"] |})
            else
              (if json_ok live_version then Return live_version
               else Raise TypeError,
               {| fs := <["version.json" :=
                            if json_ok live_version then Dumped live_version
                            else Truncated live_version]> (fs w);
                  trace := trace w
                    ++ [EGet (URL +:+ "/version.json"); ERead "version.json";
                        EPrint ("New Live version: "
                                +:+ py_format E live_version);
                        EOpenW "version.json";
                        EWrite "version.json"
                          (if json_ok live_version then Dumped live_version
                           else Truncated live_version)] |})
        end
    end.
Proof.
  destruct (http_json E (URL +:+ "/version.json")) as [live|] eqn:Hlive.
  2:{ unfold check_version. apply bind_Raise.
      unfold get_json. rewrite emit_bind. by rewrite Hlive. }
  destruct (fs w !! "version.json") as [c|] eqn:Hc; cbn [fmap option_fmap option_map].
  2:{ unfold check_version.
      erewrite bind_Return; [|by apply get_json_served].
      erewrite bind_Raise; [|by apply json_load_missing].
      cbn [fs trace]. by rewrite <- app_assoc. }
  destruct (json_of E c) as [local|e] eqn:Hj.
  2:{ unfold check_version.
      erewrite bind_Return; [|by apply get_json_served].
      erewrite bind_Raise; [|by apply (json_load_bad E "version.json" c e)].
      cbn [fs trace]. by rewrite <- app_assoc. }
  destruct (py_eq E local live) eqn:Heq.
  { by apply (check_version_same E w live c local). }
  destruct (json_ok live) eqn:Hok.
  { by apply (check_version_new E w live c local). }
  unfold check_version.
  erewrite bind_Return; [|by apply get_json_served].
  erewrite bind_Return; [|by apply (json_load_ok E "version.json" c)].
  rewrite Heq. rewrite bind_assoc, print_bind, bind_assoc, open_w_bind.
  unfold json_dump. rewrite Hok. rewrite bind_assoc.
  erewrite bind_Return; [|apply file_write_run].
  rewrite raise_bind. cbn [fs trace].
  by rewrite insert_insert_eq, <- !app_assoc.
Qed.

(** Lines 23-39: the only way [download] ends by [exit]. *)
Lemma download_exit_inv live_version w code w' :
  download E live_version w = (Exit code, w') →
  ∃ v rv res items,
    getitem live_version "version" = Ok v
    ∧ http_json E (URL +:+ "/resversion" +:+ py_format E v +:+ ".json")
      = Some rv
    ∧ getitem rv "res" = Ok res
    ∧ dict_items res = Ok items
    ∧ truthy (last_info (config_entries items))
      && truthy (last_info (lqc_entries items)) = false
    ∧ code = 1
    ∧ w' = {| fs := fs w;
              trace := trace w
                ++ [EGet (URL +:+ "/resversion" +:+ py_format E v
                          +:+ ".json");
                    EPrint "config.proto or lqc.lqbin not found"] |}.
Proof.
  intros H.
  destruct (getitem live_version "version") as [v|e] eqn:Hv.
  2:{ unfold download in H. by rewrite Hv, lift_Err, raise_bind in H. }
  destruct (http_json E (URL +:+ "/resversion" +:+ py_format E v +:+ ".json"))
    as [rv|] eqn:Hrv.
  2:{ unfold download in H. rewrite Hv, lift_Ok, ret_bind in H.
      cbv zeta in H. unfold get_json in H.
      rewrite bind_assoc, emit_bind, Hrv in H. by cbn [or_raise] in H. }
  destruct (getitem rv "res") as [res|e] eqn:Hres.
  2:{ unfold download in H. rewrite Hv, lift_Ok, ret_bind in H.
      cbv zeta in H.
      erewrite bind_Return in H; [|by apply get_json_served].
      by rewrite Hres, lift_Err, raise_bind in H. }
  destruct (dict_items res) as [items|e] eqn:Hitems.
  2:{ unfold download in H. rewrite Hv, lift_Ok, ret_bind in H.
      cbv zeta in H.
      erewrite bind_Return in H; [|by apply get_json_served].
      rewrite Hres, lift_Ok, ret_bind in H.
      by rewrite Hitems, lift_Err, raise_bind in H. }
  destruct (truthy (last_info (config_entries items))
            && truthy (last_info (lqc_entries items))) eqn:Ht.
  2:{ rewrite (download_exit E live_version v rv res items w
                 Hv Hrv Hres Hitems Ht) in H.
      injection H as <- <-. by exists v, rv, res, items. }
  exfalso. unfold download in H. rewrite Hv, lift_Ok, ret_bind in H.
  cbv zeta in H.
  erewrite bind_Return in H; [|by apply get_json_served].
  rewrite Hres, lift_Ok, ret_bind, Hitems, lift_Ok, ret_bind in H.
  rewrite scan_res_fold in H. fold (last_info (config_entries items)) in H.
  fold (last_info (lqc_entries items)) in H.
  apply andb_true_iff in Ht as [Htc Htl]. rewrite Htc, Htl in H.
  cbn [negb orb] in H. rewrite ret_bind in H. revert H.
  apply no_exit_bind; [apply no_exit_lift|intros p1].
  apply no_exit_bind; [apply no_exit_lift|intros p2].
  apply no_exit_bind; [apply no_exit_emit|intros _].
  apply no_exit_bind; [apply no_exit_get_content|intros b1].
  apply no_exit_bind; [apply no_exit_open_w|intros _].
  apply no_exit_bind; [apply no_exit_file_write|intros _].
  apply no_exit_bind; [apply no_exit_emit|intros _].
  apply no_exit_bind; [apply no_exit_get_content|intros b2].
  apply no_exit_bind; [apply no_exit_open_w|intros _].
  apply no_exit_file_write.
Qed.

(** Lines 23-129 end by [exit] in [download] only. *)
Lemma after_check_exit_inv live_version w code w' :
  after_check E live_version w = (Exit code, w') →
  download E live_version w = (Exit code, w').
Proof.
  unfold after_check. intros H.
  apply bind_inv in H as [(a & w1 & _ & H)|[(c & H & Hc)|(e & _ & H)]].
  - exfalso. revert H.
    apply no_exit_bind; [apply no_exit_load_tables|intros [G config_table]].
    apply no_exit_bind; [apply no_exit_write_parsed_proto|intros _].
    apply no_exit_bind; [apply no_exit_load_parsed|intros G'].
    apply no_exit_export.
  - by injection Hc as <-.
  - done.
Qed.

End NoExit.

(** X16: [main] calls [exit] in two places only, and a run that ends by
    such a call tells by the status which one it was.  [exit(0)] is the
    call of line 17: the version document was fetched, [version.json] was
    read, the two were equal; nothing was written and the last line
    printed is [No update].  [exit(1)] is the call of line 39: the two
    versions differed, [version.json] was rewritten with the fetched one,
    the resource list was fetched, and the last entry for
    [config.proto] or the last entry for [lqc.lqbin] was missing or
    empty; the last line printed says so and no other file was changed.
    This is about runs that end by [exit]: a run that returns or ends
    with an exception is not of this form. *)
Theorem exit_status_meaning (E : Env) (w w' : World) (code : Z) :
  main E w = (Exit code, w') →
  ∃ live_version c local_version,
    http_json E (URL +:+ "/version.json") = Some live_version
    ∧ fs w !! "version.json" = Some c
    ∧ json_of E c = Ok local_version
    ∧ ((code = 0
        ∧ py_eq E local_version live_version = true
        ∧ fs w' = fs w
        ∧ trace w' = trace w ++ [EGet (URL +:+ "/version.json");
                                 ERead "version.json"; EPrint "No update"])
       ∨ (code = 1
          ∧ py_eq E local_version live_version = false
          ∧ ∃ v rv res items,
              getitem live_version "version" = Ok v
              ∧ http_json E (URL +:+ "/resversion" +:+ py_format E v
                             +:+ ".json") = Some rv
              ∧ getitem rv "res" = Ok res
              ∧ dict_items res = Ok items
              ∧ truthy (last_info (config_entries items))
                && truthy (last_info (lqc_entries items)) = false
              ∧ fs w' = <["version.json" := Dumped live_version]> (fs w)
              ∧ trace w'
                = trace w
                  ++ [EGet (URL +:+ "/version.json"); ERead "version.json";
                      EPrint ("New Live version: "
                              +:+ py_format E live_version);
                      EOpenW "version.json";
                      EWrite "version.json" (Dumped live_version);
                      EGet (URL +:+ "/resversion" +:+ py_format E v
                            +:+ ".json");
                      EPrint "config.proto or lqc.lqbin not found"])).
Proof.
  unfold main. intros H.
  apply bind_inv in H as [(lv & w1 & Hcheck & H)|[(c0 & H & Hc)|(e & _ & H)]];
    [| |done].
  - rewrite check_version_run in Hcheck.
    destruct (http_json E (URL +:+ "/version.json")) as [live|] eqn:Hlive;
      [|done].
    destruct (fs w !! "version.json") as [c|] eqn:Hfile; [|done].
    cbn [fmap option_fmap option_map] in Hcheck.
    destruct (json_of E c) as [local|e] eqn:Hlocal; [|done].
    destruct (py_eq E local live) eqn:Heq; [done|].
    destruct (json_ok live); [|done].
    injection Hcheck as <- <-.
    exists live, c, local. split; [done|]. split; [done|]. split; [done|].
    right.
    apply after_check_exit_inv, download_exit_inv in H
      as (v & rv & res & items & Hv & Hrv & Hres & Hitems & Ht & -> & ->).
    split; [done|]. split; [done|].
    exists v, rv, res, items. cbn [fs trace].
    split_and!; try done. by rewrite <- app_assoc.
  - injection Hc as <-. rewrite check_version_run in H.
    destruct (http_json E (URL +:+ "/version.json")) as [live|] eqn:Hlive;
      [|done].
    destruct (fs w !! "version.json") as [c|] eqn:Hfile; [|done].
    cbn [fmap option_fmap option_map] in H.
    destruct (json_of E c) as [local|e] eqn:Hlocal; [|done].
    exists live, c, local. split; [done|]. split; [done|]. split; [done|].
    destruct (py_eq E local live) eqn:Heq.
    + left. by injection H as <- <-.
    + by destruct (json_ok live).
Qed.

Lemma exit_status_meaning_witness :
  let E := set_http_json serve_without_lqc Demo.env in
  let w := Demo.world [("version.json",
                        Dumped (VDict [("version", VStr "0.11.1.w")]))] in
  let w' := (main E w).2 in
  ∃ live_version c local_version,
    http_json E (URL +:+ "/version.json") = Some live_version
    ∧ fs w !! "version.json" = Some c
    ∧ json_of E c = Ok local_version
    ∧ ((1 = 0
        ∧ py_eq E local_version live_version = true
        ∧ fs w' = fs w
        ∧ trace w' = trace w ++ [EGet (URL +:+ "/version.json");
                                 ERead "version.json"; EPrint "No update"])
       ∨ (1 = 1
          ∧ py_eq E local_version live_version = false
          ∧ ∃ v rv res items,
              getitem live_version "version" = Ok v
              ∧ http_json E (URL +:+ "/resversion" +:+ py_format E v
                             +:+ ".json") = Some rv
              ∧ getitem rv "res" = Ok res
              ∧ dict_items res = Ok items
              ∧ truthy (last_info (config_entries items))
                && truthy (last_info (lqc_entries items)) = false
              ∧ fs w' = <["version.json" := Dumped live_version]> (fs w)
              ∧ trace w'
                = trace w
                  ++ [EGet (URL +:+ "/version.json"); ERead "version.json";
                      EPrint ("New Live version: "
                              +:+ py_format E live_version);
                      EOpenW "version.json";
                      EWrite "version.json" (Dumped live_version);
                      EGet (URL +:+ "/resversion" +:+ py_format E v
                            +:+ ".json");
                      EPrint "config.proto or lqc.lqbin not found"])).
Proof.
  apply (exit_status_meaning (set_http_json serve_without_lqc Demo.env)
           (Demo.world [("version.json",
                         Dumped (VDict [("version", VStr "0.11.1.w")]))])
           (main (set_http_json serve_without_lqc Demo.env)
              (Demo.world [("version.json",
                            Dumped (VDict [("version", VStr "0.11.1.w")]))])).2
           1).
  vm_compute. reflexivity.
Defined.

(** *** No schema compiler (line 54) *)

Lemma load_tables_no_protoc (E : Env) G w :
  protoc_installed E = false →
  load_tables E G w
  = (Raise FileNotFoundError,
     {| fs := fs w;
        trace := trace w
          ++ [ERun ["protoc"; "--python_out=."; "config.proto"]] |}).
Proof.
  intros Hinst. unfold load_tables, run_protoc.
  rewrite bind_assoc, emit_bind, Hinst. cbn [negb]. by rewrite raise_bind.
Qed.

(** X17: without the [protoc] executable the run ends with
    [FileNotFoundError] at the first compilation.  By then
    [version.json] holds the fetched version and both resources have
    been downloaded and written; nothing is generated or exported. *)
Theorem no_compiler_stops_after_downloads (E : Env) (w : World)
    (live_version local_version v rv res p1 p2 : pyval) (c : content)
    (items : list (string * pyval)) (b1 b2 : string) :
  http_json E (URL +:+ "/version.json") = Some live_version →
  fs w !! "version.json" = Some c →
  json_of E c = Ok local_version →
  py_eq E local_version live_version = false →
  json_ok live_version = true →
  getitem live_version "version" = Ok v →
  http_json E (URL +:+ "/resversion" +:+ py_format E v +:+ ".json") = Some rv →
  getitem rv "res" = Ok res →
  dict_items res = Ok items →
  truthy (last_info (config_entries items)) = true →
  truthy (last_info (lqc_entries items)) = true →
  getitem (last_info (config_entries items)) "prefix" = Ok p1 →
  getitem (last_info (lqc_entries items)) "prefix" = Ok p2 →
  http_content E (URL +:+ "/" +:+ py_format E p1 +:+ "/res/proto/config.proto")
  = Some b1 →
  http_content E (URL +:+ "/" +:+ py_format E p2 +:+ "/res/config/lqc.lqbin")
  = Some b2 →
  protoc_installed E = false →
  main E w
  = (Raise FileNotFoundError,
     {| fs := <["lqc.lqbin" := Text b2]>
                (<["config.proto" := Text b1]>
                   (<["version.json" := Dumped live_version]> (fs w)));
        trace := trace w
          ++ [EGet (URL +:+ "/version.json"); ERead "version.json";
              EPrint ("New Live version: " +:+ py_format E live_version);
              EOpenW "version.json";
              EWrite "version.json" (Dumped live_version);
              EGet (URL +:+ "/resversion" +:+ py_format E v +:+ ".json");
              EPrint "Download config.proto...";
              EGet (URL +:+ "/" +:+ py_format E p1
                    +:+ "/res/proto/config.proto");
              EOpenW "config.proto"; EWrite "config.proto" (Text b1);
              EPrint "Download lqc.lqbin...";
              EGet (URL +:+ "/" +:+ py_format E p2
                    +:+ "/res/config/lqc.lqbin");
              EOpenW "lqc.lqbin"; EWrite "lqc.lqbin" (Text b2);
              ERun ["protoc"; "--python_out=."; "config.proto"]] |}).
Proof.
  intros Hlive Hc Hlocal Hne Hok Hv Hrv Hres Hitems Htc Htl Hp1 Hp2 Hb1 Hb2
         Hinst.
  unfold main.
  erewrite bind_Return;
    [|by apply (check_version_new E w live_version c local_version)].
  unfold after_check.
  erewrite bind_Return;
    [|by apply (download_ok E _ live_version v rv res p1 p2 items b1 b2)].
  erewrite bind_Raise; [|by apply load_tables_no_protoc].
  cbn [fs trace]. by rewrite <- !app_assoc.
Qed.

Lemma no_compiler_stops_after_downloads_witness :
  main (without_protoc Demo.env)
       (Demo.world [("version.json",
                     Dumped (VDict [("version", VStr "0.11.1.w")]))])
  = (Raise FileNotFoundError,
     {| fs := <["lqc.lqbin" := Text "bundle"]>
                (<["config.proto" := Text "config"]>
                   (<["version.json" := Dumped Demo.live]>
                      (fs (Demo.world [("version.json",
                             Dumped (VDict [("version", VStr "0.11.1.w")]))]))));
        trace := []
          ++ [EGet (URL +:+ "/version.json"); ERead "version.json";
              EPrint ("New Live version: " +:+ Demo.format Demo.live);
              EOpenW "version.json";
              EWrite "version.json" (Dumped Demo.live);
              EGet (URL +:+ "/resversion" +:+ Demo.format (VStr "0.11.2.w")
                    +:+ ".json");
              EPrint "Download config.proto...";
              EGet (URL +:+ "/" +:+ Demo.format (VStr "v0.11.0.w")
                    +:+ "/res/proto/config.proto");
              EOpenW "config.proto"; EWrite "config.proto" (Text "config");
              EPrint "Download lqc.lqbin...";
              EGet (URL +:+ "/" +:+ Demo.format (VStr "v0.11.2.w")
                    +:+ "/res/config/lqc.lqbin");
              EOpenW "lqc.lqbin"; EWrite "lqc.lqbin" (Text "bundle");
              ERun ["protoc"; "--python_out=."; "config.proto"]] |}).
Proof.
  apply (no_compiler_stops_after_downloads (without_protoc Demo.env)
           (Demo.world [("version.json",
                         Dumped (VDict [("version", VStr "0.11.1.w")]))])
           Demo.live (VDict [("version", VStr "0.11.1.w")])
           (VStr "0.11.2.w") Demo.resversion
           (VDict [("res/proto/config.proto",
                    VDict [("prefix", VStr "v0.11.0.w")]);
                   ("res/config/lqc.lqbin",
                    VDict [("prefix", VStr "v0.11.2.w")])])
           (VStr "v0.11.0.w") (VStr "v0.11.2.w")
           (Dumped (VDict [("version", VStr "0.11.1.w")]))
           [("res/proto/config.proto", VDict [("prefix", VStr "v0.11.0.w")]);
            ("res/config/lqc.lqbin", VDict [("prefix", VStr "v0.11.2.w")])]
           "config" "bundle");
    reflexivity.
Defined.

(** *** The file of a key (line 107) *)

(** X18: two keys name the same output file exactly when they are the
    same key: blocks of different keys never write to one file. *)
Theorem same_file_same_key (key1 key2 : string) :
  bool_decide (data_path key1 = data_path key2) = bool_decide (key1 = key2).
Proof.
  apply bool_decide_ext. split.
  - apply data_path_inj.
  - by intros ->.
Qed.

(** *** Names the generated modules write over (lines 95-121) *)




(** X20: a block whose key names [pathlib.Path] (table [path], empty
    sheet name) and which has a row ends the export with
    [AttributeError]: [Path()] is a path, and a path has no
    [ParseFromString].  The file of the block is left empty. *)
Theorem Path_key_with_row_stops_export (E : Env) (G : gmap string pyobj)
    (data : SheetData) (field_msg : string) (rows : list string)
    (w : World) :
  G !! class_name (table data) (sheet data) = Some PathClass →
  Schema.data data = field_msg :: rows →
  export_one E G data w
  = (Raise AttributeError,
     {| fs := <[data_path (class_name (table data) (sheet data)) := Text ""]>
                (fs w);
        trace := trace w
                 ++ [EOpenW (data_path (class_name (table data) (sheet data)))]
     |}).
Proof.
  intros HG Hdata.
  apply (export_one_raise E G data PathClass); [done|].
  by rewrite Hdata.
Qed.

Lemma Path_key_with_row_stops_export_witness :
  export_one Demo.env main_globals
    {| table := "path"; sheet := ""; data := [Demo.row_9] |} (Demo.world [])
  = (Raise AttributeError,
     {| fs := <[data_path (class_name "path" "") := Text ""]> ∅;
        trace := [] ++ [EOpenW (data_path (class_name "path" ""))] |}).
Proof.
  apply (Path_key_with_row_stops_export Demo.env main_globals
           {| table := "path"; sheet := ""; data := [Demo.row_9] |}
           Demo.row_9 [] (Demo.world []));
    reflexivity.
Defined.

(** X21: where a regular file named [data] stands, line 98 raises
    [FileExistsError]: the export ends before its first line is printed
    and before any block is looked at; no file is changed by it. *)
Theorem data_file_stops_export (E : Env) (G : gmap string pyobj)
    (config_table : ConfigTables) (w : World) (c : content) :
  G !! "Path" = Some PathClass →
  fs w !! "data" = Some c →
  export E G config_table w
  = (Raise FileExistsError,
     {| fs := fs w; trace := trace w ++ [EMkdir "data"] |}).
Proof.
  intros HPath Hfile. unfold export, new_Path. rewrite HPath, ret_bind.
  apply bind_Raise. unfold mkdir, stat.
  rewrite emit_bind, bind_unfold. cbn [fs]. by rewrite Hfile.
Qed.

Lemma data_file_stops_export_witness :
  export Demo.env Demo.classes Demo.tables (Demo.world [("data", Text "")])
  = (Raise FileExistsError,
     {| fs := fs (Demo.world [("data", Text "")]);
        trace := [] ++ [EMkdir "data"] |}).
Proof.
  apply (data_file_stops_export Demo.env Demo.classes Demo.tables
           (Demo.world [("data", Text "")]) (Text ""));
    reflexivity.
Defined.



End Extras.
